(** * macscan: device discovery and reconciliation engine

    A shallow embedding of the parts of the MAC-scan backend that carry
    domain logic:

    - [SSHService.parseMacAddressTable] and [SSHService.isValidMAC]
      (the table parser),
    - [MacScanRunner._processDevices] (the reconciler, with its
      notification decisions),
    - [MacScanRunner._applyRetentionPolicy] (the retention enforcer),
    - [MacScanRunner.runJob] (the scan orchestrator),
    - [CryptoService] (the framing of encrypted passwords and their
      masking),
    - [Job.save], [Job.findById], [Job.delete] and [Job.updateStatus]
      (the Job model),
    - [updateDeviceWhitelistStatus] of the jobs routes,

    together with the part of the SQLite schema of [database/init.js]
    those functions read and write.

    Conventions of the embedding.

    - A JavaScript string is a [string]; an [ascii] stands for the code
      unit of the same number (U+0000 to U+00FF).
    - A JavaScript exception is the [Thrown] outcome; it carries the
      store as it was when the exception was raised, since the store is
      shared and nothing rolls it back.
    - SQL timestamps ([CURRENT_TIMESTAMP], [datetime]) are whole seconds
      in [Z]; [Date.now()] is milliseconds in [Z].  The statements of one
      call of [_processDevices] read one clock value, its [now].
    - [uuidv4()] draws from a counter kept in the store, so the primary
      keys it fills never clash; the job a run writes rows for is in
      [jobs], so the foreign keys hold.  The constraint that can fail is
      the unique index of [known_devices].
    - In the Job model the unique index of [job_whitelist] and the
      primary key of [ssh_hosts] can fail too, and deleting a row of
      [jobs] cascades to the tables that reference it
      ([foreign_keys = ON]).  The cipher of [CryptoService] is a
      parameter: what Node's [crypto] answers.
    - [parseInt] answers a JavaScript number: the integer its digits
      write, rounded to a double, or an infinity ([number]); the VLAN
      of an observation and of the rows written from it is such a
      number.
    - A SELECT gives its rows in the order of the index SQLite answers
      it from: the MACs of a whitelist ascending (the unique index of
      [job_whitelist] covers the query), the rows of [known_devices]
      and of [ssh_hosts] in the order of their insertion. *)

From Stdlib Require Import String Ascii List ZArith Bool Arith Lia DecimalString.
From Stdlib Require Import Sorted Permutation.
Import ListNotations.

Local Open Scope string_scope.
Local Open Scope list_scope.
Local Open Scope nat_scope.

(* ================================================================== *)
(** ** JavaScript string primitives used by the parser                *)
(* ================================================================== *)

(** The JavaScript numbers [parseInt] returns, [NaN] apart: a double
    whose value is an integer, or an infinity.  The two zeros are one
    number here: nothing in the program tells them apart, and SQLite
    stores both as the integer 0. *)
Inductive number : Type :=
| Finite (value : Z)
| Infinity (negative : bool).

Coercion Finite : Z >-> number.
Bind Scope Z_scope with number.

Module Js.

(** Code unit of a character. *)
Definition code (c : ascii) : nat := nat_of_ascii c.

(** [WhiteSpace] and [LineTerminator] code units below U+0100: TAB, LF,
    VT, FF, CR, SPACE and NO-BREAK SPACE.  This is the class of [\s]
    and of the characters removed by [trim]. *)
Definition isSpace (c : ascii) : bool :=
  let n := code c in
  ((9 <=? n) && (n <=? 13)) || (n =? 32) || (n =? 160).

Definition isDigit (c : ascii) : bool :=
  let n := code c in (48 <=? n) && (n <=? 57).

(** [String.prototype.toLowerCase], one code unit at a time: A-Z and the
    Latin-1 capitals (all of U+00C0..U+00DE but the multiplication
    sign) move up by 32. *)
Definition toLowerChar (c : ascii) : ascii :=
  let n := code c in
  if ((65 <=? n) && (n <=? 90))
     || ((192 <=? n) && (n <=? 214))
     || ((216 <=? n) && (n <=? 222))
  then ascii_of_nat (n + 32) else c.

Fixpoint toLowerCase (s : string) : string :=
  match s with
  | EmptyString => EmptyString
  | String c r => String (toLowerChar c) (toLowerCase r)
  end.

Fixpoint trimStart (s : string) : string :=
  match s with
  | EmptyString => EmptyString
  | String c r => if isSpace c then trimStart r else s
  end.

Fixpoint trimEnd (s : string) : string :=
  match s with
  | EmptyString => EmptyString
  | String c r =>
      match trimEnd r with
      | EmptyString => if isSpace c then EmptyString else String c EmptyString
      | r' => String c r'
      end
  end.

(** [s.trim()] *)
Definition trim (s : string) : string := trimEnd (trimStart s).

(** [s.startsWith(p)] *)
Definition startsWith (p s : string) : bool := String.prefix p s.

(** [s.includes(p)] *)
Fixpoint includes (p s : string) : bool :=
  String.prefix p s
  || match s with
     | EmptyString => false
     | String _ r => includes p r
     end.

(** [s.split(sep)] for a one-character separator: never empty, the
    empty string splits into one empty piece. *)
Fixpoint splitChar (sep : ascii) (s : string) : list string :=
  match s with
  | EmptyString => [EmptyString]
  | String c r =>
      if Ascii.eqb c sep then EmptyString :: splitChar sep r
      else match splitChar sep r with
           | tok :: toks => String c tok :: toks
           | [] => [String c EmptyString]
           end
  end.

(** [s.split(/\s+/)]: [tok] is the piece being read, [inRun] tells that
    the previous character was white space (the separator is a whole
    run).  A leading or trailing run leaves an empty first or last
    piece, as in JavaScript. *)
Fixpoint splitSpacesFrom (tok : string) (inRun : bool) (s : string)
  : list string :=
  match s with
  | EmptyString => [tok]
  | String c r =>
      if isSpace c then
        if inRun then splitSpacesFrom tok true r
        else tok :: splitSpacesFrom EmptyString true r
      else splitSpacesFrom (tok ++ String c EmptyString) false r
  end.

Definition splitSpaces (s : string) : list string :=
  splitSpacesFrom EmptyString false s.

(** [parts.join(' ')] *)
Definition join (sep : string) (parts : list string) : string :=
  String.concat sep parts.

(** [parts.slice(n)] *)
Definition slice {A : Type} (n : nat) (parts : list A) : list A := skipn n parts.

(** Value of the longest prefix of decimal digits, read left to right. *)
Fixpoint readDigits (acc : Z) (s : string) : Z :=
  match s with
  | EmptyString => acc
  | String c r =>
      if isDigit c
      then readDigits (acc * 10 + Z.of_nat (code c - 48)) r
      else acc
  end.

(** The double nearest to the integer [x >= 0], ties to the even
    significand (53 bits); [None] when that is beyond the largest
    double, that is from [2^1024 - 2^970] on. *)
Definition roundToDouble (x : Z) : option Z :=
  if (x <? 2 ^ 53)%Z then Some x
  else
    let shift := (Z.log2 x - 52)%Z in
    let q := Z.shiftr x shift in
    let rest := (x - Z.shiftl q shift)%Z in
    let half := Z.shiftl 1 (shift - 1) in
    let q' := if (half <? rest)%Z || ((rest =? half)%Z && Z.odd q)
              then (q + 1)%Z else q in
    let y := Z.shiftl q' shift in
    if (y <? 2 ^ 1024)%Z then Some y else None.

(** The Number value for [sign * mathInt]. *)
Definition toNumber (sign mathInt : Z) : number :=
  match roundToDouble mathInt with
  | Some y => Finite (sign * y)
  | None => Infinity (sign <? 0)%Z
  end.

(** [parseInt(s, 10)].  [None] is [NaN].  Leading white space is
    skipped, one sign is read, then the longest run of decimal digits;
    what follows the digits is ignored.  The result is the integer the
    digits write, as a double: exact below 2^53, rounded above, an
    infinity beyond the doubles.  It is never [NaN] once one digit was
    read. *)
Definition parseInt (s : string) : option number :=
  let s1 := trimStart s in
  let '(sign, s2) :=
    match s1 with
    | String "-"%char r => ((-1)%Z, r)
    | String "+"%char r => (1%Z, r)
    | _ => (1%Z, s1)
    end in
  match s2 with
  | String c _ => if isDigit c then Some (toNumber sign (readDigits 0 s2))
                  else None
  | EmptyString => None
  end.

(** [isNaN(x)] on the result of [parseInt]. *)
Definition isNaN (x : option number) : bool :=
  match x with None => true | Some _ => false end.

(** [s.charAt(i)]: the character at [i] as a string, the empty string
    when [i] is out of range. *)
Definition charAt (i : nat) (s : string) : string :=
  match String.get i s with
  | Some c => String c EmptyString
  | None => EmptyString
  end.

(** [s.repeat(n)] *)
Fixpoint repeat (s : string) (n : nat) : string :=
  match n with
  | O => EmptyString
  | S n' => (s ++ repeat s n')%string
  end.

End Js.

(** The line feed, as a string. *)
Definition nl : string := String (ascii_of_nat 10) EmptyString.

(* ================================================================== *)
(** ** SSHService: the table parser                                   *)
(* ================================================================== *)

(** One parsed line of the MAC address table ([devices.push({...})]). *)
Record observation : Type := mkObservation {
  mac_address : string;
  vlan_id : number;
  type : string;
  interface_name : string;
  host_name : string;
  detected_at : Z
}.

Module SSHService.

(** [[0-9a-f]] under the [i] flag. *)
Definition isHex (c : ascii) : bool :=
  let n := Js.code c in
  Js.isDigit c
  || ((97 <=? n) && (n <=? 102))
  || ((65 <=? n) && (n <=? 70)).

(** [[:-]] *)
Definition isSep (c : ascii) : bool :=
  Ascii.eqb c ":"%char || Ascii.eqb c "-"%char.

(** [([0-9a-f]{2}[:-]){n}] at the head of [s], for a hex class [hex] and
    a separator class [sep]: the rest of the input after [n] groups. *)
Fixpoint matchGroups (hex sep : ascii -> bool) (n : nat) (s : string)
  : option string :=
  match n with
  | O => Some s
  | S n' =>
      match s with
      | String a (String b (String c r)) =>
          if hex a && hex b && sep c then matchGroups hex sep n' r else None
      | _ => None
      end
  end.

(** [^(H{2}S){5}(H{2})$] for a hex class [H] and a separator class [S]. *)
Definition macPattern (hex sep : ascii -> bool) (s : string) : bool :=
  match matchGroups hex sep 5 s with
  | Some (String a (String b EmptyString)) => hex a && hex b
  | _ => false
  end.

(** [isValidMAC(mac)]: [/^([0-9a-f]{2}[:-]){5}([0-9a-f]{2})$/i.test(mac)] *)
Definition isValidMAC (mac : string) : bool := macPattern isHex isSep mac.

(** The test that skips headers, rules, pagination prompts and legend
    lines. *)
Definition skipLine (trimmedLine : string) : bool :=
  String.eqb trimmedLine ""
  || Js.includes "VlanId" trimmedLine
  || Js.includes "---" trimmedLine
  || Js.includes "--more--" trimmedLine
  || Js.includes "Codes:" trimmedLine
  || Js.startsWith "pv " trimmedLine.

(** Body of the [for (const line of lines)] loop: the observations the
    line adds to [devices] (none or one). *)
Definition parseLine (now : Z) (hostName line : string) : list observation :=
  let trimmedLine := Js.trim line in
  if skipLine trimmedLine then []
  else
    let parts := Js.splitSpaces trimmedLine in
    if 4 <=? List.length parts then
      let vlanId := Js.parseInt (nth 0 parts "") in
      let macAddress := Js.toLowerCase (nth 1 parts "") in
      let type := nth 2 parts "" in
      let interfaceName := Js.join " " (Js.slice 3 parts) in
      match vlanId with
      | Some v =>
          if isValidMAC macAddress
          then [mkObservation macAddress v type interfaceName hostName now]
          else []
      | None => []
      end
    else [].

(** [parseMacAddressTable(output, hostName)]; [now] is the clock read
    by [new Date()]. *)
Definition parseMacAddressTable (now : Z) (output hostName : string)
  : list observation :=
  flat_map (parseLine now hostName) (Js.splitChar (ascii_of_nat 10) output).

End SSHService.

(** *** The spec's wording of the parser's acceptance rule *)

(** The normal form the spec names for an emitted MAC: six groups of two
    lowercase hex digits separated by colons. *)
Definition isLowerHex (c : ascii) : bool :=
  let n := Js.code c in
  Js.isDigit c || ((97 <=? n) && (n <=? 102)).

Definition isColon (c : ascii) : bool := Ascii.eqb c ":"%char.

Definition colonLowercaseMAC (mac : string) : bool :=
  SSHService.macPattern isLowerHex isColon mac.

(** What the code does emit: lowercase hex digits, the separators of the
    input kept. *)
Definition lowercaseMAC (mac : string) : bool :=
  SSHService.macPattern isLowerHex SSHService.isSep mac.

(** A token that is an integer as a whole: an optional sign and then
    decimal digits only. *)
Fixpoint allDigits (s : string) : bool :=
  match s with
  | EmptyString => true
  | String c r => Js.isDigit c && allDigits r
  end.

Definition integerToken (s : string) : bool :=
  match s with
  | String "-"%char (String c r) => allDigits (String c r)
  | String "+"%char (String c r) => allDigits (String c r)
  | String c r => allDigits (String c r)
  | EmptyString => false
  end.

(* ================================================================== *)
(** ** The store: tables of database/init.js                          *)
(* ================================================================== *)

(** [jobs] *)
Module Job.
Record row : Type := mk {
  id : string;
  name : string;
  vlan_id : option Z;
  notifications_enabled : Z;
  notify_new_macs : Z;
  notify_unauthorized_macs : Z;
  notify_ip_changes : Z;
  retention_policy : string;
  retention_days : Z;
  status : string;
  updated_at : Z;
  last_run : option Z
}.
Definition with_status (s : string) (now : Z) (r : row) : row :=
  mk (id r) (name r) (vlan_id r) (notifications_enabled r) (notify_new_macs r)
     (notify_unauthorized_macs r) (notify_ip_changes r) (retention_policy r)
     (retention_days r) s now (last_run r).
Definition with_last_run (t : Z) (r : row) : row :=
  mk (id r) (name r) (vlan_id r) (notifications_enabled r) (notify_new_macs r)
     (notify_unauthorized_macs r) (notify_ip_changes r) (retention_policy r)
     (retention_days r) (status r) (updated_at r) (Some t).
End Job.

(** [ssh_hosts] *)
Module SshHost.
Record row : Type := mk {
  id : string;
  job_id : string;
  name : string;
  host : string;
  port : Z;
  username : string;
  password_encrypted : string;
  enabled : Z
}.
End SshHost.

(** [job_whitelist] *)
Module Whitelist.
Record row : Type := mk {
  job_id : string;
  mac_address : string
}.
End Whitelist.

(** [job_runs] *)
Module JobRun.
Record row : Type := mk {
  id : nat;
  job_id : string;
  status : string;
  hosts_scanned : nat;
  devices_found : nat;
  new_devices : nat;
  warnings : nat;
  started_at : Z;
  finished_at : option Z;
  duration : option Z;
  error_message : option string;
  debug_info : option string
}.
End JobRun.

(** [known_devices], with [UNIQUE(job_id, mac_address, host_name)] *)
Module KnownDevice.
Record row : Type := mk {
  id : nat;
  job_id : string;
  mac_address : string;
  host_name : string;
  interface_name : string;
  vlan_id : number;
  whitelisted : Z;
  first_seen : Z;
  last_seen : Z;
  status : string
}.
End KnownDevice.

(** [notifications] *)
Module Notification.
Record row : Type := mk {
  id : nat;
  job_id : string;
  job_name : string;
  type : string;
  message : string;
  mac_address : string;
  host_name : string;
  interface_name : string;
  created_at : Z;
  read : Z
}.
End Notification.

(** [device_history] *)
Module DeviceHistory.
Record row : Type := mk {
  id : nat;
  job_id : string;
  mac_address : string;
  host_name : string;
  interface_name : string;
  vlan_id : number;
  detected_at : Z
}.
End DeviceHistory.

(** The database handle returned by [getDatabase()], and the counter
    [uuidv4()] draws from. *)
Record database : Type := mkDatabase {
  jobs : list Job.row;
  ssh_hosts : list SshHost.row;
  job_whitelist : list Whitelist.row;
  job_runs : list JobRun.row;
  known_devices : list KnownDevice.row;
  notifications : list Notification.row;
  device_history : list DeviceHistory.row;
  next_uuid : nat
}.

Definition with_jobs (v : list Job.row) (db : database) : database :=
  mkDatabase v (ssh_hosts db) (job_whitelist db) (job_runs db)
             (known_devices db) (notifications db) (device_history db)
             (next_uuid db).

Definition with_job_runs (v : list JobRun.row) (db : database) : database :=
  mkDatabase (jobs db) (ssh_hosts db) (job_whitelist db) v
             (known_devices db) (notifications db) (device_history db)
             (next_uuid db).

Definition with_known_devices (v : list KnownDevice.row) (db : database)
  : database :=
  mkDatabase (jobs db) (ssh_hosts db) (job_whitelist db) (job_runs db)
             v (notifications db) (device_history db) (next_uuid db).

Definition with_notifications (v : list Notification.row) (db : database)
  : database :=
  mkDatabase (jobs db) (ssh_hosts db) (job_whitelist db) (job_runs db)
             (known_devices db) v (device_history db) (next_uuid db).

Definition with_device_history (v : list DeviceHistory.row) (db : database)
  : database :=
  mkDatabase (jobs db) (ssh_hosts db) (job_whitelist db) (job_runs db)
             (known_devices db) (notifications db) v (next_uuid db).

Definition with_next_uuid (n : nat) (db : database) : database :=
  mkDatabase (jobs db) (ssh_hosts db) (job_whitelist db) (job_runs db)
             (known_devices db) (notifications db) (device_history db) n.

(* ================================================================== *)
(** ** Calls that may throw                                           *)
(* ================================================================== *)

(** Outcome of a call over a mutable state [S]: it returns a value or
    throws a message, and either way leaves a state behind. *)
Inductive outcome (S A : Type) : Type :=
| Returned (a : A) (s : S)
| Thrown (message : string) (s : S).
Arguments Returned {S A} a s.
Arguments Thrown {S A} message s.

Definition stateOf {S A : Type} (o : outcome S A) : S :=
  match o with
  | Returned _ s => s
  | Thrown _ s => s
  end.

Definition M (A : Type) : Type := database -> outcome database A.

Definition ret {A : Type} (a : A) : M A := fun db => Returned a db.

Definition throw {A : Type} (message : string) : M A :=
  fun db => Thrown message db.

Definition bind {A B : Type} (m : M A) (f : A -> M B) : M B :=
  fun db =>
    match m db with
    | Returned a db' => f a db'
    | Thrown e db' => Thrown e db'
    end.

Notation "x <- m ;; k" := (bind m (fun x => k))
  (at level 61, m at next level, right associativity).
Notation "m ;;; k" := (bind m (fun _ => k))
  (at level 61, right associativity).

(** [for (const x of xs) { vars = body(x, vars) }]: stops at the first
    exception. *)
Fixpoint forEach {A V : Type} (body : A -> V -> M V) (xs : list A) (vars : V)
  : M V :=
  match xs with
  | [] => ret vars
  | x :: rest => vars' <- body x vars ;; forEach body rest vars'
  end.

(** JavaScript truthiness of a number read from a 0/1 column. *)
Definition truthy (z : Z) : bool := negb (Z.eqb z 0).

(** [uuidv4()] *)
Definition uuidv4 : M nat :=
  fun db => Returned (next_uuid db) (with_next_uuid (S (next_uuid db)) db).

(* ================================================================== *)
(** ** A JavaScript [Map] with string keys                            *)
(* ================================================================== *)

(** Entries are kept in insertion order, which is the order [for ... of]
    visits them in. *)
Module JsMap.
Section WithValue.
Context {V : Type}.

Fixpoint get (k : string) (m : list (string * V)) : option V :=
  match m with
  | [] => None
  | (k', v) :: rest => if String.eqb k k' then Some v else get k rest
  end.

Definition has (k : string) (m : list (string * V)) : bool :=
  match get k m with Some _ => true | None => false end.

(** [m.set(k, v)]: an existing key keeps its place. *)
Fixpoint set (k : string) (v : V) (m : list (string * V))
  : list (string * V) :=
  match m with
  | [] => [(k, v)]
  | (k', v') :: rest =>
      if String.eqb k k' then (k', v) :: rest else (k', v') :: set k v rest
  end.

(** [m.delete(k)] *)
Fixpoint delete (k : string) (m : list (string * V)) : list (string * V) :=
  match m with
  | [] => []
  | (k', v') :: rest =>
      if String.eqb k k' then delete k rest else (k', v') :: delete k rest
  end.

Definition keys (m : list (string * V)) : list string := map fst m.
End WithValue.
End JsMap.

(* ================================================================== *)
(** ** The SQL statements the runner prepares                         *)
(* ================================================================== *)

Module Sql.

(** [WHERE job_id = ? AND mac_address = ? AND host_name = ?] *)
Definition sameDevice (jobId mac host : string) (r : KnownDevice.row) : bool :=
  String.eqb (KnownDevice.job_id r) jobId
  && String.eqb (KnownDevice.mac_address r) mac
  && String.eqb (KnownDevice.host_name r) host.

(** [SELECT * FROM known_devices WHERE job_id = ?] *)
Definition selectKnownDevices (jobId : string) (db : database)
  : list KnownDevice.row :=
  filter (fun r => String.eqb (KnownDevice.job_id r) jobId) (known_devices db).

(** The message of the exception SQLite raises on the unique index of
    [known_devices]. *)
Definition uniqueViolation : string :=
  "UNIQUE constraint failed: known_devices.job_id, "
  ++ "known_devices.mac_address, known_devices.host_name".

(** [INSERT INTO known_devices (...) VALUES (?, ?, ?, ?, ?, ?, ?,
    CURRENT_TIMESTAMP, CURRENT_TIMESTAMP, 'active')].  The table's
    [UNIQUE(job_id, mac_address, host_name)] rejects a second row for
    the same triple: the statement throws and stores nothing. *)
Definition insertKnownDevice (now : Z) (id : nat)
    (jobId mac host interface : string) (vlan : number) (whitelisted : Z)
  : M unit :=
  fun db =>
    if existsb (sameDevice jobId mac host) (known_devices db)
    then Thrown uniqueViolation db
    else Returned tt
           (with_known_devices
              (known_devices db ++
               [KnownDevice.mk id jobId mac host interface vlan whitelisted
                               now now "active"])
              db).

(** [SET interface_name = ?, vlan_id = ?, last_seen = CURRENT_TIMESTAMP,
    status = 'active'] on one row. *)
Definition touch (now : Z) (interface : string) (vlan : number)
    (r : KnownDevice.row) : KnownDevice.row :=
  KnownDevice.mk (KnownDevice.id r) (KnownDevice.job_id r)
                 (KnownDevice.mac_address r) (KnownDevice.host_name r)
                 interface vlan (KnownDevice.whitelisted r)
                 (KnownDevice.first_seen r) now "active".

(** [UPDATE known_devices SET interface_name = ?, vlan_id = ?,
    last_seen = CURRENT_TIMESTAMP, status = 'active'
    WHERE job_id = ? AND mac_address = ? AND host_name = ?] *)
Definition updateKnownDevice (now : Z) (interface : string) (vlan : number)
    (jobId mac host : string) : M unit :=
  fun db =>
    Returned tt
      (with_known_devices
         (map (fun r => if sameDevice jobId mac host r
                        then touch now interface vlan r else r)
              (known_devices db))
         db).

(** [SET status = 'inactive'] on one row. *)
Definition retire (r : KnownDevice.row) : KnownDevice.row :=
  KnownDevice.mk (KnownDevice.id r) (KnownDevice.job_id r)
                 (KnownDevice.mac_address r) (KnownDevice.host_name r)
                 (KnownDevice.interface_name r) (KnownDevice.vlan_id r)
                 (KnownDevice.whitelisted r) (KnownDevice.first_seen r)
                 (KnownDevice.last_seen r) "inactive".

(** [UPDATE known_devices SET status = 'inactive'
    WHERE job_id = ? AND mac_address = ? AND host_name = ?] *)
Definition updateInactive (jobId mac host : string) : M unit :=
  fun db =>
    Returned tt
      (with_known_devices
         (map (fun r => if sameDevice jobId mac host r then retire r else r)
              (known_devices db))
         db).

(** [INSERT INTO device_history (...) VALUES (?, ?, ?, ?, ?, ?,
    CURRENT_TIMESTAMP)] *)
Definition insertHistory (now : Z) (id : nat)
    (jobId mac host interface : string) (vlan : number) : M unit :=
  fun db =>
    Returned tt
      (with_device_history
         (device_history db ++
          [DeviceHistory.mk id jobId mac host interface vlan now])
         db).

(** [DELETE FROM known_devices WHERE job_id = ? AND status = ?] *)
Definition deleteByStatus (jobId status : string) : M unit :=
  fun db =>
    Returned tt
      (with_known_devices
         (filter (fun r => negb (String.eqb (KnownDevice.job_id r) jobId
                                 && String.eqb (KnownDevice.status r) status))
                 (known_devices db))
         db).

(** [datetime('now', '-' || ? || ' days')]: [None] is SQL [NULL].  A
    negative parameter makes the modifier read [--n days], which is not
    a modifier, and the result is [NULL]. *)
Definition datetimeDaysAgo (now days : Z) : option Z :=
  if (days <? 0)%Z then None else Some (now - days * 86400)%Z.

(** [x < y] where [y] may be [NULL]: a [NULL] comparison selects no row. *)
Definition sqlLt (x : Z) (y : option Z) : bool :=
  match y with
  | Some y' => (x <? y')%Z
  | None => false
  end.

(** [DELETE FROM known_devices WHERE job_id = ? AND status = ?
    AND datetime(last_seen) < datetime('now', '-' || ? || ' days')] *)
Definition deleteOlderThan (now : Z) (jobId status : string) (days : Z)
  : M unit :=
  fun db =>
    Returned tt
      (with_known_devices
         (filter (fun r => negb (String.eqb (KnownDevice.job_id r) jobId
                                 && String.eqb (KnownDevice.status r) status
                                 && sqlLt (KnownDevice.last_seen r)
                                          (datetimeDaysAgo now days)))
                 (known_devices db))
         db).

(** [SELECT * FROM jobs WHERE id = ? AND status = ?] read with [get]. *)
Definition selectJob (jobId status : string) (db : database)
  : option Job.row :=
  find (fun j => String.eqb (Job.id j) jobId
                 && String.eqb (Job.status j) status)
       (jobs db).

(** [SELECT * FROM ssh_hosts WHERE job_id = ? AND enabled = 1] *)
Definition selectEnabledHosts (jobId : string) (db : database)
  : list SshHost.row :=
  filter (fun h => String.eqb (SshHost.job_id h) jobId
                   && Z.eqb (SshHost.enabled h) 1)
         (ssh_hosts db).

(** Where a key goes in an index that is in ascending order (BINARY
    collation: code units are compared one by one, a prefix comes
    first). *)
Fixpoint insertKey (key : string) (index : list string) : list string :=
  match index with
  | [] => [key]
  | k :: rest => if String.leb key k then key :: index
                 else k :: insertKey key rest
  end.

(** The keys in the order of the index. *)
Definition indexOrder (keys : list string) : list string :=
  fold_right insertKey [] keys.

(** [SELECT mac_address FROM job_whitelist WHERE job_id = ?].  The
    statement is answered from the index of [UNIQUE(job_id,
    mac_address)], which holds both columns: the MACs of the job come
    out in ascending order, not in the order of their insertion. *)
Definition selectWhitelist (jobId : string) (db : database) : list string :=
  indexOrder
    (map Whitelist.mac_address
         (filter (fun w => String.eqb (Whitelist.job_id w) jobId)
                 (job_whitelist db))).

(** [INSERT INTO job_runs (id, job_id, status, hosts_scanned, started_at)
    VALUES (?, ?, 'running', ?, CURRENT_TIMESTAMP)]; the other columns
    take their defaults. *)
Definition insertJobRun (now : Z) (runId : nat) (jobId : string)
    (hostsScanned : nat) : M unit :=
  fun db =>
    Returned tt
      (with_job_runs
         (job_runs db ++
          [JobRun.mk runId jobId "running" hostsScanned 0 0 0 now
                     None None None None])
         db).

(** [UPDATE jobs SET status = ?, last_run = CURRENT_TIMESTAMP
    WHERE id = ?], followed by the trigger [update_jobs_timestamp]. *)
Definition updateJobRunning (now : Z) (status jobId : string) : M unit :=
  fun db =>
    Returned tt
      (with_jobs
         (map (fun j => if String.eqb (Job.id j) jobId
                        then Job.with_last_run now (Job.with_status status now j)
                        else j)
              (jobs db))
         db).

(** [UPDATE jobs SET status = ? WHERE id = ?], followed by the trigger
    [update_jobs_timestamp]. *)
Definition updateJobStatus (now : Z) (status jobId : string) : M unit :=
  fun db =>
    Returned tt
      (with_jobs
         (map (fun j => if String.eqb (Job.id j) jobId
                        then Job.with_status status now j else j)
              (jobs db))
         db).

(** [UPDATE job_runs SET status = 'completed',
    finished_at = CURRENT_TIMESTAMP, duration = ?, devices_found = ?,
    new_devices = ?, warnings = ?, debug_info = ? WHERE id = ?] *)
Definition completeJobRun (now duration : Z)
    (devicesFound newDevices warnings : nat) (debugInfo : string)
    (runId : nat) : M unit :=
  fun db =>
    Returned tt
      (with_job_runs
         (map (fun r => if Nat.eqb (JobRun.id r) runId
                        then JobRun.mk (JobRun.id r) (JobRun.job_id r)
                               "completed" (JobRun.hosts_scanned r)
                               devicesFound newDevices warnings
                               (JobRun.started_at r) (Some now)
                               (Some duration) (JobRun.error_message r)
                               (Some debugInfo)
                        else r)
              (job_runs db))
         db).

(** [UPDATE job_runs SET status = 'failed',
    finished_at = CURRENT_TIMESTAMP, error_message = ? WHERE id = ?] *)
Definition failJobRun (now : Z) (message : string) (runId : nat) : M unit :=
  fun db =>
    Returned tt
      (with_job_runs
         (map (fun r => if Nat.eqb (JobRun.id r) runId
                        then JobRun.mk (JobRun.id r) (JobRun.job_id r)
                               "failed" (JobRun.hosts_scanned r)
                               (JobRun.devices_found r) (JobRun.new_devices r)
                               (JobRun.warnings r) (JobRun.started_at r)
                               (Some now) (JobRun.duration r) (Some message)
                               (JobRun.debug_info r)
                        else r)
              (job_runs db))
         db).

End Sql.

(* ================================================================== *)
(** ** NotificationService                                            *)
(* ================================================================== *)

(** The argument of [createNotification]. *)
Record notificationData : Type := mkNotificationData {
  nd_job_id : string;
  nd_job_name : string;
  nd_type : string;
  nd_message : string;
  nd_mac_address : string;
  nd_host_name : string;
  nd_interface_name : string
}.

Module NotificationService.

(** Modelled from the spec: [NotificationService.createNotification],
    whose source is missing.  The spec has notifications written
    append-only to the notification sink, each one a new record with the
    job and device context it was given, unread, dated at creation. *)
Definition createNotification (now : Z) (d : notificationData) : M unit :=
  id <- uuidv4 ;;
  fun db =>
    Returned tt
      (with_notifications
         (notifications db ++
          [Notification.mk id (nd_job_id d) (nd_job_name d) (nd_type d)
                           (nd_message d) (nd_mac_address d)
                           (nd_host_name d) (nd_interface_name d) now 0%Z])
         db).

End NotificationService.

(* ================================================================== *)
(** ** MacScanRunner                                                  *)
(* ================================================================== *)

(** What [_processDevices] returns. *)
Module Result.
Record t : Type := mk {
  devicesFound : nat;
  newDevices : nat;
  warnings : nat
}.
End Result.

(** What the transport and the clock answer during one run.
    [executeCommand] is the SSH session ([success], [output], [error]);
    [decrypt] is [CryptoService.decrypt], [None] when it throws.  The
    statements before the scan run at [startTime], those after it at
    [finishTime] (milliseconds). *)
Record execResult : Type := mkExecResult {
  success : bool;
  output : string;
  error : string
}.

Record environment : Type := mkEnvironment {
  decrypt : string -> option string;
  executeCommand : string -> Z -> string -> string -> string -> execResult;
  startTime : Z;
  finishTime : Z
}.

Module MacScanRunner.

(** The variables [_processDevices] keeps across its loops. *)
Record locals : Type := mkLocals {
  knownDevices : list (string * KnownDevice.row);
  newDevices : nat;
  warnings : nat
}.

(** [`${mac_address}:${host_name}`] *)
Definition deviceKey (mac host : string) : string := mac ++ ":" ++ host.

(** [whitelist.has(mac)] on the [Set] built in [runJob]. *)
Definition has (whitelist : list string) (mac : string) : bool :=
  existsb (String.eqb mac) whitelist.

(** The map filled from [knownDevicesStmt.all(jobId)]. *)
Definition loadKnownDevices (jobId : string) (db : database)
  : list (string * KnownDevice.row) :=
  fold_left
    (fun m device =>
       JsMap.set (deviceKey (KnownDevice.mac_address device)
                            (KnownDevice.host_name device))
                 device m)
    (Sql.selectKnownDevices jobId db) [].

(** [_applyRetentionPolicy(jobId, job)] *)
Definition _applyRetentionPolicy (now : Z) (jobId : string) (job : Job.row)
  : M unit :=
  if String.eqb (Job.retention_policy job) "forever" then ret tt
  else if String.eqb (Job.retention_policy job) "remove"
  then Sql.deleteByStatus jobId "inactive"
  else if String.eqb (Job.retention_policy job) "days"
  then Sql.deleteOlderThan now jobId "inactive" (Job.retention_days job)
  else ret tt.

(** The notification of the new-device branch. *)
Definition notifyNewDevice (now : Z) (jobId : string) (job : Job.row)
    (device : observation) (isWhitelisted : bool) (vars : locals)
  : M locals :=
  if truthy (Job.notifications_enabled job) then
    if isWhitelisted && truthy (Job.notify_new_macs job) then
      NotificationService.createNotification now
        (mkNotificationData jobId (Job.name job) "information"
           ("New authorized device discovered: " ++ mac_address device
            ++ " on " ++ host_name device)
           (mac_address device) (host_name device) (interface_name device)) ;;;
      ret vars
    else if negb isWhitelisted && truthy (Job.notify_unauthorized_macs job) then
      let vars' := mkLocals (knownDevices vars) (newDevices vars)
                            (S (warnings vars)) in
      NotificationService.createNotification now
        (mkNotificationData jobId (Job.name job) "warning"
           ("Unauthorized device detected: " ++ mac_address device
            ++ " on " ++ host_name device)
           (mac_address device) (host_name device) (interface_name device)) ;;;
      ret vars'
    else ret vars
  else ret vars.

(** The notification of the existing-device branch. *)
Definition notifyMoved (now : Z) (jobId : string) (job : Job.row)
    (device : observation) (existingDevice : KnownDevice.row) : M unit :=
  if negb (String.eqb (KnownDevice.interface_name existingDevice)
                      (interface_name device))
     && truthy (Job.notifications_enabled job)
     && truthy (Job.notify_ip_changes job)
  then
    NotificationService.createNotification now
      (mkNotificationData jobId (Job.name job) "information"
         ("Device " ++ mac_address device ++ " moved from "
          ++ KnownDevice.interface_name existingDevice ++ " to "
          ++ interface_name device ++ " on " ++ host_name device)
         (mac_address device) (host_name device) (interface_name device))
  else ret tt.

(** Body of [for (const device of devices)]. *)
Definition processDevice (now : Z) (jobId : string) (whitelist : list string)
    (job : Job.row) (device : observation) (vars : locals) : M locals :=
  let key := deviceKey (mac_address device) (host_name device) in
  let isWhitelisted := has whitelist (mac_address device) in
  vars' <-
    match JsMap.get key (knownDevices vars) with
    | None =>
        let vars1 := mkLocals (knownDevices vars) (S (newDevices vars))
                              (warnings vars) in
        id <- uuidv4 ;;
        Sql.insertKnownDevice now id jobId (mac_address device)
          (host_name device) (interface_name device) (vlan_id device)
          (if isWhitelisted then 1%Z else 0%Z) ;;;
        notifyNewDevice now jobId job device isWhitelisted vars1
    | Some existingDevice =>
        notifyMoved now jobId job device existingDevice ;;;
        Sql.updateKnownDevice now (interface_name device) (vlan_id device)
          jobId (mac_address device) (host_name device) ;;;
        ret (mkLocals (JsMap.delete key (knownDevices vars))
                      (newDevices vars) (warnings vars))
    end ;;
  id <- uuidv4 ;;
  Sql.insertHistory now id jobId (mac_address device) (host_name device)
    (interface_name device) (vlan_id device) ;;;
  ret vars'.

(** Body of [for (const [deviceKey, device] of knownDevices)]. *)
Definition markInactive (jobId : string) (entry : string * KnownDevice.row)
    (u : unit) : M unit :=
  Sql.updateInactive jobId (KnownDevice.mac_address (snd entry))
                     (KnownDevice.host_name (snd entry)).

(** [_processDevices] up to the call of the retention policy: the known
    devices are loaded, every device of the batch is processed, and the
    devices that were not seen are marked inactive. *)
Definition reconcile (now : Z) (jobId : string) (devices : list observation)
    (whitelist : list string) (job : Job.row) : M locals :=
  fun db =>
    (vars <- forEach (processDevice now jobId whitelist job) devices
                     (mkLocals (loadKnownDevices jobId db) 0 0) ;;
     forEach (markInactive jobId) (knownDevices vars) tt ;;;
     ret vars) db.

(** [_processDevices(jobId, devices, whitelist, job)] *)
Definition _processDevices (now : Z) (jobId : string)
    (devices : list observation) (whitelist : list string) (job : Job.row)
  : M Result.t :=
  vars <- reconcile now jobId devices whitelist job ;;
  _applyRetentionPolicy now jobId job ;;;
  ret (Result.mk (List.length devices) (newDevices vars) (warnings vars)).

(** State of a [MacScanRunner]: the database handle and [this.runningJobs]
    ([jobId -> { runId, startTime }]). *)
Record runner : Type := mkRunner {
  db : database;
  runningJobs : list (string * (nat * Z))
}.

Definition showNat (n : nat) : string :=
  DecimalString.NilZero.string_of_uint (Nat.to_uint n).

Definition showZ (z : Z) : string :=
  DecimalString.NilZero.string_of_int (Z.to_int z).

(** The [vlanId ? ... : ...] of [getMacAddressTable]. *)
Definition macTableCommand (vlanId : option Z) : string :=
  match vlanId with
  | Some v => if truthy v then "show mac address-table vlan " ++ showZ v
              else "show mac address-table"
  | None => "show mac address-table"
  end.

(** [SSHService.getMacAddressTable(hostConfig, vlanId)]: the result of
    the command and, on success, the parsed devices. *)
Definition getMacAddressTable (env : environment) (host : string) (port : Z)
    (username password : string) (vlanId : option Z)
  : execResult * list observation :=
  let result := executeCommand env host port username password
                               (macTableCommand vlanId) in
  if success result
  then (result, SSHService.parseMacAddressTable (finishTime env / 1000)
                  (output result) host)
  else (result, []).

(** The variables of the scan loop of [runJob]. *)
Record scan : Type := mkScan {
  allDevices : list observation;
  debugInfo : list string;
  successfulHosts : nat
}.

(** Body of [for (const host of sshHosts)], with its own [try]/[catch].
    The lines pushed on [debugInfo] are kept without their bracketed
    time stamp. *)
Definition scanHost (env : environment) (job : Job.row) (host : SshHost.row)
    (s : scan) : scan :=
  let started :=
    debugInfo s ++
    [("Starting scan on " ++ SshHost.name host ++ " (" ++ SshHost.host host
      ++ ":" ++ showZ (SshHost.port host) ++ ")")%string] in
  match decrypt env (SshHost.password_encrypted host) with
  | None =>
      mkScan (allDevices s)
             (started ++ [("Error scanning " ++ SshHost.name host ++ ": "
                           ++ "Failed to decrypt password")%string])
             (successfulHosts s)
  | Some password =>
      let '(result, devices) :=
        getMacAddressTable env (SshHost.host host) (SshHost.port host)
                           (SshHost.username host) password (Job.vlan_id job) in
      if success result then
        mkScan (allDevices s ++ devices)
               (started ++ [("Successfully scanned " ++ SshHost.name host
                             ++ ": " ++ showNat (List.length devices)
                             ++ " devices found")%string])
               (S (successfulHosts s))
      else
        mkScan (allDevices s)
               (started ++ [("Failed to scan " ++ SshHost.name host ++ ": "
                             ++ error result)%string])
               (successfulHosts s)
  end.

Definition scanHosts (env : environment) (job : Job.row)
    (sshHosts : list SshHost.row) : scan :=
  fold_left (fun s host => scanHost env job host s) sshHosts (mkScan [] [] 0).

(** The [try] block of [runJob]. *)
Definition runJobBody (env : environment) (jobId : string) (job : Job.row)
    (sshHosts : list SshHost.row) (whitelist : list string) (runId : nat)
  : M unit :=
  let now := (finishTime env / 1000)%Z in
  let s := scanHosts env job sshHosts in
  if successfulHosts s =? 0 then throw "Failed to scan any hosts"
  else
    result <- _processDevices now jobId (allDevices s) whitelist job ;;
    Sql.completeJobRun now ((finishTime env - startTime env) / 1000)%Z
      (Result.devicesFound result) (Result.newDevices result)
      (Result.warnings result) (Js.join nl (debugInfo s)) runId ;;;
    Sql.updateJobStatus now "active" jobId.

(** The [catch (error)] block of [runJob]; it throws [error] again. *)
Definition runJobCatch (env : environment) (jobId : string) (runId : nat)
    (message : string) : M unit :=
  let now := (finishTime env / 1000)%Z in
  Sql.failJobRun now message runId ;;;
  Sql.updateJobStatus now "active" jobId ;;;
  throw message.

(** The statements of [runJob] before its [try]: the run is created as
    running and the job is marked running. *)
Definition startRun (env : environment) (jobId : string) (hostsScanned : nat)
  : M nat :=
  let start := (startTime env / 1000)%Z in
  runId <- uuidv4 ;;
  Sql.insertJobRun start runId jobId hostsScanned ;;;
  Sql.updateJobRunning start "running" jobId ;;;
  ret runId.

Definition tryCatch {A : Type} (body : M A) (handler : string -> M A) : M A :=
  fun d =>
    match body d with
    | Returned a d' => Returned a d'
    | Thrown message d' => handler message d'
    end.

(** [runJob(jobId)] *)
Definition runJob (env : environment) (jobId : string) (this : runner)
  : outcome runner unit :=
  if JsMap.has jobId (runningJobs this)
  then Thrown "Job is already running" this
  else
    match Sql.selectJob jobId "active" (db this) with
    | None => Thrown "Job not found or inactive" this
    | Some job =>
        let sshHosts := Sql.selectEnabledHosts jobId (db this) in
        if List.length sshHosts =? 0
        then Thrown "No enabled SSH hosts configured for this job" this
        else
          let whitelist := Sql.selectWhitelist jobId (db this) in
          match startRun env jobId (List.length sshHosts) (db this) with
          | Thrown message d => Thrown message (mkRunner d (runningJobs this))
          | Returned runId d =>
              let running :=
                JsMap.set jobId (runId, startTime env) (runningJobs this) in
              (* try { ... } catch (error) { ... } finally { delete } *)
              match tryCatch (runJobBody env jobId job sshHosts whitelist runId)
                             (runJobCatch env jobId runId) d with
              | Returned _ d' =>
                  Returned tt (mkRunner d' (JsMap.delete jobId running))
              | Thrown message d' =>
                  Thrown message (mkRunner d' (JsMap.delete jobId running))
              end
          end
    end.

(** [isJobRunning(jobId)] *)
Definition isJobRunning (jobId : string) (this : runner) : bool :=
  JsMap.has jobId (runningJobs this).

(** [getRunningJobs()] *)
Definition getRunningJobs (this : runner) : list string :=
  JsMap.keys (runningJobs this).

End MacScanRunner.

(* ================================================================== *)
(** ** CryptoService                                                  *)
(* ================================================================== *)

(** What Node's [crypto] computes under the key of the process.
    [cipher text] is [cipher.update(text, 'utf8', 'hex') +
    cipher.final('hex')] and [decipher hex] is
    [decipher.update(hex, 'hex', 'utf8') + decipher.final('utf8')];
    [None] when the call throws. *)
Record crypto : Type := mkCrypto {
  cipher : string -> option string;
  decipher : string -> option string
}.

Module CryptoService.

(** [encrypt(text)]; [iv] is the hex text of [crypto.randomBytes(16)].
    [None]: it throws ['Failed to encrypt password']. *)
Definition encrypt (c : crypto) (iv text : string) : option string :=
  match cipher c text with
  | Some encrypted => Some (iv ++ ":" ++ encrypted)%string
  | None => None
  end.

(** [decrypt(encryptedText)]: the first piece of the split is shifted
    off as the iv, the other pieces are joined again and deciphered.
    [None]: it throws ['Failed to decrypt password']. *)
Definition decrypt (c : crypto) (encryptedText : string) : option string :=
  let textParts := Js.splitChar ":"%char encryptedText in
  let encryptedPassword := Js.join ":" (tl textParts) in
  decipher c encryptedPassword.

(** [maskPassword(password)] *)
Definition maskPassword (password : string) : string :=
  if String.length password =? 0 then ""
  else if String.length password <=? 2
  then Js.repeat "*" (String.length password)
  else (Js.charAt 0 password
        ++ Js.repeat "*" (String.length password - 2)
        ++ Js.charAt (String.length password - 1) password)%string.

End CryptoService.

(* ================================================================== *)
(** ** The Job model (models/Job.js)                                  *)
(* ================================================================== *)

(** An element of [this.ssh_hosts]; [None] is a property that is absent
    ([undefined]). *)
Module HostData.
Record t : Type := mk {
  id : option string;
  name : string;
  host : string;
  port : option Z;
  username : string;
  password : string;
  enabled : option bool
}.
End HostData.

(** A [Job] object as its constructor leaves it. *)
Module JobObject.
Record t : Type := mk {
  id : string;
  name : string;
  vlan_id : option Z;
  schedule : string;
  notifications_enabled : bool;
  notify_new_macs : bool;
  notify_unauthorized_macs : bool;
  notify_ip_changes : bool;
  retention_policy : string;
  retention_days : Z;
  status : string;
  whitelist : list string;
  ssh_hosts : list HostData.t
}.
End JobObject.

(** An element of the [ssh_hosts] of the object [findById] returns: the
    row, with [password] added and [enabled] turned into a boolean. *)
Module HostView.
Record t : Type := mk {
  row : SshHost.row;
  password : string;
  enabled : bool
}.
End HostView.

(** The object [findById] returns: the row, its four flags turned into
    booleans, the whitelist and the hosts. *)
Module JobView.
Record t : Type := mk {
  row : Job.row;
  notifications_enabled : bool;
  notify_new_macs : bool;
  notify_unauthorized_macs : bool;
  notify_ip_changes : bool;
  whitelist : list string;
  ssh_hosts : list HostView.t
}.
End JobView.

Module JobModel.

(** What [ON DELETE CASCADE] removes when the row of job [id] is
    deleted from [jobs] ([foreign_keys] is [ON]): the rows of the job
    in every table that references it. *)
Definition cascade (id : string) (db : database) : database :=
  mkDatabase
    (jobs db)
    (filter (fun h => negb (String.eqb (SshHost.job_id h) id)) (ssh_hosts db))
    (filter (fun w => negb (String.eqb (Whitelist.job_id w) id))
            (job_whitelist db))
    (filter (fun r => negb (String.eqb (JobRun.job_id r) id)) (job_runs db))
    (filter (fun r => negb (String.eqb (KnownDevice.job_id r) id))
            (known_devices db))
    (filter (fun n => negb (String.eqb (Notification.job_id n) id))
            (notifications db))
    (filter (fun h => negb (String.eqb (DeviceHistory.job_id h) id))
            (device_history db))
    (next_uuid db).

(** [DELETE FROM jobs WHERE id = ?], with its cascade when a row is
    deleted. *)
Definition deleteJobRow (id : string) (db : database) : database :=
  if existsb (fun j => String.eqb (Job.id j) id) (jobs db)
  then with_jobs
         (filter (fun j => negb (String.eqb (Job.id j) id)) (jobs db))
         (cascade id db)
  else db.

(** [Job.delete(id)]: [result.changes > 0]. *)
Definition delete (id : string) : M bool :=
  fun db =>
    Returned (existsb (fun j => String.eqb (Job.id j) id) (jobs db))
             (deleteJobRow id db).

(** [Job.updateStatus(id, status)] *)
Definition updateStatus (now : Z) (id status : string) : M unit :=
  Sql.updateJobStatus now status id.

(** The row the [INSERT OR REPLACE] of [save] writes: the flags as 1 or
    0, [updated_at] and [last_run] at their defaults.  ([schedule] is
    written too; the rows of this model do not keep that column.) *)
Definition jobData (now : Z) (this : JobObject.t) : Job.row :=
  Job.mk (JobObject.id this) (JobObject.name this) (JobObject.vlan_id this)
         (if JobObject.notifications_enabled this then 1%Z else 0%Z)
         (if JobObject.notify_new_macs this then 1%Z else 0%Z)
         (if JobObject.notify_unauthorized_macs this then 1%Z else 0%Z)
         (if JobObject.notify_ip_changes this then 1%Z else 0%Z)
         (JobObject.retention_policy this) (JobObject.retention_days this)
         (JobObject.status this) now None.

(** [INSERT OR REPLACE INTO jobs (...) VALUES (...)]: a row with the
    same primary key is deleted first, which cascades as any deletion
    does, and the new row is inserted. *)
Definition insertOrReplaceJob (row : Job.row) : M unit :=
  fun db =>
    let db1 := deleteJobRow (Job.id row) db in
    Returned tt (with_jobs (jobs db1 ++ [row]) db1).

Definition with_job_whitelist (v : list Whitelist.row) (db : database)
  : database :=
  mkDatabase (jobs db) (ssh_hosts db) v (job_runs db) (known_devices db)
             (notifications db) (device_history db) (next_uuid db).

Definition with_ssh_hosts (v : list SshHost.row) (db : database)
  : database :=
  mkDatabase (jobs db) v (job_whitelist db) (job_runs db) (known_devices db)
             (notifications db) (device_history db) (next_uuid db).

(** [DELETE FROM job_whitelist WHERE job_id = ?] *)
Definition clearWhitelist (id : string) : M unit :=
  fun db =>
    Returned tt
      (with_job_whitelist
         (filter (fun w => negb (String.eqb (Whitelist.job_id w) id))
                 (job_whitelist db))
         db).

Definition whitelistViolation : string :=
  ("UNIQUE constraint failed: job_whitelist.job_id, "
   ++ "job_whitelist.mac_address")%string.

(** [INSERT INTO job_whitelist (id, job_id, mac_address) VALUES (?, ?, ?)]
    under [UNIQUE(job_id, mac_address)]. *)
Definition insertWhitelist (id mac : string) : M unit :=
  fun db =>
    if existsb (fun w => String.eqb (Whitelist.job_id w) id
                         && String.eqb (Whitelist.mac_address w) mac)
               (job_whitelist db)
    then Thrown whitelistViolation db
    else Returned tt
           (with_job_whitelist (job_whitelist db ++ [Whitelist.mk id mac]) db).

(** [DELETE FROM ssh_hosts WHERE job_id = ?] *)
Definition clearHosts (id : string) : M unit :=
  fun db =>
    Returned tt
      (with_ssh_hosts
         (filter (fun h => negb (String.eqb (SshHost.job_id h) id))
                 (ssh_hosts db))
         db).

Definition hostViolation : string := "UNIQUE constraint failed: ssh_hosts.id".

(** [INSERT INTO ssh_hosts (id, job_id, name, host, port, username,
    password_encrypted, enabled) VALUES (?, ?, ?, ?, ?, ?, ?, ?)]; [id]
    is the primary key. *)
Definition insertHost (row : SshHost.row) : M unit :=
  fun db =>
    if existsb (fun h => String.eqb (SshHost.id h) (SshHost.id row))
               (ssh_hosts db)
    then Thrown hostViolation db
    else Returned tt (with_ssh_hosts (ssh_hosts db ++ [row]) db).

(** [host.port || 22] *)
Definition portOf (host : HostData.t) : Z :=
  match HostData.port host with
  | Some p => if truthy p then p else 22%Z
  | None => 22%Z
  end.

(** [host.enabled !== false ? 1 : 0] *)
Definition enabledOf (host : HostData.t) : Z :=
  match HostData.enabled host with
  | Some false => 0%Z
  | _ => 1%Z
  end.

(** Body of [for (const host of this.ssh_hosts)]; the host is the
    [n]-th of the list, [ivs n] is the iv drawn for it and [uuidText]
    writes an identifier drawn by [uuidv4()] as text. *)
Definition saveHost (c : crypto) (ivs : nat -> string)
    (uuidText : nat -> string) (jobId : string)
    (entry : nat * HostData.t) (u : unit) : M unit :=
  let '(n, host) := entry in
  match CryptoService.encrypt c (ivs n) (HostData.password host) with
  | None => throw "Failed to encrypt password"
  | Some encryptedPassword =>
      hostId <-
        match HostData.id host with
        | Some i => if String.eqb i "" then (n' <- uuidv4 ;; ret (uuidText n'))
                    else ret i
        | None => n' <- uuidv4 ;; ret (uuidText n')
        end ;;
      insertHost
        (SshHost.mk hostId jobId (HostData.name host) (HostData.host host)
                    (portOf host) (HostData.username host) encryptedPassword
                    (enabledOf host))
  end.

(** Body of [for (const mac of this.whitelist)]. *)
Definition saveMac (jobId mac : string) (u : unit) : M unit :=
  uuidv4 ;;; insertWhitelist jobId mac.

(** [db.transaction(fn)()]: when [fn] throws, the tables are rolled
    back to what they were and the exception goes on; the identifiers
    drawn meanwhile stay drawn. *)
Definition transaction {A : Type} (fn : M A) : M A :=
  fun db =>
    match fn db with
    | Returned a db' => Returned a db'
    | Thrown message db' => Thrown message (with_next_uuid (next_uuid db') db)
    end.

(** [save()] *)
Definition save (c : crypto) (ivs : nat -> string) (uuidText : nat -> string)
    (now : Z) (this : JobObject.t) : M unit :=
  transaction
    (insertOrReplaceJob (jobData now this) ;;;
     clearWhitelist (JobObject.id this) ;;;
     (if 0 <? List.length (JobObject.whitelist this)
      then forEach (saveMac (JobObject.id this)) (JobObject.whitelist this) tt
      else ret tt) ;;;
     clearHosts (JobObject.id this) ;;;
     (if 0 <? List.length (JobObject.ssh_hosts this)
      then forEach (saveHost c ivs uuidText (JobObject.id this))
                   (combine (seq 0 (List.length (JobObject.ssh_hosts this)))
                            (JobObject.ssh_hosts this))
                   tt
      else ret tt)).

(** [hostsStmt.all(id).map(host => ({...host, password: ..., enabled:
    ...}))]: the first password that cannot be decrypted throws. *)
Fixpoint viewHosts (c : crypto) (rows : list SshHost.row)
  : option (list HostView.t) :=
  match rows with
  | [] => Some []
  | host :: rest =>
      match CryptoService.decrypt c (SshHost.password_encrypted host) with
      | None => None
      | Some password =>
          match viewHosts c rest with
          | None => None
          | Some views =>
              Some (HostView.mk host (CryptoService.maskPassword password)
                                (truthy (SshHost.enabled host)) :: views)
          end
      end
  end.

(** [Job.findById(id)]: [None] is [null]. *)
Definition findById (c : crypto) (id : string) : M (option JobView.t) :=
  fun db =>
    match find (fun j => String.eqb (Job.id j) id) (jobs db) with
    | None => Returned None db
    | Some jobData =>
        let whitelist := Sql.selectWhitelist id db in
        match viewHosts c
                (filter (fun h => String.eqb (SshHost.job_id h) id)
                        (ssh_hosts db)) with
        | None => Thrown "Failed to decrypt password" db
        | Some ssh_hosts =>
            Returned
              (Some (JobView.mk jobData
                       (truthy (Job.notifications_enabled jobData))
                       (truthy (Job.notify_new_macs jobData))
                       (truthy (Job.notify_unauthorized_macs jobData))
                       (truthy (Job.notify_ip_changes jobData))
                       whitelist ssh_hosts))
              db
        end
    end.

End JobModel.

(* ================================================================== *)
(** ** routes/jobs.js                                                 *)
(* ================================================================== *)

Module JobRoutes.

(** [SET whitelisted = ?] on one row. *)
Definition flag (whitelisted : Z) (r : KnownDevice.row) : KnownDevice.row :=
  KnownDevice.mk (KnownDevice.id r) (KnownDevice.job_id r)
                 (KnownDevice.mac_address r) (KnownDevice.host_name r)
                 (KnownDevice.interface_name r) (KnownDevice.vlan_id r)
                 whitelisted (KnownDevice.first_seen r)
                 (KnownDevice.last_seen r) (KnownDevice.status r).

(** [UPDATE known_devices SET whitelisted = 0 WHERE job_id = ?] *)
Definition resetStmt (jobId : string) : M unit :=
  fun db =>
    Returned tt
      (with_known_devices
         (map (fun r => if String.eqb (KnownDevice.job_id r) jobId
                        then flag 0 r else r)
              (known_devices db))
         db).

(** [UPDATE known_devices SET whitelisted = 1
    WHERE job_id = ? AND mac_address = ?] *)
Definition updateStmt (jobId mac : string) : M unit :=
  fun db =>
    Returned tt
      (with_known_devices
         (map (fun r => if String.eqb (KnownDevice.job_id r) jobId
                           && String.eqb (KnownDevice.mac_address r) mac
                        then flag 1 r else r)
              (known_devices db))
         db).

(** [updateDeviceWhitelistStatus(jobId, whitelist)] *)
Definition updateDeviceWhitelistStatus (jobId : string)
    (whitelist : list string) : M unit :=
  resetStmt jobId ;;;
  (if 0 <? List.length whitelist
   then forEach (fun mac _ => updateStmt jobId mac) whitelist tt
   else ret tt).

End JobRoutes.



(* ================================================================== *)
(** ** Vocabulary of the properties                                   *)
(* ================================================================== *)

(** The (MAC address, host name) key of an observation and of a row. *)
Definition pairOf (o : observation) : string * string :=
  (mac_address o, host_name o).

Definition pairOfRow (r : KnownDevice.row) : string * string :=
  (KnownDevice.mac_address r, KnownDevice.host_name r).

Definition pair_eq_dec (x y : string * string) : {x = y} + {x <> y}.
Proof. decide equality; apply string_dec. Defined.

(** Number of distinct (MAC address, host name) keys of a batch, that is
    its size once same-key duplicates are collapsed. *)
Definition distinctKeys (batch : list observation) : nat :=
  List.length (nodup pair_eq_dec (map pairOf batch)).

(** The observation [o] is about the device of row [r]. *)
Definition sameKey (r : KnownDevice.row) (o : observation) : bool :=
  String.eqb (KnownDevice.mac_address r) (mac_address o)
  && String.eqb (KnownDevice.host_name r) (host_name o).

(** The observation of the batch that is about the device of [r]. *)
Definition findObservation (batch : list observation) (r : KnownDevice.row)
  : option observation :=
  find (sameKey r) batch.

(** Every MAC of the batch passed [isValidMAC], as the parser ensures. *)
Definition validBatch (batch : list observation) : bool :=
  forallb (fun o => SSHService.isValidMAC (mac_address o)) batch.

(** Every known device of the job has a MAC that passed [isValidMAC], as
    rows created from parsed observations have. *)
Definition validInventory (jobId : string) (d : database) : bool :=
  forallb (fun r => SSHService.isValidMAC (KnownDevice.mac_address r))
          (Sql.selectKnownDevices jobId d).

(** What one reconciliation of [batch] makes of a row that was there
    before it: a row of the job is refreshed from its observation, or
    marked inactive when the batch has none; other jobs' rows stay. *)
Definition settle (now : Z) (jobId : string) (batch : list observation)
    (r : KnownDevice.row) : KnownDevice.row :=
  if String.eqb (KnownDevice.job_id r) jobId then
    match findObservation batch r with
    | Some o => Sql.touch now (interface_name o) (vlan_id o) r
    | None => Sql.retire r
    end
  else r.

(** The row [insertKnownDevice] creates for an observation. *)
Definition createdFrom (now : Z) (jobId : string) (whitelist : list string)
    (o : observation) (r : KnownDevice.row) : Prop :=
  r = KnownDevice.mk (KnownDevice.id r) jobId (mac_address o) (host_name o)
        (interface_name o) (vlan_id o)
        (if MacScanRunner.has whitelist (mac_address o) then 1%Z else 0%Z)
        now now "active".

(** Two rows that differ at most in [last_seen]. *)
Definition sameButLastSeen (r r' : KnownDevice.row) : Prop :=
  r' = KnownDevice.mk (KnownDevice.id r) (KnownDevice.job_id r)
         (KnownDevice.mac_address r) (KnownDevice.host_name r)
         (KnownDevice.interface_name r) (KnownDevice.vlan_id r)
         (KnownDevice.whitelisted r) (KnownDevice.first_seen r)
         (KnownDevice.last_seen r') (KnownDevice.status r).

(** A host whose scan does not count as successful in [runJob]: the
    password cannot be decrypted, or the command reports failure. *)
Definition hostFails (env : environment) (job : Job.row) (host : SshHost.row)
  : bool :=
  match decrypt env (SshHost.password_encrypted host) with
  | None => true
  | Some password =>
      negb (success (fst (MacScanRunner.getMacAddressTable env
                            (SshHost.host host) (SshHost.port host)
                            (SshHost.username host) password
                            (Job.vlan_id job))))
  end.

(** *** Invariants of the reconciliation loops *)

(** The string key of an observation. *)
Definition keyOf (o : observation) : string :=
  MacScanRunner.deviceKey (mac_address o) (host_name o).

(** The table has a row of the job for the device of the observation. *)
Definition rowExists (jobId : string) (o : observation)
    (T : list KnownDevice.row) : bool :=
  existsb (Sql.sameDevice jobId (mac_address o) (host_name o)) T.

(** An entry of the [knownDevices] map: filed under the key of its row,
    which has a checked MAC and is still a row of the job in the table. *)
Definition entryOk (jobId : string) (T : list KnownDevice.row)
    (e : string * KnownDevice.row) : Prop :=
  fst e = MacScanRunner.deviceKey (KnownDevice.mac_address (snd e))
                                  (KnownDevice.host_name (snd e))
  /\ SSHService.isValidMAC (KnownDevice.mac_address (snd e)) = true
  /\ existsb (Sql.sameDevice jobId (KnownDevice.mac_address (snd e))
                             (KnownDevice.host_name (snd e))) T = true.

(** What the first loop alone makes of a row: refreshed when the batch
    has an observation of it, untouched otherwise. *)
Definition loopSettle (now : Z) (jobId : string) (batch : list observation)
    (r : KnownDevice.row) : KnownDevice.row :=
  if String.eqb (KnownDevice.job_id r) jobId then
    match findObservation batch r with
    | Some o => Sql.touch now (interface_name o) (vlan_id o) r
    | None => r
    end
  else r.

(** What the second loop makes of a row, given the entries left in the
    map. *)
Definition retireUnseen (jobId : string)
    (entries : list (string * KnownDevice.row)) (r : KnownDevice.row)
  : KnownDevice.row :=
  if existsb (fun e => Sql.sameDevice jobId
                         (KnownDevice.mac_address (snd e))
                         (KnownDevice.host_name (snd e)) r) entries
  then Sql.retire r else r.

(** A row of the job agrees with the batch: it shows the interface and
    VLAN of its observation and is active, or it has no observation and
    is inactive. *)
Definition settledRow (jobId : string) (batch : list observation)
    (r : KnownDevice.row) : Prop :=
  KnownDevice.job_id r = jobId ->
  match findObservation batch r with
  | Some o => KnownDevice.interface_name r = interface_name o
              /\ KnownDevice.vlan_id r = vlan_id o
              /\ KnownDevice.status r = "active"
  | None => KnownDevice.status r = "inactive"
  end.

(** An inventory that is up to date with the batch. *)
Definition settled (jobId : string) (batch : list observation)
    (T : list KnownDevice.row) : Prop :=
  NoDup (map pairOf batch)
  /\ (forall o, In o batch -> rowExists jobId o T = true)
  /\ Forall (settledRow jobId batch) T.

(** The string key of a row. *)
Definition keyOfRow (r : KnownDevice.row) : string :=
  MacScanRunner.deviceKey (KnownDevice.mac_address r)
                          (KnownDevice.host_name r).

(** One [knownDevices.set(key, device)] of the loading loop. *)
Definition loadStep (m : list (string * KnownDevice.row))
    (r : KnownDevice.row) : list (string * KnownDevice.row) :=
  JsMap.set (keyOfRow r) r m.

(** The rows the retention policy of the job deletes at time [now]. *)
Definition doomed (now : Z) (jobId : string) (job : Job.row)
    (r : KnownDevice.row) : bool :=
  if String.eqb (Job.retention_policy job) "forever" then false
  else if String.eqb (Job.retention_policy job) "remove"
  then String.eqb (KnownDevice.job_id r) jobId
       && String.eqb (KnownDevice.status r) "inactive"
  else if String.eqb (Job.retention_policy job) "days"
  then String.eqb (KnownDevice.job_id r) jobId
       && String.eqb (KnownDevice.status r) "inactive"
       && Sql.sqlLt (KnownDevice.last_seen r)
                    (Sql.datetimeDaysAgo now (Job.retention_days job))
  else false.

(** *** Tokens of a table line *)

(** No character of the string is white space. *)
Fixpoint noSpace (s : string) : bool :=
  match s with
  | EmptyString => true
  | String c r => negb (Js.isSpace c) && noSpace r
  end.

(** A piece that [split(/\s+/)] can give back as it is: not empty and
    free of white space. *)
Definition plainToken (s : string) : bool :=
  negb (String.eqb s "") && noSpace s.

(** The string does not end with white space (the empty string does
    not). *)
Fixpoint endsClean (s : string) : bool :=
  match s with
  | EmptyString => true
  | String c r =>
      match r with
      | EmptyString => negb (Js.isSpace c)
      | String _ _ => endsClean r
      end
  end.

(** The string starts with a character that is not white space. *)
Definition startsClean (s : string) : bool :=
  match s with
  | EmptyString => false
  | String c _ => negb (Js.isSpace c)
  end.

(** *** The batch of a run *)

(** The observations a host adds to the batch of a run: those parsed
    from its answer when its scan succeeds, none otherwise. *)
Definition devicesOf (env : environment) (job : Job.row) (host : SshHost.row)
  : list observation :=
  match decrypt env (SshHost.password_encrypted host) with
  | None => []
  | Some password =>
      snd (MacScanRunner.getMacAddressTable env
             (SshHost.host host) (SshHost.port host)
             (SshHost.username host) password (Job.vlan_id job))
  end.

(** The batch of a run over the hosts. *)
Definition batchOf (env : environment) (job : Job.row)
    (hosts : list SshHost.row) : list observation :=
  flat_map (devicesOf env job) hosts.

(** *** What a reconciliation records *)

(** A [warning] notification. *)
Definition isWarning (n : Notification.row) : bool :=
  String.eqb (Notification.type n) "warning".

(** The notification is one of the job about the device of the
    observation, as it was observed, and is unread. *)
Definition concerns (jobId : string) (job : Job.row) (o : observation)
    (n : Notification.row) : Prop :=
  Notification.job_id n = jobId
  /\ Notification.job_name n = Job.name job
  /\ Notification.mac_address n = mac_address o
  /\ Notification.host_name n = host_name o
  /\ Notification.interface_name n = interface_name o
  /\ Notification.read n = 0%Z.

(** The history entry written for an observation. *)
Definition recorded (now : Z) (jobId : string) (o : observation)
    (h : DeviceHistory.row) : Prop :=
  h = DeviceHistory.mk (DeviceHistory.id h) jobId (mac_address o)
        (host_name o) (interface_name o) (vlan_id o) now.

(** The observation is of a device the map of known devices has no
    entry for. *)
Definition noEntry (m : list (string * KnownDevice.row)) (o : observation)
  : bool :=
  match JsMap.get (keyOf o) m with
  | None => true
  | Some _ => false
  end.

(** The observation has no row of the job in the table yet. *)
Definition unseen (jobId : string) (T : list KnownDevice.row)
    (o : observation) : bool :=
  negb (rowExists jobId o T).

(** *** Other jobs and whitelist flags *)

(** The known devices of the jobs other than [jobId], in table order. *)
Definition othersDevices (jobId : string) (d : database)
  : list KnownDevice.row :=
  filter (fun r => negb (String.eqb (KnownDevice.job_id r) jobId))
         (known_devices d).

(** The [whitelisted] flag of every known device of the job says
    whether its MAC is in the whitelist. *)
Definition flagsFollow (jobId : string) (whitelist : list string)
    (d : database) : Prop :=
  forall r, In r (known_devices d) -> KnownDevice.job_id r = jobId ->
            KnownDevice.whitelisted r
            = (if MacScanRunner.has whitelist (KnownDevice.mac_address r)
               then 1%Z else 0%Z).

(** What [updateDeviceWhitelistStatus] makes of a row. *)
Definition reflag (jobId : string) (whitelist : list string)
    (r : KnownDevice.row) : KnownDevice.row :=
  if String.eqb (KnownDevice.job_id r) jobId
  then JobRoutes.flag
         (if MacScanRunner.has whitelist (KnownDevice.mac_address r)
          then 1%Z else 0%Z) r
  else r.

(** *** What save stores and findById shows *)

(** The row [save] stores for the [n]-th host of the job. *)
Definition savedAs (c : crypto) (ivs : nat -> string) (jobId : string)
    (entry : nat * HostData.t) (row : SshHost.row) : Prop :=
  SshHost.job_id row = jobId
  /\ SshHost.name row = HostData.name (snd entry)
  /\ SshHost.host row = HostData.host (snd entry)
  /\ SshHost.port row = JobModel.portOf (snd entry)
  /\ SshHost.username row = HostData.username (snd entry)
  /\ SshHost.enabled row = JobModel.enabledOf (snd entry)
  /\ CryptoService.encrypt c (ivs (fst entry)) (HostData.password (snd entry))
     = Some (SshHost.password_encrypted row).

(** What [findById] shows of a host that was saved. *)
Definition shownAs (host : HostData.t) (v : HostView.t) : Prop :=
  SshHost.name (HostView.row v) = HostData.name host
  /\ SshHost.host (HostView.row v) = HostData.host host
  /\ SshHost.port (HostView.row v) = JobModel.portOf host
  /\ SshHost.username (HostView.row v) = HostData.username host
  /\ HostView.enabled v = truthy (JobModel.enabledOf host)
  /\ HostView.password v = CryptoService.maskPassword (HostData.password host).

(** *** Sample data *)

Module Sample.

Definition table : string :=
  "VlanId    Mac Address       Type      Interface" ++ nl ++
  "------    -----------       ----      ---------" ++ nl ++
  "  10      AA:BB:CC:DD:EE:FF DYNAMIC   Gi0/1" ++ nl ++
  "  20      00-1a-2B-3c-4D-5e STATIC    Port Channel 3" ++ nl ++
  "  x       00:11:22:33:44:55 DYNAMIC   Gi0/2" ++ nl ++
  "  30      00:11:22:33:44    DYNAMIC   Gi0/3" ++ nl ++
  " --more-- " ++ nl.

Definition job (policy : string) (enabled : Z) : Job.row :=
  Job.mk "job-1" "Office" None enabled 1 1 1 policy 7 "active" 0 None.

Definition switch : SshHost.row :=
  SshHost.mk "host-1" "job-1" "SwitchA" "10.0.0.1" 22 "admin" "00:ab" 1.

Definition printer : observation :=
  mkObservation "aa:bb:cc:dd:ee:ff" 10 "DYNAMIC" "Gi0/1" "10.0.0.1" 0.

Definition printerMoved : observation :=
  mkObservation "aa:bb:cc:dd:ee:ff" 20 "DYNAMIC" "Gi0/2" "10.0.0.1" 0.

Definition laptop : observation :=
  mkObservation "00:11:22:33:44:55" 20 "DYNAMIC" "Gi0/3" "10.0.0.1" 0.

(** A device of the job seen some time ago, and one of another job. *)
Definition camera (status : string) (lastSeen : Z) : KnownDevice.row :=
  KnownDevice.mk 90 "job-1" "0a:0b:0c:0d:0e:0f" "10.0.0.1" "Gi0/9" 10 1 5
                 lastSeen status.

Definition foreign : KnownDevice.row :=
  KnownDevice.mk 91 "job-2" "0a:0b:0c:0d:0e:0f" "10.0.0.1" "Gi0/9" 10 0 5 5
                 "active".

Definition oldPrinter : KnownDevice.row :=
  KnownDevice.mk 92 "job-1" "aa:bb:cc:dd:ee:ff" "10.0.0.1" "Gi0/7" 30 0 5 5
                 "inactive".

Definition store (policy : string) (inventory : list KnownDevice.row)
  : database :=
  mkDatabase [job policy 1] [switch] [Whitelist.mk "job-1" "aa:bb:cc:dd:ee:ff"]
             [] inventory [] [] 100.

Definition day : Z := 86400.

(** A transport on which every command fails. *)
Definition deadNetwork : environment :=
  mkEnvironment (fun s => Some s)
                (fun _ _ _ _ _ => mkExecResult false "" "Connection timeout (30s)")
                1000 61000.

(** A transport that answers every command with [table]. *)
Definition liveNetwork (text : string) : environment :=
  mkEnvironment (fun s => Some s)
                (fun _ _ _ _ _ => mkExecResult true text "")
                1000 61000.

(** A table in which one MAC is listed on two VLANs of one port. *)
Definition trunkTable : string :=
  "  20      00:11:22:33:44:55 DYNAMIC   Gi0/3" ++ nl ++
  "  10      AA:BB:CC:DD:EE:FF DYNAMIC   Gi0/1" ++ nl ++
  "  20      AA:BB:CC:DD:EE:FF DYNAMIC   Gi0/1" ++ nl.

(** The variables of the loop when the printer is still in the map. *)
Definition printerKnown : MacScanRunner.locals :=
  MacScanRunner.mkLocals [("aa:bb:cc:dd:ee:ff:10.0.0.1", oldPrinter)] 0 0.


(** A second switch of the job. *)
Definition spare : SshHost.row :=
  SshHost.mk "host-2" "job-1" "SwitchB" "10.0.0.2" 22 "admin" "00:cd" 1.

(** A switch of the job that is disabled. *)
Definition idle : SshHost.row :=
  SshHost.mk "host-3" "job-1" "SwitchC" "10.0.0.3" 22 "admin" "00:ef" 0.

(** The job with an enabled and a disabled switch, a whitelisted MAC
    and two known devices, one of them of another job. *)
Definition withIdle : database :=
  mkDatabase [job "days" 1] [switch; idle]
             [Whitelist.mk "job-1" "aa:bb:cc:dd:ee:ff"] []
             [camera "active" 5; foreign] [] [] 100.

(** The job with both switches and an empty whitelist. *)
Definition twoSwitches (inventory : list KnownDevice.row) : database :=
  mkDatabase [job "remove" 1] [spare; switch] [] [] inventory
             [] [] 100.

(** A job whose retention is a negative number of days. *)
Definition backwards : Job.row :=
  Job.mk "job-1" "Office" None 1 1 1 1 "days" (-5) "active" 0 None.

(** A transport on which only 10.0.0.1 answers, with [text]. *)
Definition halfNetwork (text : string) : environment :=
  mkEnvironment (fun s => Some s)
                (fun host _ _ _ _ =>
                   if String.eqb host "10.0.0.1"
                   then mkExecResult true text ""
                   else mkExecResult false "" "Connection timeout (30s)")
                1000 61000.

(** A stand-in for the cipher: the identity on texts. *)
Definition plainCrypto : crypto :=
  mkCrypto (fun text => Some text) (fun hex => Some hex).

Definition iv (n : nat) : string := "00ab".

(** The job of [store] as the edit form sends it back. *)
Definition office (whitelist : list string) : JobObject.t :=
  JobObject.mk "job-1" "Office" None "manual" true true false true "days" 30
    "active" whitelist
    [HostData.mk None "SwitchA" "10.0.0.1" None "admin" "hunter2" None;
     HostData.mk (Some "host-9") "SwitchB" "10.0.0.2" (Some 2222%Z) "ops"
                 "pw" (Some false)].

End Sample.

(* ================================================================== *)
(** * Properties                                                      *)
(* ================================================================== *)

(** Reads an equation between two outcomes: same constructor, same
    value, same store. *)
Ltac same_outcome H := inversion H; subst; clear H.

(** ** The table parser *)

Section ParserFacts.

Lemma toLowerChar_hex c :
SSHService.isHex (Js.toLowerChar c) = true ->
isLowerHex (Js.toLowerChar c) = true.
Proof.
destruct c as [[] [] [] [] [] [] [] []]; vm_compute; intro H;
  first [reflexivity | exact H].
Qed.

Lemma matchGroups_lower n :
forall s r,
  SSHService.matchGroups SSHService.isHex SSHService.isSep n
    (Js.toLowerCase s) = Some r ->
  SSHService.matchGroups isLowerHex SSHService.isSep n
    (Js.toLowerCase s) = Some r
  /\ exists r', r = Js.toLowerCase r'.
Proof.
induction n as [|n IH]; intros s r; simpl.
- intro H; inversion H; split; [reflexivity | eauto].
- destruct s as [|a [|b [|c s']]]; simpl; try discriminate.
  destruct (SSHService.isHex (Js.toLowerChar a)) eqn:Ha; simpl;
    [|discriminate].
  destruct (SSHService.isHex (Js.toLowerChar b)) eqn:Hb; simpl;
    [|discriminate].
  rewrite (toLowerChar_hex _ Ha), (toLowerChar_hex _ Hb); simpl.
  destruct (SSHService.isSep (Js.toLowerChar c)); simpl; [|discriminate].
  apply IH.
Qed.

(** A MAC that passed [isValidMAC] after [toLowerCase] has no capital. *)
Lemma lowercased_valid_mac s :
SSHService.isValidMAC (Js.toLowerCase s) = true ->
lowercaseMAC (Js.toLowerCase s) = true.
Proof.
unfold SSHService.isValidMAC, lowercaseMAC, SSHService.macPattern.
destruct (SSHService.matchGroups SSHService.isHex SSHService.isSep 5
            (Js.toLowerCase s)) as [r|] eqn:E; [|discriminate].
destruct (matchGroups_lower _ _ _ E) as [E' [r' ->]].
rewrite E'.
destruct r' as [|a [|b [|c r']]]; simpl; try discriminate.
intro H. apply andb_true_iff in H as [Ha Hb].
now rewrite (toLowerChar_hex _ Ha), (toLowerChar_hex _ Hb).
Qed.

Lemma matchGroups_length hex sep n :
forall s r,
  SSHService.matchGroups hex sep n s = Some r ->
  String.length s = 3 * n + String.length r.
Proof.
induction n as [|n IH]; intros s r; simpl.
- intro H; now inversion H.
- destruct s as [|a [|b [|c s']]]; try discriminate.
  destruct (hex a && hex b && sep c); [|discriminate].
  intro H. apply IH in H. simpl. lia.
Qed.

(** [isValidMAC] accepts strings of seventeen characters only. *)
Lemma valid_mac_length mac :
SSHService.isValidMAC mac = true -> String.length mac = 17.
Proof.
unfold SSHService.isValidMAC, SSHService.macPattern.
destruct (SSHService.matchGroups SSHService.isHex SSHService.isSep 5 mac)
  as [r|] eqn:E; [|discriminate].
apply matchGroups_length in E.
destruct r as [|a [|b [|c r]]]; try discriminate.
intros _. simpl in E. lia.
Qed.

Lemma append_same_length a :
forall b c d,
  String.length a = String.length b ->
  (a ++ c)%string = (b ++ d)%string -> a = b /\ c = d.
Proof.
induction a as [|x a IH]; intros [|y b] c d Hlen H; simpl in *;
  try discriminate.
- now split.
- inversion H; subst. destruct (IH b c d) as [-> ->]; [lia|assumption|].
  now split.
Qed.

(** With MACs of one length, the string key stands for the pair. *)
Lemma deviceKey_inj m1 h1 m2 h2 :
SSHService.isValidMAC m1 = true ->
SSHService.isValidMAC m2 = true ->
MacScanRunner.deviceKey m1 h1 = MacScanRunner.deviceKey m2 h2 ->
m1 = m2 /\ h1 = h2.
Proof.
intros V1 V2 H. unfold MacScanRunner.deviceKey in H.
apply append_same_length in H as [-> H].
- inversion H. now split.
- now rewrite (valid_mac_length _ V1), (valid_mac_length _ V2).
Qed.

Lemma toLowerChar_class c :
  SSHService.isHex (Js.toLowerChar c) = SSHService.isHex c
  /\ SSHService.isSep (Js.toLowerChar c) = SSHService.isSep c.
Proof.
  destruct c as [[] [] [] [] [] [] [] []]; vm_compute; split; reflexivity.
Qed.

Lemma matchGroups_toLowerCase n :
  forall s,
    SSHService.matchGroups SSHService.isHex SSHService.isSep n
      (Js.toLowerCase s)
    = option_map Js.toLowerCase
        (SSHService.matchGroups SSHService.isHex SSHService.isSep n s).
Proof.
  induction n as [|n IH]; intro s; cbn [SSHService.matchGroups option_map];
    [reflexivity|].
  destruct s as [|a [|b [|c r]]]; cbn [Js.toLowerCase]; try reflexivity.
  rewrite (proj1 (toLowerChar_class a)), (proj1 (toLowerChar_class b)),
    (proj2 (toLowerChar_class c)).
  destruct (SSHService.isHex a && SSHService.isHex b && SSHService.isSep c);
    [apply IH|reflexivity].
Qed.

(** The pattern is case-insensitive: lowercasing a token does not change
    whether it matches. *)
Lemma isValidMAC_toLowerCase s :
  SSHService.isValidMAC (Js.toLowerCase s) = SSHService.isValidMAC s.
Proof.
  unfold SSHService.isValidMAC, SSHService.macPattern.
  rewrite matchGroups_toLowerCase.
  destruct (SSHService.matchGroups SSHService.isHex SSHService.isSep 5 s)
    as [r|]; cbn [option_map]; [|reflexivity].
  destruct r as [|a [|b [|c r]]]; cbn [Js.toLowerCase]; try reflexivity.
  now rewrite (proj1 (toLowerChar_class a)), (proj1 (toLowerChar_class b)).
Qed.

Lemma parseLine_emits now hostName line d :
  In d (SSHService.parseLine now hostName line) ->
  let parts := Js.splitSpaces (Js.trim line) in
  4 <= List.length parts
  /\ Js.parseInt (nth 0 parts "") = Some (vlan_id d)
  /\ mac_address d = Js.toLowerCase (nth 1 parts "")
  /\ SSHService.isValidMAC (mac_address d) = true
  /\ interface_name d = Js.join " " (Js.slice 3 parts)
  /\ host_name d = hostName.
Proof.
  unfold SSHService.parseLine.
  destruct (SSHService.skipLine (Js.trim line)); [intros []|].
  destruct (4 <=? List.length (Js.splitSpaces (Js.trim line))) eqn:Hlen;
    [|intros []].
  destruct (Js.parseInt (nth 0 (Js.splitSpaces (Js.trim line)) ""))
    as [v|] eqn:Hv; [|intros []].
  destruct (SSHService.isValidMAC
              (Js.toLowerCase (nth 1 (Js.splitSpaces (Js.trim line)) "")))
    eqn:Hmac; [|intros []].
  intros [<-|[]]; simpl.
  apply Nat.leb_le in Hlen. repeat split; auto.
Qed.

Lemma parseLine_rejects now hostName line :
  let parts := Js.splitSpaces (Js.trim line) in
  SSHService.isValidMAC (nth 1 parts "") = false
  \/ Js.isNaN (Js.parseInt (nth 0 parts "")) = true ->
  SSHService.parseLine now hostName line = [].
Proof.
  unfold SSHService.parseLine.
  destruct (SSHService.skipLine (Js.trim line)); [reflexivity|].
  destruct (4 <=? _); [|reflexivity].
  rewrite isValidMAC_toLowerCase.
  intros [H|H].
  - rewrite H. now destruct (Js.parseInt _).
  - destruct (Js.parseInt _); [discriminate|reflexivity].
Qed.

Lemma isDigit_value c :
  Js.isDigit c = true -> (0 <= Z.of_nat (Js.code c - 48) <= 9)%Z.
Proof.
  unfold Js.isDigit. intro H. apply andb_prop in H as [_ H].
  apply Nat.leb_le in H. lia.
Qed.

Lemma readDigits_bound s :
  forall acc,
    (0 <= acc)%Z ->
    (0 <= Js.readDigits acc s
     < (acc + 1) * 10 ^ Z.of_nat (String.length s))%Z.
Proof.
  induction s as [|c r IH]; intros acc Hacc; cbn [Js.readDigits String.length].
  - cbn. lia.
  - rewrite Nat2Z.inj_succ, Z.pow_succ_r by lia.
    assert (0 < 10 ^ Z.of_nat (String.length r))%Z
      by (apply Z.pow_pos_nonneg; lia).
    destruct (Js.isDigit c) eqn:D.
    + apply isDigit_value in D.
      specialize (IH (acc * 10 + Z.of_nat (Js.code c - 48))%Z).
      nia.
    + nia.
Qed.

Lemma trimStart_length s :
  String.length (Js.trimStart s) <= String.length s.
Proof.
  induction s as [|c r IH]; cbn [Js.trimStart]; [lia|].
  destruct (Js.isSpace c); cbn [String.length]; lia.
Qed.

(** What [parseInt] answers is the Number for a sign and the digits it
    read, which are no more than the characters of the string. *)
Lemma parseInt_reads s v :
  Js.parseInt s = Some v ->
  exists sign digits,
    (sign = 1 \/ sign = -1)%Z
    /\ String.length digits <= String.length s
    /\ v = Js.toNumber sign (Js.readDigits 0 digits).
Proof.
  unfold Js.parseInt. pose proof (trimStart_length s) as L.
  destruct (Js.trimStart s) as [|c r]; [discriminate|].
  cbn [String.length] in L.
  assert (Hplain :
            (if Js.isDigit c
             then Some (Js.toNumber 1 (Js.readDigits 0 (String c r)))
             else None) = Some v ->
            exists sign digits,
              (sign = 1 \/ sign = -1)%Z
              /\ String.length digits <= String.length s
              /\ v = Js.toNumber sign (Js.readDigits 0 digits)).
  { destruct (Js.isDigit c); [|discriminate].
    intro H. inversion H. exists 1%Z, (String c r).
    cbn [String.length]. auto. }
  assert (Hsigned :
            forall sign,
              (sign = 1 \/ sign = -1)%Z ->
              match r with
              | String c' _ =>
                  if Js.isDigit c'
                  then Some (Js.toNumber sign (Js.readDigits 0 r))
                  else None
              | EmptyString => None
              end = Some v ->
              exists sign digits,
                (sign = 1 \/ sign = -1)%Z
                /\ String.length digits <= String.length s
                /\ v = Js.toNumber sign (Js.readDigits 0 digits)).
  { intros sign Hs. destruct r as [|c' r']; [discriminate|].
    destruct (Js.isDigit c'); [|discriminate].
    intro H. inversion H. exists sign, (String c' r').
    split; [assumption|]. split; [cbn [String.length] in *; lia|reflexivity]. }
  destruct c as [[] [] [] [] [] [] [] []];
    first [exact Hplain | exact (Hsigned _ (or_introl eq_refl))
           | exact (Hsigned _ (or_intror eq_refl))].
Qed.

(** A token of at most fifteen characters writes an integer below
    [10^15], which is a double: [parseInt] reads it exactly. *)
Lemma parseInt_short s v :
  String.length s <= 15 ->
  Js.parseInt s = Some v ->
  exists z, v = Finite z /\ (Z.abs z < 10 ^ 15)%Z.
Proof.
  intros L H. apply parseInt_reads in H as (sign & digits & Hs & Ld & ->).
  pose proof (readDigits_bound digits 0%Z ltac:(lia)) as [B0 B1].
  assert (Js.readDigits 0 digits < 10 ^ 15)%Z as B.
  { eapply Z.lt_le_trans; [exact B1|].
    rewrite Z.add_0_l, Z.mul_1_l. apply Z.pow_le_mono_r; lia. }
  unfold Js.toNumber, Js.roundToDouble.
  assert ((Js.readDigits 0 digits <? 2 ^ 53)%Z = true) as ->.
  { apply Z.ltb_lt. eapply Z.lt_trans; [exact B|]. reflexivity. }
  eexists. split; [reflexivity|].
  destruct Hs as [-> | ->]; lia.
Qed.

End ParserFacts.

(** C4 (as amended).  Every observation the parser emits comes from a
    line of the text whose VLAN token [parseInt] does not read as
    [NaN]; the emitted VLAN is the JavaScript number [parseInt] reads
    from the leading decimal digits of that token.  For a token of at
    most fifteen characters that number is an integer, below [10^15] in
    absolute value; a longer run of digits is rounded to a double, and
    to an infinity beyond the doubles.  The MAC token of the line
    matches the pattern of six colon- or hyphen-separated groups of two
    hex digits; the emitted MAC is that token lowercased: it matches
    the pattern, has no capital letter and keeps the separators of the
    line.  A line whose MAC token fails the pattern, or whose VLAN
    token [parseInt] reads as [NaN], emits nothing. *)
Theorem parser_emits_only_checked_lines now output hostName :
  (forall d,
      In d (SSHService.parseMacAddressTable now output hostName) ->
      SSHService.isValidMAC (mac_address d) = true
      /\ lowercaseMAC (mac_address d) = true
      /\ exists line,
           let parts := Js.splitSpaces (Js.trim line) in
           In line (Js.splitChar (ascii_of_nat 10) output)
           /\ In d (SSHService.parseLine now hostName line)
           /\ Js.parseInt (nth 0 parts "") = Some (vlan_id d)
           /\ Js.isNaN (Js.parseInt (nth 0 parts "")) = false
           /\ (String.length (nth 0 parts "") <= 15 ->
               exists z, vlan_id d = Finite z /\ (Z.abs z < 10 ^ 15)%Z)
           /\ SSHService.isValidMAC (nth 1 parts "") = true
           /\ mac_address d = Js.toLowerCase (nth 1 parts ""))
  /\ (forall line,
         let parts := Js.splitSpaces (Js.trim line) in
         SSHService.isValidMAC (nth 1 parts "") = false
         \/ Js.isNaN (Js.parseInt (nth 0 parts "")) = true ->
         SSHService.parseLine now hostName line = []).
Proof.
  split.
  - intros d Hd. unfold SSHService.parseMacAddressTable in Hd.
    apply in_flat_map in Hd as [line [Hline Hd]].
    destruct (parseLine_emits _ _ _ _ Hd) as (_ & Hv & Hm & Hvalid & _).
    split; [assumption|]. split.
    + rewrite Hm in *. now apply lowercased_valid_mac.
    + exists line. cbv zeta.
      split; [assumption|]. split; [assumption|]. split; [assumption|].
      split; [now rewrite Hv|].
      split; [intro L; exact (parseInt_short _ _ L Hv)|].
      split; [|assumption].
      rewrite <- isValidMAC_toLowerCase. now rewrite <- Hm.
  - intros line. apply parseLine_rejects.
Qed.

(** On the sample table the two well-formed lines are emitted, one of
    them with its hyphens and both with the VLAN their line writes, and
    the lines with a bad VLAN or a short MAC are dropped. *)
Lemma parser_emits_only_checked_lines_witness :
  SSHService.parseMacAddressTable 0 Sample.table "10.0.0.1"
  = [mkObservation "aa:bb:cc:dd:ee:ff" 10 "DYNAMIC" "Gi0/1" "10.0.0.1" 0;
     mkObservation "00-1a-2b-3c-4d-5e" 20 "STATIC" "Port Channel 3"
                   "10.0.0.1" 0]
  /\ SSHService.isValidMAC "00-1a-2b-3c-4d-5e" = true
  /\ lowercaseMAC "00-1a-2b-3c-4d-5e" = true
  /\ (exists line,
        In line (Js.splitChar (ascii_of_nat 10) Sample.table)
        /\ Js.parseInt (nth 0 (Js.splitSpaces (Js.trim line)) "")
           = Some (Finite 20)
        /\ nth 1 (Js.splitSpaces (Js.trim line)) "" = "00-1a-2B-3c-4D-5e")
  /\ SSHService.parseLine 0 "10.0.0.1"
       "  x       00:11:22:33:44:55 DYNAMIC   Gi0/2" = []
  /\ SSHService.parseLine 0 "10.0.0.1"
       "  30      00:11:22:33:44    DYNAMIC   Gi0/3" = [].
Proof.
  split; [vm_compute; reflexivity|].
  destruct (parser_emits_only_checked_lines 0 Sample.table "10.0.0.1")
    as [Hemit Hdrop].
  destruct (Hemit (mkObservation "00-1a-2b-3c-4d-5e" 20 "STATIC"
                                 "Port Channel 3" "10.0.0.1" 0))
    as (Hv & Hl & line & Hline & Hd & Hvlan & _).
  - vm_compute. right. left. reflexivity.
  - split; [exact Hv|]. split; [exact Hl|]. split.
    + exists line. split; [exact Hline|]. split; [exact Hvlan|].
      vm_compute in Hline.
      repeat (destruct Hline as [<-|Hline];
              [first [ vm_compute; reflexivity
                     | vm_compute in Hd;
                       first [ contradiction
                             | destruct Hd as [Hd|[]]; discriminate Hd ] ]|]).
      contradiction.
    + split.
      * apply Hdrop. right. vm_compute. reflexivity.
      * apply Hdrop. left. vm_compute. reflexivity.
Defined.

(** The VLAN of an emitted observation need not be the integer its
    token writes: seventeen digits are rounded to the nearest double,
    and three hundred and ten digits are beyond the doubles. *)
Lemma parser_rounds_long_vlan_tokens :
  SSHService.parseMacAddressTable 0
    "9007199254740993 aa:bb:cc:dd:ee:ff DYNAMIC Gi0/1" "10.0.0.1"
  = [mkObservation "aa:bb:cc:dd:ee:ff" 9007199254740992 "DYNAMIC" "Gi0/1"
                   "10.0.0.1" 0]
  /\ SSHService.parseMacAddressTable 0
       (Js.repeat "9" 310 ++ " aa:bb:cc:dd:ee:ff DYNAMIC Gi0/1")%string
       "10.0.0.1"
     = [mkObservation "aa:bb:cc:dd:ee:ff" (Infinity false) "DYNAMIC"
                      "Gi0/1" "10.0.0.1" 0].
Proof. split; vm_compute; reflexivity. Qed.

(** C4 (counterexample).  A line with a hyphenated MAC and a VLAN token
    that only starts with digits is emitted: the MAC keeps its hyphens,
    so it is not in colon form, and the VLAN token is not an integer as
    a whole. *)
Lemma parser_keeps_hyphens_and_reads_vlan_prefix :
  SSHService.parseMacAddressTable 0
    "10abc AA-BB-CC-DD-EE-FF DYNAMIC Gi0/1" "10.0.0.1"
  = [mkObservation "aa-bb-cc-dd-ee-ff" 10 "DYNAMIC" "Gi0/1" "10.0.0.1" 0]
  /\ colonLowercaseMAC "aa-bb-cc-dd-ee-ff" = false
  /\ integerToken "10abc" = false.
Proof. vm_compute. repeat split; reflexivity. Qed.

(** ** The map of known devices *)

Section JsMapFacts.
Context {V : Type}.
Implicit Types (m : list (string * V)) (k : string) (v : V).

Lemma get_In k v m : JsMap.get k m = Some v -> In (k, v) m.
Proof.
  induction m as [|[k' v'] m IH]; simpl; [discriminate|].
  destruct (String.eqb_spec k k') as [->|Hk].
  - intro H; inversion H; now left.
  - intro H; right; auto.
Qed.

Lemma In_get k v m : In (k, v) m -> JsMap.get k m <> None.
Proof.
  induction m as [|[k' v'] m IH]; simpl; [intros []|].
  intros [H|H].
  - inversion H; subst. now rewrite String.eqb_refl.
  - destruct (String.eqb k k'); [discriminate|auto].
Qed.

Lemma In_delete k0 m e :
  In e (JsMap.delete k0 m) <-> In e m /\ fst e <> k0.
Proof.
  induction m as [|[k' v'] m IH]; simpl; [tauto|].
  destruct (String.eqb_spec k0 k') as [->|Hk]; simpl; rewrite IH.
  - split; [tauto|]. intros [[<-|H] Hne]; [now simpl in Hne|tauto].
  - split; [|tauto]. intros [<-|[H Hne]]; [|tauto].
    split; [now left|]. simpl. congruence.
Qed.

Lemma get_delete_same k m : JsMap.get k (JsMap.delete k m) = None.
Proof.
  induction m as [|[k' v'] m IH]; simpl; [reflexivity|].
  destruct (String.eqb k k') eqn:E; [assumption|].
  simpl. now rewrite E.
Qed.

Lemma get_delete_other k k0 m :
  k <> k0 -> JsMap.get k (JsMap.delete k0 m) = JsMap.get k m.
Proof.
  intro Hne. induction m as [|[k' v'] m IH]; simpl; [reflexivity|].
  destruct (String.eqb_spec k0 k') as [<-|Hk0]; simpl.
  - destruct (String.eqb_spec k k0); [contradiction|assumption].
  - now rewrite IH.
Qed.

Lemma In_set k v m e :
  In e (JsMap.set k v m) -> e = (k, v) \/ In e m.
Proof.
  induction m as [|[k' v'] m IH]; simpl.
  - intros [<-|[]]; now left.
  - destruct (String.eqb_spec k k') as [->|Hk]; simpl.
    + intros [<-|H]; [now left|right; now right].
    + intros [<-|H]; [right; now left|].
      destruct (IH H); [now left|right; now right].
Qed.

Lemma get_set_same k v m : JsMap.get k (JsMap.set k v m) = Some v.
Proof.
  induction m as [|[k' v'] m IH]; simpl.
  - now rewrite String.eqb_refl.
  - destruct (String.eqb k k') eqn:E; simpl; now rewrite E.
Qed.

Lemma get_set_other k k0 v m :
  k <> k0 -> JsMap.get k (JsMap.set k0 v m) = JsMap.get k m.
Proof.
  intro Hne. induction m as [|[k' v'] m IH]; simpl.
  - destruct (String.eqb_spec k k0); [contradiction|reflexivity].
  - destruct (String.eqb_spec k0 k') as [<-|Hk0]; simpl.
    + destruct (String.eqb_spec k k0); [contradiction|reflexivity].
    + now rewrite IH.
Qed.

Lemma get_set_keeps k k0 v m :
  JsMap.get k m <> None -> JsMap.get k (JsMap.set k0 v m) <> None.
Proof.
  intro H. destruct (String.eqb_spec k k0) as [->|Hne].
  - now rewrite get_set_same.
  - now rewrite get_set_other.
Qed.
End JsMapFacts.

(** ** Rows, keys and the statements on [known_devices] *)

Section RowFacts.
Implicit Types (r : KnownDevice.row) (o : observation)
         (T : list KnownDevice.row).

Lemma sameDevice_true jobId mac host r :
  Sql.sameDevice jobId mac host r = true <->
  KnownDevice.job_id r = jobId /\ KnownDevice.mac_address r = mac
  /\ KnownDevice.host_name r = host.
Proof.
  unfold Sql.sameDevice.
  rewrite !andb_true_iff, !String.eqb_eq. tauto.
Qed.

Lemma sameKey_true r o :
  sameKey r o = true <->
  KnownDevice.mac_address r = mac_address o
  /\ KnownDevice.host_name r = host_name o.
Proof.
  unfold sameKey. rewrite andb_true_iff, !String.eqb_eq. tauto.
Qed.

Lemma sameDevice_touch jobId mac host now i v r :
  Sql.sameDevice jobId mac host (Sql.touch now i v r)
  = Sql.sameDevice jobId mac host r.
Proof. reflexivity. Qed.

Lemma sameDevice_retire jobId mac host r :
  Sql.sameDevice jobId mac host (Sql.retire r)
  = Sql.sameDevice jobId mac host r.
Proof. reflexivity. Qed.

Lemma existsb_map_same {A : Type} (p : A -> bool) (f : A -> A) (l : list A) :
  (forall a, p (f a) = p a) -> existsb p (map f l) = existsb p l.
Proof.
  intro H. induction l as [|a l IH]; simpl; [reflexivity|].
  now rewrite H, IH.
Qed.

Lemma rowExists_update jobId o now i v mac host T :
  rowExists jobId o
    (map (fun r => if Sql.sameDevice jobId mac host r
                   then Sql.touch now i v r else r) T)
  = rowExists jobId o T.
Proof.
  apply existsb_map_same. intro r.
  now destruct (Sql.sameDevice jobId mac host r).
Qed.

Lemma loopSettle_same jobId mac host now batch r :
  Sql.sameDevice jobId mac host (loopSettle now jobId batch r)
  = Sql.sameDevice jobId mac host r.
Proof.
  unfold loopSettle.
  destruct (String.eqb _ jobId); [|reflexivity].
  now destruct (findObservation batch r).
Qed.

Lemma findObservation_touch batch now i v r :
  findObservation batch (Sql.touch now i v r) = findObservation batch r.
Proof. reflexivity. Qed.

(** An observation and a row of the job about one device. *)
Lemma sameDevice_sameKey jobId o r :
  Sql.sameDevice jobId (mac_address o) (host_name o) r
  = String.eqb (KnownDevice.job_id r) jobId && sameKey r o.
Proof.
  unfold Sql.sameDevice, sameKey. now rewrite andb_assoc.
Qed.

Lemma findObservation_none batch r :
  findObservation batch r = None <->
  forall o, In o batch -> sameKey r o = false.
Proof.
  unfold findObservation. split.
  - intros H o Ho. exact (find_none _ _ H o Ho).
  - intro H. destruct (find (sameKey r) batch) as [o|] eqn:E;
      [|reflexivity].
    apply find_some in E as [Ho Hk]. rewrite (H o Ho) in Hk. discriminate.
Qed.

Lemma keyOf_inj o o' :
  SSHService.isValidMAC (mac_address o) = true ->
  SSHService.isValidMAC (mac_address o') = true ->
  keyOf o = keyOf o' -> pairOf o = pairOf o'.
Proof.
  intros V V' H. unfold pairOf.
  destruct (deviceKey_inj _ _ _ _ V V' H) as [-> ->]. reflexivity.
Qed.

Lemma keyOf_pair o o' : pairOf o = pairOf o' -> keyOf o = keyOf o'.
Proof.
  unfold pairOf, keyOf. intro H. inversion H as [[Hm Hh]].
  now rewrite Hm, Hh.
Qed.

Lemma validBatch_In batch o :
  validBatch batch = true -> In o batch ->
  SSHService.isValidMAC (mac_address o) = true.
Proof.
  unfold validBatch. rewrite forallb_forall. auto.
Qed.

Lemma rowExists_pair jobId o o' T :
  pairOf o = pairOf o' -> rowExists jobId o T = rowExists jobId o' T.
Proof.
  unfold pairOf, rowExists. intro H. inversion H as [[Hm Hh]].
  now rewrite Hm, Hh.
Qed.

Lemma sameKey_pair r o o' :
  pairOf o = pairOf o' -> sameKey r o = sameKey r o'.
Proof.
  unfold pairOf, sameKey. intro H. inversion H as [[Hm Hh]].
  now rewrite Hm, Hh.
Qed.
End RowFacts.

(** ** One step of the reconciliation loop *)

Section StepFacts.
Variables (now : Z) (jobId : string) (whitelist : list string)
          (job : Job.row).

Lemma bind_Returned {A B : Type} (m : M A) (f : A -> M B) d a d' :
  m d = Returned a d' -> bind m f d = f a d'.
Proof. unfold bind. now intros ->. Qed.

Lemma bind_Thrown {A B : Type} (m : M A) (f : A -> M B) d e d' :
  m d = Thrown e d' -> bind m f d = Thrown e d'.
Proof. unfold bind. now intros ->. Qed.

Lemma createNotification_returns n d :
  exists d',
    NotificationService.createNotification now n d = Returned tt d'
    /\ known_devices d' = known_devices d
    /\ device_history d' = device_history d
    /\ jobs d' = jobs d /\ job_runs d' = job_runs d.
Proof. eexists. repeat split. Qed.

Lemma notifyNewDevice_returns device w vars d :
  exists vars' d',
    MacScanRunner.notifyNewDevice now jobId job device w vars d
    = Returned vars' d'
    /\ MacScanRunner.knownDevices vars' = MacScanRunner.knownDevices vars
    /\ MacScanRunner.newDevices vars' = MacScanRunner.newDevices vars
    /\ known_devices d' = known_devices d.
Proof.
  unfold MacScanRunner.notifyNewDevice.
  destruct (truthy (Job.notifications_enabled job));
    [|do 2 eexists; repeat split].
  destruct (w && truthy (Job.notify_new_macs job));
    [do 2 eexists; repeat split|].
  destruct (negb w && truthy (Job.notify_unauthorized_macs job));
    do 2 eexists; repeat split.
Qed.

Lemma notifyMoved_returns device existing d :
  exists d',
    MacScanRunner.notifyMoved now jobId job device existing d
    = Returned tt d'
    /\ known_devices d' = known_devices d.
Proof.
  unfold MacScanRunner.notifyMoved.
  destruct (_ && _); eexists; repeat split.
Qed.

(** The device is in the map: its rows are refreshed and the key
    leaves the map. *)
Lemma processDevice_existing device vars existing d :
  JsMap.get (keyOf device) (MacScanRunner.knownDevices vars)
  = Some existing ->
  exists d',
    MacScanRunner.processDevice now jobId whitelist job device vars d
    = Returned
        (MacScanRunner.mkLocals
           (JsMap.delete (keyOf device) (MacScanRunner.knownDevices vars))
           (MacScanRunner.newDevices vars) (MacScanRunner.warnings vars))
        d'
    /\ known_devices d'
       = map (fun r => if Sql.sameDevice jobId (mac_address device)
                                         (host_name device) r
                       then Sql.touch now (interface_name device)
                                      (vlan_id device) r
                       else r)
             (known_devices d).
Proof.
  intro G. unfold MacScanRunner.processDevice.
  unfold keyOf in G. rewrite G.
  destruct (notifyMoved_returns device existing d) as (d1 & E1 & K1).
  eexists. split.
  - erewrite bind_Returned; [reflexivity|].
    erewrite bind_Returned; [reflexivity|exact E1].
  - simpl. now rewrite K1.
Qed.

(** The device is not in the map and the table has no row for it: a
    row is appended. *)
Lemma processDevice_new device vars d :
  JsMap.get (keyOf device) (MacScanRunner.knownDevices vars) = None ->
  rowExists jobId device (known_devices d) = false ->
  exists vars' d' c,
    MacScanRunner.processDevice now jobId whitelist job device vars d
    = Returned vars' d'
    /\ MacScanRunner.knownDevices vars' = MacScanRunner.knownDevices vars
    /\ MacScanRunner.newDevices vars' = S (MacScanRunner.newDevices vars)
    /\ createdFrom now jobId whitelist device c
    /\ known_devices d' = known_devices d ++ [c].
Proof.
  intros G E. unfold MacScanRunner.processDevice.
  unfold keyOf in G. rewrite G. unfold rowExists in E.
  set (vars1 := MacScanRunner.mkLocals _ (S _) _).
  set (c := KnownDevice.mk (next_uuid d) jobId (mac_address device)
              (host_name device) (interface_name device) (vlan_id device)
              (if MacScanRunner.has whitelist (mac_address device)
               then 1%Z else 0%Z) now now "active").
  set (d1 := with_known_devices (known_devices d ++ [c])
               (with_next_uuid (S (next_uuid d)) d)).
  destruct (notifyNewDevice_returns device
              (MacScanRunner.has whitelist (mac_address device)) vars1 d1)
    as (vars' & d2 & E2 & Hk & Hn & K2).
  exists vars'. eexists. exists c. split; [|split; [|split; [|split]]].
  - erewrite bind_Returned; [reflexivity|].
    unfold bind at 1. unfold uuidv4.
    unfold bind at 1. unfold Sql.insertKnownDevice.
    cbn [known_devices with_next_uuid]. rewrite E.
    fold c. fold d1. exact E2.
  - exact Hk.
  - exact Hn.
  - reflexivity.
  - simpl. rewrite K2. reflexivity.
Qed.

(** The device is not in the map but the table has a row for it: the
    insert violates the unique index and the step throws, with the
    table as it was. *)
Lemma processDevice_duplicate device vars d :
  JsMap.get (keyOf device) (MacScanRunner.knownDevices vars) = None ->
  rowExists jobId device (known_devices d) = true ->
  exists message d',
    MacScanRunner.processDevice now jobId whitelist job device vars d
    = Thrown message d'
    /\ known_devices d' = known_devices d
    /\ device_history d' = device_history d
    /\ notifications d' = notifications d.
Proof.
  intros G E. unfold MacScanRunner.processDevice.
  unfold keyOf in G. rewrite G. unfold rowExists in E.
  do 2 eexists. split; [|split; [|split]].
  - erewrite bind_Thrown; [reflexivity|].
    unfold bind at 1. unfold uuidv4.
    unfold bind at 1. unfold Sql.insertKnownDevice.
    cbn [known_devices with_next_uuid]. rewrite E. reflexivity.
  - reflexivity.
  - reflexivity.
  - reflexivity.
Qed.
End StepFacts.

(** ** The first loop: every device of the batch *)

Section LoopFacts.
Variables (now : Z) (jobId : string) (whitelist : list string)
          (job : Job.row).

Lemma NoDup_pair_unique l o o' :
  NoDup (map pairOf l) -> In o l -> In o' l ->
  pairOf o = pairOf o' -> o = o'.
Proof.
  induction l as [|x l IH]; simpl; intros ND Ho Ho' E; [contradiction|].
  inversion ND as [|? ? Hx ND']; subst.
  destruct Ho as [<-|Ho], Ho' as [<-|Ho'].
  - reflexivity.
  - exfalso. apply Hx. rewrite E. now apply in_map.
  - exfalso. apply Hx. rewrite <- E. now apply in_map.
  - now apply IH.
Qed.

Lemma sameKey_pairs r o o' :
  sameKey r o = true -> sameKey r o' = true -> pairOf o' = pairOf o.
Proof.
  rewrite !sameKey_true. unfold pairOf. intros [<- <-] [<- <-].
  reflexivity.
Qed.

Lemma loopSettle_nil r : loopSettle now jobId [] r = r.
Proof. unfold loopSettle. now destruct (String.eqb _ _). Qed.

Lemma loopSettle_cons_seen o l r :
  (forall o', In o' l -> pairOf o' <> pairOf o) ->
  loopSettle now jobId l
    (if Sql.sameDevice jobId (mac_address o) (host_name o) r
     then Sql.touch now (interface_name o) (vlan_id o) r else r)
  = loopSettle now jobId (o :: l) r.
Proof.
  intro Hfresh. rewrite sameDevice_sameKey.
  unfold loopSettle, findObservation. cbn [find].
  destruct (String.eqb (KnownDevice.job_id r) jobId) eqn:Ej;
    cbn [andb]; [|now rewrite Ej].
  destruct (sameKey r o) eqn:Ek; [|now rewrite Ej].
  cbn [Sql.touch KnownDevice.job_id]. rewrite Ej.
  change (find (sameKey (Sql.touch now (interface_name o) (vlan_id o) r)) l)
    with (findObservation l r).
  replace (findObservation l r) with (@None observation); [reflexivity|].
  symmetry. apply findObservation_none. intros o' Ho'.
  destruct (sameKey r o') eqn:Ek'; [|reflexivity].
  exfalso. exact (Hfresh o' Ho' (sameKey_pairs _ _ _ Ek Ek')).
Qed.

Lemma loopSettle_cons_unseen o l r :
  Sql.sameDevice jobId (mac_address o) (host_name o) r = false ->
  loopSettle now jobId (o :: l) r = loopSettle now jobId l r.
Proof.
  rewrite sameDevice_sameKey.
  unfold loopSettle, findObservation. cbn [find].
  destruct (String.eqb (KnownDevice.job_id r) jobId); [|reflexivity].
  cbn [andb]. now intros ->.
Qed.

Lemma createdFrom_same o c :
  createdFrom now jobId whitelist o c ->
  Sql.sameDevice jobId (mac_address o) (host_name o) c = true.
Proof.
  intros ->. apply sameDevice_true. repeat split.
Qed.

Lemma loopSettle_created o l c :
  createdFrom now jobId whitelist o c ->
  (forall o', In o' l -> pairOf o' <> pairOf o) ->
  loopSettle now jobId l c = c.
Proof.
  intros Hc Hfresh. apply createdFrom_same in Hc.
  rewrite sameDevice_sameKey in Hc. apply andb_true_iff in Hc as [Ej Ek].
  unfold loopSettle. rewrite Ej.
  replace (findObservation l c) with (@None observation); [reflexivity|].
  symmetry. apply findObservation_none. intros o' Ho'.
  destruct (sameKey c o') eqn:Ek'; [|reflexivity].
  exfalso. exact (Hfresh o' Ho' (sameKey_pairs _ _ _ Ek Ek')).
Qed.

Lemma rowExists_loopSettle o l T :
  rowExists jobId o (map (loopSettle now jobId l) T) = rowExists jobId o T.
Proof.
  apply existsb_map_same. intro r. apply loopSettle_same.
Qed.

Lemma rowExists_app o T T' :
  rowExists jobId o (T ++ T') = rowExists jobId o T || rowExists jobId o T'.
Proof. apply existsb_app. Qed.

(** A run of the first loop that returns: the batch has no two
    observations of one device, the table is the old one with the
    observed rows refreshed, followed by the rows created, and the map
    has lost the keys of the batch. *)
Lemma loop_returned :
  forall l m nd w d vars d',
    Forall (entryOk jobId (known_devices d)) m ->
    validBatch l = true ->
    forEach (MacScanRunner.processDevice now jobId whitelist job) l
            (MacScanRunner.mkLocals m nd w) d = Returned vars d' ->
    NoDup (map pairOf l)
    /\ (forall o, In o l -> JsMap.get (keyOf o) m = None ->
                  rowExists jobId o (known_devices d) = false)
    /\ (exists created,
           known_devices d'
           = map (loopSettle now jobId l) (known_devices d) ++ created
           /\ Forall (fun c => exists o,
                          In o l /\ JsMap.get (keyOf o) m = None
                          /\ createdFrom now jobId whitelist o c) created
           /\ MacScanRunner.newDevices vars = nd + List.length created)
    /\ (forall e, In e (MacScanRunner.knownDevices vars) <->
                  In e m /\ ~ In (fst e) (map keyOf l))
    /\ (forall o, In o l -> rowExists jobId o (known_devices d') = true).
Proof.
  induction l as [|o l IH]; intros m nd w d vars d' Hm Hl Hrun.
  - cbn [forEach] in Hrun. inversion Hrun; subst. cbn.
    split; [constructor|]. split; [intros ? []|]. split.
    + exists []. rewrite app_nil_r. split; [|split; [constructor|cbn; lia]].
      rewrite <- (map_id (known_devices d')) at 1.
      apply map_ext. intro r. now rewrite loopSettle_nil.
    + split; [intro e; tauto|intros ? []].
  - cbn [validBatch forallb] in Hl. apply andb_true_iff in Hl as [Vo Hl].
    fold (validBatch l) in Hl. cbn [forEach] in Hrun.
    destruct (JsMap.get (keyOf o) m) as [e|] eqn:G.
    + (* the device is in the map *)
      destruct (processDevice_existing now jobId whitelist job o
                  (MacScanRunner.mkLocals m nd w) e d G) as (d1 & E1 & K1).
      rewrite (bind_Returned _ _ _ _ _ E1) in Hrun.
      cbn [MacScanRunner.knownDevices MacScanRunner.newDevices
           MacScanRunner.warnings] in Hrun.
      pose proof (get_In _ _ _ G) as Hin.
      pose proof (proj1 (Forall_forall _ _) Hm) as Hm'.
      destruct (Hm' _ Hin) as (Hkey & Ve & Hex). cbn [fst snd] in *.
      destruct (deviceKey_inj _ _ _ _ Vo Ve Hkey) as [Hmac Hhost].
      assert (Hrow : rowExists jobId o (known_devices d) = true).
      { unfold rowExists. rewrite Hmac, Hhost. exact Hex. }
      assert (Hm1 : Forall (entryOk jobId (known_devices d1))
                           (JsMap.delete (keyOf o) m)).
      { apply Forall_forall. intros e' He'.
        apply In_delete in He' as [He' _].
        destruct (Hm' _ He') as (? & ? & Hx). repeat split; auto.
        rewrite K1. rewrite existsb_map_same; [exact Hx|].
        intro r. now destruct (Sql.sameDevice jobId _ _ r). }
      destruct (IH _ _ _ _ _ _ Hm1 Hl Hrun)
        as (ND & Hnone & (created & HT & Hcr & Hnd) & Hents & Hex').
      assert (Hfresh : forall o', In o' l -> pairOf o' <> pairOf o).
      { intros o' Ho' Hp.
        assert (Hf : rowExists jobId o' (known_devices d1) = false).
        { apply Hnone; [assumption|].
          rewrite (keyOf_pair _ _ Hp). apply get_delete_same. }
        rewrite K1, rowExists_update, (rowExists_pair _ _ _ _ Hp) in Hf.
        congruence. }
      assert (Hkeys : forall o', In o' l -> keyOf o' <> keyOf o).
      { intros o' Ho' Hk. apply (Hfresh o' Ho').
        apply keyOf_inj; auto. eapply validBatch_In; eauto. }
      split; [|split; [|split; [|split]]].
      * cbn [map]. constructor; [|assumption].
        intro Hi. apply in_map_iff in Hi as (o' & Hp & Ho').
        exact (Hfresh o' Ho' Hp).
      * intros o2 [<-|Ho2] G2; [congruence|].
        rewrite <- (rowExists_update jobId o2 now (interface_name o)
                      (vlan_id o) (mac_address o) (host_name o)).
        rewrite <- K1. apply Hnone; [assumption|].
        rewrite get_delete_other; [assumption|]. now apply Hkeys.
      * exists created. split; [|split].
        -- rewrite HT, K1, map_map. f_equal.
           apply map_ext. intro r. now apply loopSettle_cons_seen.
        -- eapply Forall_impl; [|exact Hcr].
           intros c (o' & Ho' & G' & Hc). exists o'.
           split; [now right|]. split; [|assumption].
           rewrite get_delete_other in G'; [assumption|]. now apply Hkeys.
        -- assumption.
      * intro e'. rewrite Hents, In_delete. cbn [map In].
        split.
        -- intros [[He Hne] Hni]. split; [assumption|].
           intros [Hk|Hi]; [now apply Hne|now apply Hni].
        -- intros [He Hni]. split; [split; [assumption|]|].
           ++ intro Hk. apply Hni. now left.
           ++ intro Hi. apply Hni. now right.
      * intros o2 [<-|Ho2]; [|now apply Hex'].
        rewrite HT, rowExists_app, rowExists_loopSettle, K1,
          rowExists_update, Hrow. reflexivity.
    + (* the device is not in the map *)
      destruct (rowExists jobId o (known_devices d)) eqn:E.
      { destruct (processDevice_duplicate now jobId whitelist job o
                    (MacScanRunner.mkLocals m nd w) d G E)
          as (msg & d1 & E1 & _).
        rewrite (bind_Thrown _ _ _ _ _ E1) in Hrun. discriminate. }
      destruct (processDevice_new now jobId whitelist job o
                  (MacScanRunner.mkLocals m nd w) d G E)
        as ([m1 nd1 w1] & d1 & c & E1 & Hk1 & Hn1 & Hc & K1).
      cbn [MacScanRunner.knownDevices MacScanRunner.newDevices] in Hk1, Hn1.
      subst m1 nd1.
      rewrite (bind_Returned _ _ _ _ _ E1) in Hrun.
      pose proof (proj1 (Forall_forall _ _) Hm) as Hm'.
      assert (Hm1 : Forall (entryOk jobId (known_devices d1)) m).
      { apply Forall_forall. intros e' He'.
        destruct (Hm' _ He') as (? & ? & Hx). repeat split; auto.
        rewrite K1, existsb_app, Hx. reflexivity. }
      destruct (IH _ _ _ _ _ _ Hm1 Hl Hrun)
        as (ND & Hnone & (created & HT & Hcr & Hnd) & Hents & Hex').
      pose proof (createdFrom_same _ _ Hc) as Hsame.
      assert (Hfresh : forall o', In o' l -> pairOf o' <> pairOf o).
      { intros o' Ho' Hp.
        assert (Hf : rowExists jobId o' (known_devices d1) = false).
        { apply Hnone; [assumption|]. now rewrite (keyOf_pair _ _ Hp). }
        rewrite K1, rowExists_app in Hf.
        apply orb_false_iff in Hf as [_ Hf].
        rewrite (rowExists_pair _ _ _ _ Hp) in Hf.
        unfold rowExists in Hf. cbn [existsb] in Hf.
        rewrite Hsame in Hf. discriminate. }
      split; [|split; [|split; [|split]]].
      * cbn [map]. constructor; [|assumption].
        intro Hi. apply in_map_iff in Hi as (o' & Hp & Ho').
        exact (Hfresh o' Ho' Hp).
      * intros o2 [<-|Ho2] G2; [assumption|].
        pose proof (Hnone o2 Ho2 G2) as Hf.
        rewrite K1, rowExists_app in Hf.
        now apply orb_false_iff in Hf as [Hf _].
      * exists (c :: created). split; [|split].
        -- rewrite HT, K1, map_app. cbn [map].
           rewrite (loopSettle_created _ _ _ Hc Hfresh).
           rewrite <- app_assoc. cbn [app]. f_equal.
           apply map_ext_in. intros r Hr. symmetry.
           apply loopSettle_cons_unseen.
           unfold rowExists in E.
           destruct (Sql.sameDevice jobId (mac_address o) (host_name o) r)
             eqn:Es; [|reflexivity].
           assert (Ht : existsb (Sql.sameDevice jobId (mac_address o)
                                   (host_name o)) (known_devices d) = true).
           { apply existsb_exists. exists r. now split. }
           congruence.
        -- constructor.
           ++ exists o. split; [now left|]. split; assumption.
           ++ eapply Forall_impl; [|exact Hcr].
              intros c' (o' & Ho' & G' & Hc'). exists o'.
              split; [now right|]. split; assumption.
        -- rewrite Hnd. cbn [List.length]. lia.
      * intro e'. rewrite Hents. cbn [map In].
        split.
        -- intros [He Hni]. split; [assumption|].
           intros [Hk|Hi]; [|now apply Hni].
           destruct e' as [k' v']. cbn [fst] in Hk. subst k'.
           exact (In_get _ _ _ He G).
        -- intros [He Hni]. split; [assumption|].
           intro Hi. apply Hni. now right.
      * intros o2 [<-|Ho2]; [|now apply Hex'].
        rewrite HT, rowExists_app, rowExists_loopSettle, K1,
          rowExists_app.
        unfold rowExists at 2. cbn [existsb]. rewrite Hsame.
        now rewrite !orb_true_r.
Qed.
End LoopFacts.

(** ** Loading the map, retiring what is left in it *)

Section ReconcileFacts.
Variables (now : Z) (jobId : string) (whitelist : list string)
          (job : Job.row).

Lemma load_entries rows :
  forall m e,
    In e (fold_left loadStep rows m) ->
    In e m \/ exists r, In r rows /\ e = (keyOfRow r, r).
Proof.
  induction rows as [|r rows IH]; intros m e; cbn [fold_left];
    [now left|].
  intro H. destruct (IH _ _ H) as [Hs|(r' & Hr' & ->)].
  - apply In_set in Hs as [->|Hs]; [|now left].
    right. exists r. split; [now left|reflexivity].
  - right. exists r'. split; [now right|reflexivity].
Qed.

Lemma load_keeps rows :
  forall m k, JsMap.get k m <> None ->
              JsMap.get k (fold_left loadStep rows m) <> None.
Proof.
  induction rows as [|r rows IH]; intros m k H; cbn [fold_left];
    [assumption|].
  apply IH. now apply get_set_keeps.
Qed.

Lemma load_has rows :
  forall m r, In r rows ->
              JsMap.get (keyOfRow r) (fold_left loadStep rows m) <> None.
Proof.
  induction rows as [|x rows IH]; intros m r; cbn [fold_left In];
    [intros []|].
  intros [->|H]; [|now apply IH].
  apply load_keeps. unfold loadStep. now rewrite get_set_same.
Qed.

Lemma selected_In r d :
  In r (Sql.selectKnownDevices jobId d) <->
  In r (known_devices d) /\ KnownDevice.job_id r = jobId.
Proof.
  unfold Sql.selectKnownDevices. now rewrite filter_In, String.eqb_eq.
Qed.

Lemma validInventory_In d r :
  validInventory jobId d = true ->
  In r (known_devices d) -> KnownDevice.job_id r = jobId ->
  SSHService.isValidMAC (KnownDevice.mac_address r) = true.
Proof.
  unfold validInventory. rewrite forallb_forall. intros H Hr Hj.
  apply H. now apply selected_In.
Qed.

(** The map the reconciler starts from. *)
Lemma load_ok d :
  validInventory jobId d = true ->
  Forall (entryOk jobId (known_devices d))
         (MacScanRunner.loadKnownDevices jobId d).
Proof.
  intro V. apply Forall_forall. intros e He.
  unfold MacScanRunner.loadKnownDevices in He.
  apply (load_entries (Sql.selectKnownDevices jobId d) [] e) in He.
  destruct He as [[]|(r & Hr & ->)].
  apply selected_In in Hr as [Hr Hj].
  repeat split; cbn [fst snd].
  - now apply (validInventory_In d).
  - apply existsb_exists. exists r. split; [assumption|].
    now apply sameDevice_true.
Qed.

Lemma load_get d r :
  In r (known_devices d) -> KnownDevice.job_id r = jobId ->
  JsMap.get (keyOfRow r) (MacScanRunner.loadKnownDevices jobId d) <> None.
Proof.
  intros Hr Hj. unfold MacScanRunner.loadKnownDevices.
  apply (load_has (Sql.selectKnownDevices jobId d) [] r).
  now apply selected_In.
Qed.

Lemma retireUnseen_cons e entries r :
  retireUnseen jobId entries
    (if Sql.sameDevice jobId (KnownDevice.mac_address (snd e))
                       (KnownDevice.host_name (snd e)) r
     then Sql.retire r else r)
  = retireUnseen jobId (e :: entries) r.
Proof.
  unfold retireUnseen. cbn [existsb].
  destruct (Sql.sameDevice jobId _ _ r) eqn:E; cbn [orb].
  - assert (H : forall p : bool, (if p then Sql.retire (Sql.retire r)
                           else Sql.retire r) = Sql.retire r)
      by (now intros []).
    apply H.
  - reflexivity.
Qed.

(** The second loop never throws; it retires the rows of the entries
    it visits and leaves the other tables alone. *)
Lemma markInactive_loop entries :
  forall d,
    exists d',
      forEach (MacScanRunner.markInactive jobId) entries tt d
      = Returned tt d'
      /\ known_devices d'
         = map (retireUnseen jobId entries) (known_devices d)
      /\ notifications d' = notifications d
      /\ device_history d' = device_history d.
Proof.
  induction entries as [|e entries IH]; intro d; cbn [forEach].
  - exists d. split; [reflexivity|]. split; [|now split].
    rewrite <- (map_id (known_devices d)) at 1. now apply map_ext.
  - unfold bind at 1. unfold MacScanRunner.markInactive at 1.
    unfold Sql.updateInactive.
    match goal with |- context [forEach _ entries tt ?x] =>
      destruct (IH x) as (d' & E & K & N & H) end.
    exists d'. split; [exact E|]. split; [|now split].
    rewrite K. cbn [known_devices with_known_devices]. rewrite map_map.
    apply map_ext. intro r. apply retireUnseen_cons.
Qed.

Lemma retireUnseen_none entries r :
  (forall e, In e entries ->
             Sql.sameDevice jobId (KnownDevice.mac_address (snd e))
                            (KnownDevice.host_name (snd e)) r = false) ->
  retireUnseen jobId entries r = r.
Proof.
  intro H. unfold retireUnseen.
  destruct (existsb _ entries) eqn:E; [|reflexivity].
  apply existsb_exists in E as (e & He & Hs).
  rewrite (H e He) in Hs. discriminate.
Qed.

(** A reconciliation that returns: what it made of the table. *)
Lemma reconcile_returned devices d vars d' :
  validBatch devices = true ->
  validInventory jobId d = true ->
  MacScanRunner.reconcile now jobId devices whitelist job d
  = Returned vars d' ->
  NoDup (map pairOf devices)
  /\ (exists created,
         known_devices d'
         = map (settle now jobId devices) (known_devices d) ++ created
         /\ Forall (fun c => exists o,
                        In o devices
                        /\ rowExists jobId o (known_devices d) = false
                        /\ createdFrom now jobId whitelist o c) created
         /\ MacScanRunner.newDevices vars = List.length created)
  /\ (forall o, In o devices -> rowExists jobId o (known_devices d') = true).
Proof.
  intros Vb Vi Hrun. unfold MacScanRunner.reconcile in Hrun.
  unfold bind at 1 in Hrun.
  destruct (forEach (MacScanRunner.processDevice now jobId whitelist job)
              devices _ d) as [vars1 d1|] eqn:Eloop; [|discriminate].
  destruct (loop_returned now jobId whitelist job _ _ _ _ _ _ _
              (load_ok d Vi) Vb Eloop)
    as (ND & Hnone & (created & HT & Hcr & Hnd) & Hents & Hex).
  destruct (markInactive_loop (MacScanRunner.knownDevices vars1) d1)
    as (d2 & E2 & K2 & _).
  rewrite (bind_Returned _ _ _ _ _ E2) in Hrun.
  inversion Hrun; subst vars1 d2; clear Hrun.
  assert (Hleft : forall e r,
             In e (MacScanRunner.knownDevices vars) ->
             Sql.sameDevice jobId (KnownDevice.mac_address (snd e))
               (KnownDevice.host_name (snd e)) r = true ->
             forall o, In o devices -> sameKey r o = false).
  { intros e r He Hs o Ho.
    destruct (sameKey r o) eqn:Ek; [|reflexivity]. exfalso.
    apply Hents in He as [He Hni]. apply Hni.
    pose proof (proj1 (Forall_forall _ _) (load_ok d Vi) e He)
      as (Hkey & _ & _).
    apply sameDevice_true in Hs as (_ & Hm & Hh).
    apply sameKey_true in Ek as [Hm' Hh'].
    apply in_map_iff. exists o. split; [|assumption].
    unfold keyOf. now rewrite Hkey, <- Hm, <- Hh, Hm', Hh'. }
  split; [assumption|]. split.
  - exists created. split; [|split].
    + rewrite K2, HT, map_app, map_map. f_equal.
      * apply map_ext_in. intros r Hr. unfold settle, loopSettle.
        destruct (String.eqb (KnownDevice.job_id r) jobId) eqn:Ej.
        -- apply String.eqb_eq in Ej.
           destruct (findObservation devices r) as [o|] eqn:Ef.
           ++ apply retireUnseen_none. intros e He.
              destruct (Sql.sameDevice jobId _ _ (Sql.touch _ _ _ r))
                eqn:Es; [|reflexivity].
              rewrite sameDevice_touch in Es.
              apply find_some in Ef as [Ho Hk].
              rewrite (Hleft e r He Es o Ho) in Hk. discriminate.
           ++ unfold retireUnseen.
              replace (existsb _ (MacScanRunner.knownDevices vars))
                with true; [reflexivity|].
              symmetry. apply existsb_exists.
              destruct (JsMap.get (keyOfRow r)
                          (MacScanRunner.loadKnownDevices jobId d))
                as [x|] eqn:G; [|now destruct (load_get d r Hr Ej)].
              apply get_In in G.
              pose proof (proj1 (Forall_forall _ _) (load_ok d Vi) _ G)
                as (Hkey & Vx & _). cbn [fst snd] in Hkey, Vx.
              pose proof (validInventory_In d r Vi Hr Ej) as Vr.
              destruct (deviceKey_inj _ _ _ _ Vr Vx Hkey) as [Hm Hh].
              exists (keyOfRow r, x). split.
              ** apply Hents. split; [assumption|]. cbn [fst].
                 intro Hi. apply in_map_iff in Hi as (o & Hk & Ho).
                 pose proof (validBatch_In _ _ Vb Ho) as Vo.
                 unfold keyOf, keyOfRow in Hk.
                 destruct (deviceKey_inj _ _ _ _ Vo Vr Hk) as [Hm' Hh'].
                 pose proof (proj1 (findObservation_none _ _) Ef o Ho)
                   as Hf.
                 assert (Ht : sameKey r o = true)
                   by (apply sameKey_true; now split).
                 congruence.
              ** cbn [snd]. apply sameDevice_true. now repeat split.
        -- apply retireUnseen_none. intros e He.
           unfold Sql.sameDevice. rewrite Ej. reflexivity.
      * rewrite <- (map_id created) at 2. apply map_ext_in.
        intros c Hc.
        pose proof (proj1 (Forall_forall _ _) Hcr c Hc)
          as (o & Ho & _ & Hfrom).
        apply retireUnseen_none. intros e He.
        destruct (Sql.sameDevice jobId _ _ c) eqn:Es; [|reflexivity].
        pose proof (Hleft e c He Es o Ho) as Hf.
        apply createdFrom_same in Hfrom.
        rewrite sameDevice_sameKey in Hfrom.
        apply andb_true_iff in Hfrom as [_ Hfrom]. congruence.
    + eapply Forall_impl; [|exact Hcr].
      intros c (o & Ho & G & Hfrom). exists o.
      split; [assumption|]. split; [|assumption]. now apply Hnone.
    + now rewrite Hnd.
  - intros o Ho. rewrite K2. unfold rowExists.
    rewrite existsb_map_same; [now apply Hex|].
    intro r. unfold retireUnseen. now destruct (existsb _ _).
Qed.
End ReconcileFacts.

(** ** When the reconciliation returns, and a second pass *)

Section SecondPass.
Variables (now : Z) (jobId : string) (whitelist : list string)
          (job : Job.row).

Lemma load_none_no_row d o :
  JsMap.get (keyOf o) (MacScanRunner.loadKnownDevices jobId d) = None ->
  rowExists jobId o (known_devices d) = false.
Proof.
  intro G. destruct (rowExists jobId o (known_devices d)) eqn:E;
    [|reflexivity].
  apply existsb_exists in E as (r & Hr & Hs).
  apply sameDevice_true in Hs as (Hj & Hm & Hh).
  exfalso. apply (load_get jobId d r Hr Hj).
  unfold keyOf in G. unfold keyOfRow. now rewrite Hm, Hh.
Qed.

Lemma createdFrom_other o o' c :
  createdFrom now jobId whitelist o c ->
  pairOf o' <> pairOf o ->
  Sql.sameDevice jobId (mac_address o') (host_name o') c = false.
Proof.
  intros -> Hp.
  destruct (Sql.sameDevice _ _ _ _) eqn:E; [|reflexivity].
  apply sameDevice_true in E as (_ & Hm & Hh). cbn in Hm, Hh.
  exfalso. apply Hp. unfold pairOf. now rewrite Hm, Hh.
Qed.

(** The first loop returns when no two observations of the batch are
    about one device and no device missing from the map has a row. *)
Lemma loop_returns :
  forall l m nd w d,
    Forall (entryOk jobId (known_devices d)) m ->
    validBatch l = true ->
    NoDup (map pairOf l) ->
    (forall o, In o l -> JsMap.get (keyOf o) m = None ->
               rowExists jobId o (known_devices d) = false) ->
    exists vars d',
      forEach (MacScanRunner.processDevice now jobId whitelist job) l
              (MacScanRunner.mkLocals m nd w) d = Returned vars d'.
Proof.
  induction l as [|o l IH]; intros m nd w d Hm Hl ND Hnone.
  - do 2 eexists. reflexivity.
  - cbn [validBatch forallb] in Hl. apply andb_true_iff in Hl as [Vo Hl].
    fold (validBatch l) in Hl. cbn [map] in ND.
    inversion ND as [|? ? Ho ND']; subst.
    assert (Hfresh : forall o', In o' l -> pairOf o' <> pairOf o).
    { intros o' Ho' Hp. apply Ho. rewrite <- Hp. now apply in_map. }
    assert (Hkeys : forall o', In o' l -> keyOf o' <> keyOf o).
    { intros o' Ho' Hk. apply (Hfresh o' Ho').
      apply keyOf_inj; auto. eapply validBatch_In; eauto. }
    pose proof (proj1 (Forall_forall _ _) Hm) as Hm'.
    cbn [forEach].
    destruct (JsMap.get (keyOf o) m) as [e|] eqn:G.
    + destruct (processDevice_existing now jobId whitelist job o
                  (MacScanRunner.mkLocals m nd w) e d G) as (d1 & E1 & K1).
      rewrite (bind_Returned _ _ _ _ _ E1).
      apply IH; auto.
      * apply Forall_forall. intros e' He'.
        apply In_delete in He' as [He' _].
        destruct (Hm' _ He') as (? & ? & Hx). repeat split; auto.
        rewrite K1. rewrite existsb_map_same; [exact Hx|].
        intro r. now destruct (Sql.sameDevice jobId _ _ r).
      * intros o' Ho' G'. cbn [MacScanRunner.knownDevices] in G'.
        rewrite get_delete_other in G' by now apply Hkeys.
        rewrite K1, rowExists_update. apply Hnone; [now right|assumption].
    + assert (E : rowExists jobId o (known_devices d) = false)
        by (apply Hnone; [now left|assumption]).
      destruct (processDevice_new now jobId whitelist job o
                  (MacScanRunner.mkLocals m nd w) d G E)
        as ([m1 nd1 w1] & d1 & c & E1 & Hk1 & Hn1 & Hc & K1).
      cbn [MacScanRunner.knownDevices MacScanRunner.newDevices] in Hk1, Hn1.
      subst m1 nd1.
      rewrite (bind_Returned _ _ _ _ _ E1).
      apply IH; auto.
      * apply Forall_forall. intros e' He'.
        destruct (Hm' _ He') as (? & ? & Hx). repeat split; auto.
        rewrite K1, existsb_app, Hx. reflexivity.
      * intros o' Ho' G'. rewrite K1, rowExists_app.
        rewrite (Hnone o' (or_intror Ho') G'). cbn [orb].
        unfold rowExists. cbn [existsb].
        rewrite (createdFrom_other _ _ _ Hc (Hfresh o' Ho')). reflexivity.
Qed.

(** A batch with no two observations of one device is reconciled
    without an exception. *)
Lemma reconcile_returns devices d :
  validBatch devices = true ->
  validInventory jobId d = true ->
  NoDup (map pairOf devices) ->
  exists vars d',
    MacScanRunner.reconcile now jobId devices whitelist job d
    = Returned vars d'.
Proof.
  intros Vb Vi ND.
  destruct (loop_returns devices (MacScanRunner.loadKnownDevices jobId d)
              0 0 d (load_ok jobId d Vi) Vb ND
              (fun o _ G => load_none_no_row d o G))
    as (vars & d1 & E1).
  destruct (markInactive_loop jobId (MacScanRunner.knownDevices vars) d1)
    as (d2 & E2 & _).
  exists vars, d2. unfold MacScanRunner.reconcile.
  rewrite (bind_Returned _ _ _ _ _ E1).
  now rewrite (bind_Returned _ _ _ _ _ E2).
Qed.

Lemma findObservation_In batch r o :
  findObservation batch r = Some o -> In o batch /\ sameKey r o = true.
Proof. apply find_some. Qed.

(** After a reconciliation that returned, the inventory is up to date
    with the batch and its MACs are still checked ones. *)
Lemma reconcile_settles devices d vars d' :
  validBatch devices = true ->
  validInventory jobId d = true ->
  MacScanRunner.reconcile now jobId devices whitelist job d
  = Returned vars d' ->
  settled jobId devices (known_devices d')
  /\ validInventory jobId d' = true.
Proof.
  intros Vb Vi Hrun.
  destruct (reconcile_returned now jobId whitelist job devices d vars d'
              Vb Vi Hrun) as (ND & (created & HT & Hcr & _) & Hex).
  split; [split; [assumption|split; [assumption|]]|].
  - rewrite HT. apply Forall_app. split.
    + apply Forall_forall. intros r' Hr'.
      apply in_map_iff in Hr' as (r & <- & Hr).
      unfold settledRow, settle.
      destruct (String.eqb (KnownDevice.job_id r) jobId) eqn:Ej.
      * intros _. destruct (findObservation devices r) as [o|] eqn:Ef.
        -- rewrite findObservation_touch, Ef. now repeat split.
        -- change (findObservation devices (Sql.retire r))
             with (findObservation devices r).
           now rewrite Ef.
      * intro Hj. apply String.eqb_neq in Ej. contradiction.
    + eapply Forall_impl; [|exact Hcr].
      intros c (o & Ho & _ & Hc) _.
      pose proof (createdFrom_same now jobId whitelist _ _ Hc) as Hs.
      rewrite sameDevice_sameKey in Hs.
      apply andb_true_iff in Hs as [_ Hk].
      destruct (findObservation devices c) as [o'|] eqn:Ef.
      * apply findObservation_In in Ef as [Ho' Hk'].
        assert (o' = o).
        { apply (NoDup_pair_unique devices); auto.
          exact (sameKey_pairs _ _ _ Hk Hk'). }
        subst o'. rewrite Hc. now repeat split.
      * pose proof (proj1 (findObservation_none _ _) Ef o Ho). congruence.
  - unfold validInventory. apply forallb_forall. intros r' Hr'.
    apply selected_In in Hr' as [Hr' Hj]. rewrite HT in Hr'.
    apply in_app_or in Hr' as [Hr'|Hr'].
    + apply in_map_iff in Hr' as (r & <- & Hr).
      assert (Hj' : KnownDevice.job_id r = jobId).
      { revert Hj. unfold settle.
        destruct (String.eqb_spec (KnownDevice.job_id r) jobId);
          [auto|]. intro; contradiction. }
      pose proof (validInventory_In jobId d r Vi Hr Hj') as Vr.
      unfold settle. rewrite (proj2 (String.eqb_eq _ _) Hj').
      now destruct (findObservation devices r).
    + pose proof (proj1 (Forall_forall _ _) Hcr r' Hr')
        as (o & Ho & _ & Hc).
      rewrite Hc. cbn. exact (validBatch_In _ _ Vb Ho).
Qed.

Lemma settle_settledRow batch r :
  settledRow jobId batch r ->
  sameButLastSeen r (settle now jobId batch r).
Proof.
  unfold settledRow, settle, sameButLastSeen.
  destruct (String.eqb_spec (KnownDevice.job_id r) jobId) as [Hj|Hj].
  - intro H. specialize (H Hj).
    destruct (findObservation batch r) as [o|].
    + destruct H as (Hi & Hv & Hs). destruct r. cbn in *. now subst.
    + destruct r. cbn in *. now subst.
  - intros _. now destruct r.
Qed.

(** Reconciling a batch against an inventory that is up to date with
    it: no exception, no new device, and every row as it was but for
    its [last_seen]. *)
Lemma reconcile_settled devices d :
  validBatch devices = true ->
  validInventory jobId d = true ->
  settled jobId devices (known_devices d) ->
  exists vars d',
    MacScanRunner.reconcile now jobId devices whitelist job d
    = Returned vars d'
    /\ MacScanRunner.newDevices vars = 0
    /\ known_devices d' = map (settle now jobId devices) (known_devices d)
    /\ Forall2 sameButLastSeen (known_devices d) (known_devices d').
Proof.
  intros Vb Vi (ND & Hex & Hrows).
  destruct (reconcile_returns devices d Vb Vi ND) as (vars & d' & Hrun).
  exists vars, d'. split; [assumption|].
  destruct (reconcile_returned now jobId whitelist job devices d vars d'
              Vb Vi Hrun) as (_ & (created & HT & Hcr & Hnd) & _).
  assert (created = []) as ->.
  { destruct created as [|c created]; [reflexivity|].
    inversion Hcr as [|? ? (o & Ho & Hf & _) _]; subst.
    rewrite (Hex o Ho) in Hf. discriminate. }
  rewrite app_nil_r in HT. split; [assumption|]. split; [assumption|].
  rewrite HT. clear HT. revert Hrows.
  generalize (known_devices d) as T.
  induction 1 as [|r T Hr _ IH]; cbn [map]; constructor.
  - now apply settle_settledRow.
  - exact IH.
Qed.
End SecondPass.

(** ** The retention policy *)

Section RetentionFacts.
Variables (now : Z) (jobId : string) (job : Job.row).

Lemma filter_all {A : Type} (l : list A) : filter (fun _ => true) l = l.
Proof. induction l as [|a l IH]; cbn; [reflexivity|now rewrite IH]. Qed.

(** The policy never throws, deletes rows of [known_devices] and
    touches nothing else. *)
Lemma applyRetentionPolicy_returns d :
  exists d',
    MacScanRunner._applyRetentionPolicy now jobId job d = Returned tt d'
    /\ known_devices d'
       = filter (fun r => negb (doomed now jobId job r)) (known_devices d)
    /\ device_history d' = device_history d
    /\ notifications d' = notifications d
    /\ jobs d' = jobs d /\ job_runs d' = job_runs d.
Proof.
  unfold MacScanRunner._applyRetentionPolicy, doomed.
  destruct (String.eqb (Job.retention_policy job) "forever").
  { exists d. split; [reflexivity|]. split; [|now repeat split].
    cbn [negb]. now rewrite filter_all. }
  destruct (String.eqb (Job.retention_policy job) "remove").
  { eexists. split; [reflexivity|]. now repeat split. }
  destruct (String.eqb (Job.retention_policy job) "days").
  { eexists. split; [reflexivity|]. now repeat split. }
  exists d. split; [reflexivity|]. split; [|now repeat split].
  cbn [negb]. now rewrite filter_all.
Qed.

Lemma applyRetentionPolicy_keeps d :
  exists d' keep,
    MacScanRunner._applyRetentionPolicy now jobId job d = Returned tt d'
    /\ known_devices d' = filter keep (known_devices d)
    /\ forall r, keep r = false ->
                 KnownDevice.job_id r = jobId
                 /\ KnownDevice.status r = "inactive".
Proof.
  destruct (applyRetentionPolicy_returns d) as (d' & E & K & _).
  exists d', (fun r => negb (doomed now jobId job r)). split; [assumption|].
  split; [assumption|]. intros r Hr. apply negb_false_iff in Hr.
  revert Hr. unfold doomed.
  destruct (String.eqb (Job.retention_policy job) "forever");
    [discriminate|].
  destruct (String.eqb (Job.retention_policy job) "remove").
  { rewrite andb_true_iff, !String.eqb_eq. tauto. }
  destruct (String.eqb (Job.retention_policy job) "days");
    [|discriminate].
  rewrite !andb_true_iff, !String.eqb_eq. tauto.
Qed.

Lemma doomed_inactive r :
  doomed now jobId job r = true ->
  KnownDevice.job_id r = jobId /\ KnownDevice.status r = "inactive".
Proof.
  unfold doomed.
  destruct (String.eqb (Job.retention_policy job) "forever");
    [discriminate|].
  destruct (String.eqb (Job.retention_policy job) "remove").
  { rewrite andb_true_iff, !String.eqb_eq. tauto. }
  destruct (String.eqb (Job.retention_policy job) "days");
    [|discriminate].
  rewrite !andb_true_iff, !String.eqb_eq. tauto.
Qed.
End RetentionFacts.

(** C8.  The retention enforcer never throws and, under any policy,
    leaves [device_history] alone, keeps every device whose status is
    not [inactive], and changes no row it keeps.  Under [days] with
    [N >= 0] days it deletes exactly the inactive devices of the job
    last seen earlier than [N] days before the current time. *)
Theorem retention_deletes_old_inactive_only now jobId job d :
  exists d',
    MacScanRunner._applyRetentionPolicy now jobId job d = Returned tt d'
    /\ device_history d' = device_history d
    /\ (forall r, In r (known_devices d') -> In r (known_devices d))
    /\ (forall r, In r (known_devices d) ->
                  KnownDevice.status r <> "inactive" ->
                  In r (known_devices d'))
    /\ (Job.retention_policy job = "days" ->
        (0 <= Job.retention_days job)%Z ->
        known_devices d'
        = filter (fun r =>
                    negb (String.eqb (KnownDevice.job_id r) jobId
                          && String.eqb (KnownDevice.status r) "inactive"
                          && (KnownDevice.last_seen r
                              <? now - Job.retention_days job * 86400)%Z))
                 (known_devices d)).
Proof.
  destruct (applyRetentionPolicy_returns now jobId job d)
    as (d' & E & K & H & _).
  exists d'. split; [assumption|]. split; [assumption|].
  split; [|split].
  - intros r Hr. rewrite K in Hr. now apply filter_In in Hr.
  - intros r Hr Hs. rewrite K. apply filter_In. split; [assumption|].
    apply negb_true_iff.
    match goal with |- ?x = false => destruct x eqn:Ed end; [|reflexivity].
    apply doomed_inactive in Ed. tauto.
  - intros Hp Hn. rewrite K. apply filter_ext. intro r.
    unfold doomed. rewrite Hp. cbn [String.eqb Ascii.eqb Bool.eqb].
    unfold Sql.datetimeDaysAgo.
    destruct (Z.ltb_spec (Job.retention_days job) 0); [lia|reflexivity].
Qed.

(** With [days] and seven days: of two inactive devices of the job, the
    one last seen eight days ago is deleted and the one last seen six
    days ago stays; an active device seen long ago stays as well. *)
Lemma retention_deletes_old_inactive_only_witness :
  let now := (10 * Sample.day)%Z in
  let eight := Sample.camera "inactive" (2 * Sample.day) in
  let six := Sample.camera "inactive" (4 * Sample.day) in
  let active := Sample.camera "active" 0 in
  exists d',
    MacScanRunner._applyRetentionPolicy now "job-1" (Sample.job "days" 1)
      (Sample.store "days" [eight; six; active; Sample.foreign])
    = Returned tt d'
    /\ known_devices d' = [six; active; Sample.foreign].
Proof.
  intros now eight six active.
  destruct (retention_deletes_old_inactive_only now "job-1"
              (Sample.job "days" 1)
              (Sample.store "days" [eight; six; active; Sample.foreign]))
    as (d' & E & _ & _ & _ & Hdays).
  exists d'. split; [exact E|].
  rewrite Hdays; [reflexivity|reflexivity|].
  cbn. discriminate.
Defined.

(** ** The reconciler *)

Lemma processDevices_reconcile now jobId devices whitelist job d :
  match MacScanRunner.reconcile now jobId devices whitelist job d with
  | Returned vars d1 =>
      exists d',
        MacScanRunner._processDevices now jobId devices whitelist job d
        = Returned (Result.mk (List.length devices)
                              (MacScanRunner.newDevices vars)
                              (MacScanRunner.warnings vars)) d'
        /\ MacScanRunner._applyRetentionPolicy now jobId job d1
           = Returned tt d'
  | Thrown message d1 =>
      MacScanRunner._processDevices now jobId devices whitelist job d
      = Thrown message d1
  end.
Proof.
  unfold MacScanRunner._processDevices.
  destruct (MacScanRunner.reconcile now jobId devices whitelist job d)
    as [vars d1|message d1] eqn:E.
  - destruct (applyRetentionPolicy_returns now jobId job d1)
      as (d' & E' & _).
    exists d'. split; [|assumption].
    rewrite (bind_Returned _ _ _ _ _ E).
    now rewrite (bind_Returned _ _ _ _ _ E').
  - now rewrite (bind_Thrown _ _ _ _ _ E).
Qed.

(** A batch of parsed observations that [_processDevices] returns for
    has no two observations with one key, so that its length is its
    number of distinct keys. *)
Lemma returned_batch_has_distinct_keys
    now jobId devices whitelist job d result d' :
  validBatch devices = true ->
  validInventory jobId d = true ->
  MacScanRunner._processDevices now jobId devices whitelist job d
  = Returned result d' ->
  NoDup (map pairOf devices)
  /\ distinctKeys devices = List.length devices.
Proof.
  intros Vb Vi Hrun.
  pose proof (processDevices_reconcile now jobId devices whitelist job d)
    as H.
  destruct (MacScanRunner.reconcile now jobId devices whitelist job d)
    as [vars d1|message d1] eqn:E; [|congruence].
  destruct (reconcile_returned now jobId whitelist job devices d vars d1
              Vb Vi E) as (ND & _).
  split; [assumption|].
  unfold distinctKeys. rewrite (nodup_fixed_point pair_eq_dec ND).
  now rewrite length_map.
Qed.

(** C1.  On parser-checked MACs, in the batch and in the inventory of
    the job, the [devicesFound] that [_processDevices] returns is the
    number of distinct (MAC address, host name) keys of the batch.  The
    code returns the length of the batch; a call that returns has met
    no key twice (a repeated key makes it throw, which is C2), so the
    length is the number of distinct keys.  And the call does return,
    with that counter, for every batch in which no key comes twice. *)
Theorem devicesFound_is_distinct_key_count
    now jobId devices whitelist job d :
  validBatch devices = true ->
  validInventory jobId d = true ->
  (forall result d',
      MacScanRunner._processDevices now jobId devices whitelist job d
      = Returned result d' ->
      Result.devicesFound result = distinctKeys devices)
  /\ (NoDup (map pairOf devices) ->
      exists result d',
        MacScanRunner._processDevices now jobId devices whitelist job d
        = Returned result d'
        /\ Result.devicesFound result = distinctKeys devices).
Proof.
  intros Vb Vi.
  pose proof (processDevices_reconcile now jobId devices whitelist job d)
    as H.
  assert (Hcount : forall result d',
             MacScanRunner._processDevices now jobId devices whitelist job d
             = Returned result d' ->
             Result.devicesFound result = distinctKeys devices).
  { intros result d' Hrun.
    destruct (returned_batch_has_distinct_keys now jobId devices whitelist
                job d result d' Vb Vi Hrun) as (_ & ->).
    destruct (MacScanRunner.reconcile now jobId devices whitelist job d)
      as [vars d1|message d1] eqn:E; [|congruence].
    destruct H as (d2 & H & _). rewrite H in Hrun.
    now same_outcome Hrun. }
  split; [exact Hcount|].
  intros ND.
  destruct (reconcile_returns now jobId whitelist job devices d Vb Vi ND)
    as (vars & d1 & E).
  rewrite E in H. destruct H as (d' & H & _).
  do 2 eexists. split; [exact H|]. exact (Hcount _ _ H).
Qed.

(** Two devices found on a switch, one device already known and not
    seen: two keys, and the counter is two. *)
Lemma devicesFound_is_distinct_key_count_witness :
  exists result d',
    MacScanRunner._processDevices 100 "job-1"
      [Sample.printer; Sample.laptop] ["aa:bb:cc:dd:ee:ff"]
      (Sample.job "forever" 1)
      (Sample.store "forever" [Sample.camera "active" 5; Sample.foreign])
    = Returned result d'
    /\ Result.devicesFound result = 2
    /\ distinctKeys [Sample.printer; Sample.laptop] = 2.
Proof.
  destruct (devicesFound_is_distinct_key_count 100 "job-1"
              [Sample.printer; Sample.laptop] ["aa:bb:cc:dd:ee:ff"]
              (Sample.job "forever" 1)
              (Sample.store "forever"
                 [Sample.camera "active" 5; Sample.foreign])
              eq_refl eq_refl)
    as [_ Hreturns].
  destruct Hreturns as (result & d' & E & Hn).
  - repeat constructor; cbn; intuition discriminate.
  - exists result, d'. split; [exact E|]. split; [exact Hn|reflexivity].
Defined.

(** C2 (the defect).  A batch of parsed observations in which two
    observations have one (MAC address, host name) key is never
    reconciled: [_processDevices] throws.  The second observation finds
    no entry in the map, whether the first one created the row or
    refreshed it, and its insert violates the unique index. *)
Theorem duplicate_key_throws now jobId devices whitelist job d :
  validBatch devices = true ->
  validInventory jobId d = true ->
  ~ NoDup (map pairOf devices) ->
  exists message d',
    MacScanRunner._processDevices now jobId devices whitelist job d
    = Thrown message d'.
Proof.
  intros Vb Vi Hdup.
  pose proof (processDevices_reconcile now jobId devices whitelist job d)
    as H.
  destruct (MacScanRunner.reconcile now jobId devices whitelist job d)
    as [vars d1|message d1] eqn:E.
  - exfalso. apply Hdup.
    now destruct (reconcile_returned now jobId whitelist job devices d
                    vars d1 Vb Vi E).
  - now exists message, d1.
Qed.

(** The same device seen twice by one scan, on an empty inventory and
    on one that already knows the device. *)
Lemma duplicate_key_throws_witness :
  (exists message d',
      MacScanRunner._processDevices 100 "job-1"
        [Sample.printer; Sample.printerMoved] ["aa:bb:cc:dd:ee:ff"]
        (Sample.job "forever" 1) (Sample.store "forever" [])
      = Thrown message d')
  /\ (exists message d',
         MacScanRunner._processDevices 100 "job-1"
           [Sample.printer; Sample.printerMoved] ["aa:bb:cc:dd:ee:ff"]
           (Sample.job "forever" 1)
           (Sample.store "forever" [Sample.oldPrinter])
         = Thrown message d').
Proof.
  assert (Hdup : ~ NoDup (map pairOf [Sample.printer; Sample.printerMoved])).
  { intro H. inversion H as [|? ? Hn _]. apply Hn. left. reflexivity. }
  split; apply duplicate_key_throws; (reflexivity || exact Hdup).
Defined.

(** What the code does on the failing input of C2: the exception of the
    unique index, with the first observation stored and the second
    one lost. *)
Lemma duplicate_key_evaluated :
  exists d',
    MacScanRunner._processDevices 100 "job-1"
      [Sample.printer; Sample.printerMoved] ["aa:bb:cc:dd:ee:ff"]
      (Sample.job "forever" 1) (Sample.store "forever" [])
    = Thrown Sql.uniqueViolation d'
    /\ known_devices d'
       = [KnownDevice.mk 100 "job-1" "aa:bb:cc:dd:ee:ff" "10.0.0.1" "Gi0/1"
                         10 1 100 100 "active"].
Proof. eexists. split; vm_compute; reflexivity. Qed.

(** A row keeps its identity through a reconciliation. *)
Lemma settle_identity now jobId batch r :
  KnownDevice.id (settle now jobId batch r) = KnownDevice.id r
  /\ KnownDevice.job_id (settle now jobId batch r) = KnownDevice.job_id r
  /\ pairOfRow (settle now jobId batch r) = pairOfRow r.
Proof.
  unfold settle. destruct (String.eqb _ jobId); [|now repeat split].
  destruct (findObservation batch r); now repeat split.
Qed.

(** C6.  After a reconciliation of a batch of parsed observations, a
    known device of the job that was there before is still there, in
    its place and under its id and key; its status is [inactive] if and
    only if no observation of the batch has its (MAC address, host
    name) key, and then the row is the old one with nothing but the
    status changed. *)
Theorem unseen_devices_become_inactive
    now jobId devices whitelist job d vars d' :
  validBatch devices = true ->
  validInventory jobId d = true ->
  MacScanRunner.reconcile now jobId devices whitelist job d
  = Returned vars d' ->
  forall i r,
    nth_error (known_devices d) i = Some r ->
    KnownDevice.job_id r = jobId ->
    exists r',
      nth_error (known_devices d') i = Some r'
      /\ KnownDevice.id r' = KnownDevice.id r
      /\ KnownDevice.job_id r' = jobId
      /\ pairOfRow r' = pairOfRow r
      /\ (KnownDevice.status r' = "inactive" <->
          forall o, In o devices -> pairOf o <> pairOfRow r)
      /\ ((forall o, In o devices -> pairOf o <> pairOfRow r) ->
          r' = Sql.retire r).
Proof.
  intros Vb Vi Hrun i r Hi Hj.
  destruct (reconcile_returned now jobId whitelist job devices d vars d'
              Vb Vi Hrun) as (_ & (created & HT & _) & _).
  exists (settle now jobId devices r).
  destruct (settle_identity now jobId devices r) as (Hid & Hjob & Hpair).
  split; [|split; [assumption|split; [congruence|split; [assumption|]]]].
  - rewrite HT, nth_error_app1.
    + now apply map_nth_error.
    + rewrite length_map. apply nth_error_Some. congruence.
  - clear Hid Hjob Hpair.
    unfold settle. rewrite (proj2 (String.eqb_eq _ _) Hj).
    destruct (findObservation devices r) as [o|] eqn:Ef.
    + apply findObservation_In in Ef as [Ho Hk].
      apply sameKey_true in Hk as [Hm Hh].
      assert (Hp : pairOf o = pairOfRow r).
      { unfold pairOf, pairOfRow. now rewrite Hm, Hh. }
      split.
      * split; [discriminate|]. intro H. now destruct (H o Ho).
      * intro H. now destruct (H o Ho).
    + split; [|reflexivity]. split; [|reflexivity].
      intros _ o Ho Hp.
      pose proof (proj1 (findObservation_none _ _) Ef o Ho) as Hf.
      assert (Ht : sameKey r o = true).
      { apply sameKey_true. unfold pairOf, pairOfRow in Hp.
        inversion Hp. now split. }
      congruence.
Qed.

(** The camera is not in the batch and turns inactive, keeping its
    other fields; the printer is in the batch and turns active. *)
Lemma unseen_devices_become_inactive_witness :
  exists vars d',
    MacScanRunner.reconcile 100 "job-1" [Sample.printer; Sample.laptop]
      ["aa:bb:cc:dd:ee:ff"] (Sample.job "remove" 1)
      (Sample.store "remove"
         [Sample.camera "active" 5; Sample.oldPrinter; Sample.foreign])
    = Returned vars d'
    /\ nth_error (known_devices d') 0 = Some (Sample.camera "inactive" 5)
    /\ exists r', nth_error (known_devices d') 1 = Some r'
                  /\ KnownDevice.status r' = "active".
Proof.
  eexists. eexists.
  assert (E : MacScanRunner.reconcile 100 "job-1"
                [Sample.printer; Sample.laptop] ["aa:bb:cc:dd:ee:ff"]
                (Sample.job "remove" 1)
                (Sample.store "remove"
                   [Sample.camera "active" 5; Sample.oldPrinter;
                    Sample.foreign])
              = Returned ?[vars] ?[d'])
    by (vm_compute; reflexivity).
  split; [exact E|]. split.
  - destruct (unseen_devices_become_inactive 100 "job-1"
                [Sample.printer; Sample.laptop] ["aa:bb:cc:dd:ee:ff"]
                (Sample.job "remove" 1)
                (Sample.store "remove"
                   [Sample.camera "active" 5; Sample.oldPrinter;
                    Sample.foreign])
                _ _ eq_refl eq_refl E
                0 (Sample.camera "active" 5) eq_refl eq_refl)
      as (r' & Hn & _ & _ & _ & _ & Hr).
    rewrite Hn. f_equal. apply Hr.
    intros o [<-|[<-|[]]]; discriminate.
  - eexists. split; vm_compute; reflexivity.
Defined.

(** Deleting inactive devices of the job keeps an inventory up to date
    with the batch. *)
Lemma retention_keeps_settled now jobId job devices d d' :
  MacScanRunner._applyRetentionPolicy now jobId job d = Returned tt d' ->
  settled jobId devices (known_devices d) ->
  validInventory jobId d = true ->
  settled jobId devices (known_devices d')
  /\ validInventory jobId d' = true.
Proof.
  intros E (ND & Hex & Hrows) Vi.
  destruct (applyRetentionPolicy_keeps now jobId job d)
    as (d1 & keep & E1 & K & Hkeep).
  rewrite E1 in E. inversion E; subst d1; clear E.
  pose proof (proj1 (Forall_forall _ _) Hrows) as Hrows'.
  split; [split; [assumption|split]|].
  - intros o Ho. rewrite K.
    pose proof (Hex o Ho) as Hx.
    apply existsb_exists in Hx as (r & Hr & Hs).
    apply existsb_exists. exists r. split; [|assumption].
    apply filter_In. split; [assumption|].
    destruct (keep r) eqn:Ek; [reflexivity|]. exfalso.
    destruct (Hkeep r Ek) as [Hj Hi].
    pose proof (Hrows' r Hr Hj) as Hsr.
    rewrite sameDevice_sameKey in Hs. apply andb_true_iff in Hs as [_ Hk].
    destruct (findObservation devices r) as [o'|] eqn:Ef.
    + destruct Hsr as (_ & _ & Ha). rewrite Ha in Hi. discriminate.
    + pose proof (proj1 (findObservation_none _ _) Ef o Ho). congruence.
  - rewrite K. apply Forall_forall. intros r Hr.
    apply filter_In in Hr as [Hr _]. now apply Hrows'.
  - unfold validInventory. apply forallb_forall. intros r Hr.
    apply selected_In in Hr as [Hr Hj]. rewrite K in Hr.
    apply filter_In in Hr as [Hr _].
    now apply (validInventory_In jobId d).
Qed.

(** Two reconciliations of one batch in a row, without the retention
    policy in between. *)
Lemma reconcile_twice
    now now' jobId devices whitelist whitelist' job job' d vars d1 :
  validBatch devices = true ->
  validInventory jobId d = true ->
  MacScanRunner.reconcile now jobId devices whitelist job d
  = Returned vars d1 ->
  exists vars' d2,
    MacScanRunner.reconcile now' jobId devices whitelist' job' d1
    = Returned vars' d2
    /\ MacScanRunner.newDevices vars' = 0
    /\ Forall2 sameButLastSeen (known_devices d1) (known_devices d2).
Proof.
  intros Vb Vi Hrun.
  destruct (reconcile_settles now jobId whitelist job devices d vars d1
              Vb Vi Hrun) as (Hs & Vi1).
  destruct (reconcile_settled now' jobId whitelist' job' devices d1
              Vb Vi1 Hs) as (vars' & d2 & E & Hn & _ & Hrows).
  now exists vars', d2.
Qed.

(** C7.  A batch of parsed observations was processed by
    [_processDevices].  Reconciling the same batch a second time,
    against the inventory that first run left, returns, finds no new
    device and leaves every row of [known_devices] as it was but for
    its [last_seen]; the time, the whitelist and the job's settings of
    the second pass are arbitrary.  (The second pass is followed up to
    the retention policy, which is the retention enforcer's step.) *)
Theorem second_reconciliation_changes_last_seen_only
    now now' jobId devices whitelist whitelist' job job' d result d1 :
  validBatch devices = true ->
  validInventory jobId d = true ->
  MacScanRunner._processDevices now jobId devices whitelist job d
  = Returned result d1 ->
  exists vars' d2,
    MacScanRunner.reconcile now' jobId devices whitelist' job' d1
    = Returned vars' d2
    /\ MacScanRunner.newDevices vars' = 0
    /\ Forall2 sameButLastSeen (known_devices d1) (known_devices d2).
Proof.
  intros Vb Vi Hrun.
  pose proof (processDevices_reconcile now jobId devices whitelist job d)
    as H.
  destruct (MacScanRunner.reconcile now jobId devices whitelist job d)
    as [vars d0|message d0] eqn:E; [|congruence].
  destruct H as (d1' & H & Hret). rewrite H in Hrun.
  same_outcome Hrun.
  destruct (reconcile_settles now jobId whitelist job devices d vars d0
              Vb Vi E) as (Hs & Vi0).
  destruct (retention_keeps_settled now jobId job devices d0 d1 Hret Hs Vi0)
    as (Hs1 & Vi1).
  destruct (reconcile_settled now' jobId whitelist' job' devices d1
              Vb Vi1 Hs1) as (vars' & d2 & E2 & Hn & _ & Hrows).
  now exists vars', d2.
Qed.

(** The first run stores the laptop, moves the printer and deletes the
    camera it did not see; the second pass, later and with an empty
    whitelist, changes the two [last_seen] only. *)
Lemma second_reconciliation_changes_last_seen_only_witness :
  exists result d1 vars' d2,
    MacScanRunner._processDevices 100 "job-1"
      [Sample.printer; Sample.laptop] ["aa:bb:cc:dd:ee:ff"]
      (Sample.job "remove" 1)
      (Sample.store "remove" [Sample.camera "active" 5; Sample.oldPrinter])
    = Returned result d1
    /\ MacScanRunner.reconcile 200 "job-1" [Sample.printer; Sample.laptop]
         [] (Sample.job "remove" 1) d1
       = Returned vars' d2
    /\ MacScanRunner.newDevices vars' = 0
    /\ Forall2 sameButLastSeen (known_devices d1) (known_devices d2).
Proof.
  eexists. eexists.
  assert (E : MacScanRunner._processDevices 100 "job-1"
                [Sample.printer; Sample.laptop] ["aa:bb:cc:dd:ee:ff"]
                (Sample.job "remove" 1)
                (Sample.store "remove"
                   [Sample.camera "active" 5; Sample.oldPrinter])
              = Returned ?[result] ?[d1])
    by (vm_compute; reflexivity).
  destruct (second_reconciliation_changes_last_seen_only 100 200 "job-1"
              [Sample.printer; Sample.laptop] ["aa:bb:cc:dd:ee:ff"] []
              (Sample.job "remove" 1) (Sample.job "remove" 1)
              (Sample.store "remove"
                 [Sample.camera "active" 5; Sample.oldPrinter])
              _ _ eq_refl eq_refl E) as (vars' & d2 & E2 & Hn & Hrows).
  exists vars', d2. split; [exact E|]. split; [exact E2|]. now split.
Defined.

(** ** Effects that do not happen *)

Section FrameFacts.
Context {X : Type} (f : database -> X).

Lemma bind_state {A B : Type} (m : M A) (k : A -> M B) d :
  f (stateOf (m d)) = f d ->
  (forall a d1, f (stateOf (k a d1)) = f d1) ->
  f (stateOf (bind m k d)) = f d.
Proof.
  unfold bind. destruct (m d) as [a d1|e d1]; cbn [stateOf]; intros H Hk.
  - now rewrite Hk.
  - assumption.
Qed.

Lemma forEach_state {A V : Type} (body : A -> V -> M V) :
  (forall x v d, f (stateOf (body x v d)) = f d) ->
  forall xs v d, f (stateOf (forEach body xs v d)) = f d.
Proof.
  intros Hbody xs. induction xs as [|x xs IH]; intros v d; cbn [forEach].
  - reflexivity.
  - apply bind_state; auto.
Qed.
End FrameFacts.

Section QuietFacts.
Variables (now : Z) (jobId : string) (whitelist : list string)
          (job : Job.row).
Hypothesis muted : truthy (Job.notifications_enabled job) = false.

Lemma processDevice_quiet device vars d :
  notifications
    (stateOf (MacScanRunner.processDevice now jobId whitelist job
                device vars d))
  = notifications d.
Proof.
  unfold MacScanRunner.processDevice. apply bind_state.
  - destruct (JsMap.get _ _) as [existing|].
    + apply bind_state.
      * unfold MacScanRunner.notifyMoved. rewrite muted.
        now rewrite andb_false_r.
      * intros _ d1. apply bind_state; [reflexivity|]. reflexivity.
    + apply bind_state; [reflexivity|]. intros id d1.
      apply bind_state.
      * unfold Sql.insertKnownDevice. now destruct (existsb _ _).
      * intros _ d2. unfold MacScanRunner.notifyNewDevice.
        now rewrite muted.
  - intros vars' d1. apply bind_state; [reflexivity|].
    intros id d2. apply bind_state; reflexivity.
Qed.
End QuietFacts.

(** C9.  If the master flag [notifications_enabled] of the job is
    false, [_processDevices] creates no notification, whatever the
    other three flags, the batch, the whitelist and the inventory are,
    and whether it returns or throws. *)
Theorem muted_job_creates_no_notification
    now jobId devices whitelist job d :
  truthy (Job.notifications_enabled job) = false ->
  notifications
    (stateOf (MacScanRunner._processDevices now jobId devices whitelist
                job d))
  = notifications d.
Proof.
  intro muted. unfold MacScanRunner._processDevices. apply bind_state.
  - unfold MacScanRunner.reconcile. apply (bind_state notifications).
    + apply forEach_state. intros. now apply processDevice_quiet.
    + intros vars d1. apply bind_state; [|reflexivity].
      now apply forEach_state.
  - intros vars d1. apply bind_state; [|reflexivity].
    destruct (applyRetentionPolicy_returns now jobId job d1)
      as (d2 & E & _ & _ & N & _).
    now rewrite E.
Qed.

(** Two new devices, one of them unauthorized, and a moved printer, on
    a job with every toggle set but the master flag: nothing is
    created. *)
Lemma muted_job_creates_no_notification_witness :
  notifications
    (stateOf (MacScanRunner._processDevices 100 "job-1"
                [Sample.printerMoved; Sample.laptop] ["aa:bb:cc:dd:ee:ff"]
                (Sample.job "forever" 0)
                (Sample.store "forever" [Sample.oldPrinter])))
  = [].
Proof.
  exact (muted_job_creates_no_notification 100 "job-1"
           [Sample.printerMoved; Sample.laptop] ["aa:bb:cc:dd:ee:ff"]
           (Sample.job "forever" 0)
           (Sample.store "forever" [Sample.oldPrinter]) eq_refl).
Defined.

(** C10.  When the device of an observation is in the map of known
    devices, the step returns and changes the rows of that device only,
    the rows of the job with the MAC address and the host name of the
    observation: each becomes the old row with the interface, the VLAN,
    the [last_seen] and the status replaced, its [whitelisted] and
    [first_seen] being those of the old row whatever the whitelist of
    the call holds.  Every other row of [known_devices] is the row it
    was, and no row is added or removed. *)
Theorem update_keeps_whitelisted_and_first_seen
    now jobId whitelist job device vars existing d :
  JsMap.get (keyOf device) (MacScanRunner.knownDevices vars)
  = Some existing ->
  exists vars' d',
    MacScanRunner.processDevice now jobId whitelist job device vars d
    = Returned vars' d'
    /\ Forall2
         (fun r r' =>
            (KnownDevice.job_id r = jobId
             /\ KnownDevice.mac_address r = mac_address device
             /\ KnownDevice.host_name r = host_name device ->
             r' = KnownDevice.mk (KnownDevice.id r) (KnownDevice.job_id r)
                    (KnownDevice.mac_address r) (KnownDevice.host_name r)
                    (interface_name device) (vlan_id device)
                    (KnownDevice.whitelisted r) (KnownDevice.first_seen r)
                    now "active")
            /\ (~ (KnownDevice.job_id r = jobId
                   /\ KnownDevice.mac_address r = mac_address device
                   /\ KnownDevice.host_name r = host_name device) ->
                r' = r)
            /\ KnownDevice.whitelisted r' = KnownDevice.whitelisted r
            /\ KnownDevice.first_seen r' = KnownDevice.first_seen r)
         (known_devices d) (known_devices d').
Proof.
  intro G.
  destruct (processDevice_existing now jobId whitelist job device vars
              existing d G) as (d' & E & K).
  do 2 eexists. split; [exact E|]. rewrite K.
  clear. generalize (known_devices d) as T.
  induction T as [|r T IH]; cbn [map]; constructor; [|exact IH].
  destruct (Sql.sameDevice jobId (mac_address device) (host_name device) r)
    eqn:Es.
  - split; [reflexivity|]. split; [|split; reflexivity].
    intro Hn. apply sameDevice_true in Es. contradiction.
  - split; [|split; [reflexivity|split; reflexivity]].
    intro Hs. apply sameDevice_true in Hs. congruence.
Qed.

(** The printer, known as not whitelisted since time 5, is seen again
    while the whitelist now names it: its row moves to the new port and
    is still not whitelisted, first seen at 5; the camera of the same
    job and the device of the other job are as they were. *)
Lemma update_keeps_whitelisted_and_first_seen_witness :
  exists vars' d',
    MacScanRunner.processDevice 100 "job-1" ["aa:bb:cc:dd:ee:ff"]
      (Sample.job "forever" 1) Sample.printerMoved Sample.printerKnown
      (Sample.store "forever"
         [Sample.oldPrinter; Sample.camera "active" 5; Sample.foreign])
    = Returned vars' d'
    /\ known_devices d'
       = [KnownDevice.mk 92 "job-1" "aa:bb:cc:dd:ee:ff" "10.0.0.1" "Gi0/2"
                         20 0 5 100 "active";
          Sample.camera "active" 5;
          Sample.foreign].
Proof.
  destruct (update_keeps_whitelisted_and_first_seen 100 "job-1"
              ["aa:bb:cc:dd:ee:ff"] (Sample.job "forever" 1)
              Sample.printerMoved Sample.printerKnown Sample.oldPrinter
              (Sample.store "forever"
                 [Sample.oldPrinter; Sample.camera "active" 5;
                  Sample.foreign])
              eq_refl) as (vars' & d' & E & F).
  exists vars', d'. split; [exact E|].
  cbn [known_devices Sample.store] in F.
  inversion F as [|r1 r1' T1 T1' Printer F1]; subst.
  inversion F1 as [|r2 r2' T2 T2' Camera F2]; subst.
  inversion F2 as [|r3 r3' T3 T3' Foreign F3]; subst.
  inversion F3; subst.
  destruct Printer as (Printer & _). destruct Camera as (_ & Camera & _).
  destruct Foreign as (_ & Foreign & _).
  rewrite (Printer (conj eq_refl (conj eq_refl eq_refl))).
  rewrite Camera by (intros (_ & Hm & _); discriminate).
  rewrite Foreign by (intros (Hj & _); discriminate).
  reflexivity.
Defined.

(** ** The orchestrator *)

Section RunJobFacts.
Variables (env : environment) (job : Job.row).

Lemma scanHost_fails host s :
  hostFails env job host = true ->
  MacScanRunner.successfulHosts (MacScanRunner.scanHost env job host s)
  = MacScanRunner.successfulHosts s
  /\ MacScanRunner.allDevices (MacScanRunner.scanHost env job host s)
     = MacScanRunner.allDevices s.
Proof.
  unfold hostFails, MacScanRunner.scanHost.
  destruct (decrypt env (SshHost.password_encrypted host)) as [password|];
    [|now split].
  destruct (MacScanRunner.getMacAddressTable env _ _ _ password _)
    as [result devices].
  cbn [fst]. intro H. apply negb_true_iff in H. rewrite H. now split.
Qed.

Lemma scanHosts_all_fail hosts :
  (forall host, In host hosts -> hostFails env job host = true) ->
  forall s,
    MacScanRunner.successfulHosts
      (fold_left (fun s host => MacScanRunner.scanHost env job host s)
                 hosts s)
    = MacScanRunner.successfulHosts s.
Proof.
  induction hosts as [|host hosts IH]; intros H s; cbn [fold_left];
    [reflexivity|].
  rewrite IH by (intros; apply H; now right).
  apply scanHost_fails. apply H. now left.
Qed.
End RunJobFacts.

(** C5.  A job that is not running, is active and has enabled hosts is
    run, and every enabled host fails its scan.  Then [runJob] throws
    ["Failed to scan any hosts"] to its caller; the run it created is
    recorded as failed with that message; the job is active again and
    is no longer in [runningJobs]; and [known_devices], with
    [device_history] and [notifications], is as it was. *)
Theorem all_hosts_failed_leaves_inventory env jobId this job :
  JsMap.has jobId (MacScanRunner.runningJobs this) = false ->
  Sql.selectJob jobId "active" (MacScanRunner.db this) = Some job ->
  Sql.selectEnabledHosts jobId (MacScanRunner.db this) <> [] ->
  (forall host,
      In host (Sql.selectEnabledHosts jobId (MacScanRunner.db this)) ->
      hostFails env job host = true) ->
  exists this',
    MacScanRunner.runJob env jobId this
    = Thrown "Failed to scan any hosts" this'
    /\ known_devices (MacScanRunner.db this')
       = known_devices (MacScanRunner.db this)
    /\ device_history (MacScanRunner.db this')
       = device_history (MacScanRunner.db this)
    /\ notifications (MacScanRunner.db this')
       = notifications (MacScanRunner.db this)
    /\ In (JobRun.mk (next_uuid (MacScanRunner.db this)) jobId "failed"
             (List.length
                (Sql.selectEnabledHosts jobId (MacScanRunner.db this)))
             0 0 0 (startTime env / 1000)%Z
             (Some (finishTime env / 1000)%Z) None
             (Some "Failed to scan any hosts") None)
          (job_runs (MacScanRunner.db this'))
    /\ (forall j, In j (jobs (MacScanRunner.db this')) ->
                  Job.id j = jobId -> Job.status j = "active")
    /\ JsMap.has jobId (MacScanRunner.runningJobs this') = false.
Proof.
  intros Hfree Hjob Hhosts Hfail.
  unfold MacScanRunner.runJob. rewrite Hfree, Hjob.
  destruct (Sql.selectEnabledHosts jobId (MacScanRunner.db this))
    as [|host hosts] eqn:Eh; [contradiction|].
  cbn [List.length Nat.eqb].
  cbv [MacScanRunner.startRun bind uuidv4 Sql.insertJobRun
       Sql.updateJobRunning ret].
  unfold MacScanRunner.tryCatch, MacScanRunner.runJobBody.
  unfold MacScanRunner.scanHosts.
  rewrite (scanHosts_all_fail env job (host :: hosts) Hfail).
  cbn [MacScanRunner.successfulHosts Nat.eqb].
  cbv [throw MacScanRunner.runJobCatch bind Sql.failJobRun
       Sql.updateJobStatus].
  eexists. split; [reflexivity|].
  cbn [MacScanRunner.db MacScanRunner.runningJobs known_devices
       device_history notifications job_runs jobs with_jobs with_job_runs
       with_next_uuid].
  split; [reflexivity|]. split; [reflexivity|]. split; [reflexivity|].
  split; [|split].
  - rewrite map_app. apply in_or_app. right. cbn [map JobRun.id].
    rewrite Nat.eqb_refl. now left.
  - intros j Hj Hid. rewrite map_map in Hj.
    apply in_map_iff in Hj as (j0 & <- & _).
    destruct (String.eqb (Job.id j0) jobId) eqn:E0.
    + cbn [Job.id Job.with_last_run Job.with_status]. rewrite E0.
      reflexivity.
    + rewrite E0 in *. apply String.eqb_neq in E0. contradiction.
  - unfold JsMap.has. now rewrite get_delete_same.
Qed.

(** The one switch of the job times out: the run is recorded as failed
    and the camera is still an active known device. *)
Lemma all_hosts_failed_leaves_inventory_witness :
  exists this',
    MacScanRunner.runJob Sample.deadNetwork "job-1"
      (MacScanRunner.mkRunner
         (Sample.store "remove" [Sample.camera "active" 5]) [])
    = Thrown "Failed to scan any hosts" this'
    /\ known_devices (MacScanRunner.db this') = [Sample.camera "active" 5].
Proof.
  destruct (all_hosts_failed_leaves_inventory Sample.deadNetwork "job-1"
              (MacScanRunner.mkRunner
                 (Sample.store "remove" [Sample.camera "active" 5]) [])
              (Sample.job "remove" 1) eq_refl eq_refl)
    as (this' & E & K & _).
  - discriminate.
  - intros host [<-|[]]. reflexivity.
  - exists this'. split; [exact E|exact K].
Defined.

(** ** Exceptions during the reconciliation *)

Section ThrownFacts.
Variables (now : Z) (jobId : string) (whitelist : list string)
          (job : Job.row).

(** A loop that throws ran its body on a prefix of the list. *)
Lemma forEach_thrown {A V : Type} (body : A -> V -> M V) :
  forall xs v d message d',
    forEach body xs v d = Thrown message d' ->
    exists done x rest v1 d1,
      xs = done ++ x :: rest
      /\ forEach body done v d = Returned v1 d1
      /\ body x v1 d1 = Thrown message d'.
Proof.
  induction xs as [|x xs IH]; intros v d message d' H; cbn [forEach] in H;
    [discriminate|].
  unfold bind in H. destruct (body x v d) as [v1 d1|e d1] eqn:E.
  - destruct (IH _ _ _ _ H) as (done & y & rest & v2 & d2 & -> & Hd & Hy).
    exists (x :: done), y, rest, v2, d2. split; [reflexivity|].
    split; [|assumption]. cbn [forEach].
    now rewrite (bind_Returned _ _ _ _ _ E).
  - inversion H; subst.
    exists [], x, xs, v, d. now repeat split.
Qed.

(** The step throws on the insert only, and stores no device then. *)
Lemma processDevice_thrown device vars d message d' :
  MacScanRunner.processDevice now jobId whitelist job device vars d
  = Thrown message d' ->
  known_devices d' = known_devices d
  /\ rowExists jobId device (known_devices d) = true.
Proof.
  intro H.
  destruct (JsMap.get (keyOf device) (MacScanRunner.knownDevices vars))
    as [e|] eqn:G.
  - destruct (processDevice_existing now jobId whitelist job device vars
                e d G) as (d1 & E & _). congruence.
  - destruct (rowExists jobId device (known_devices d)) eqn:Er.
    + destruct (processDevice_duplicate now jobId whitelist job device
                  vars d G Er) as (m & d1 & E & K & _).
      rewrite E in H. inversion H; subst. now split.
    + destruct (processDevice_new now jobId whitelist job device vars d
                  G Er) as (v1 & d1 & c & E & _). congruence.
Qed.
End ThrownFacts.

(** An exception of [_processDevices] comes from one device of the
    batch: the loop had returned on the devices before it, and the
    table is as the loop left it then. *)
Lemma processDevices_thrown now jobId devices whitelist job d message d' :
  MacScanRunner._processDevices now jobId devices whitelist job d
  = Thrown message d' ->
  exists done device rest vars1 d1,
    devices = done ++ device :: rest
    /\ forEach (MacScanRunner.processDevice now jobId whitelist job) done
               (MacScanRunner.mkLocals
                  (MacScanRunner.loadKnownDevices jobId d) 0 0) d
       = Returned vars1 d1
    /\ MacScanRunner.processDevice now jobId whitelist job device vars1 d1
       = Thrown message d'
    /\ known_devices d' = known_devices d1.
Proof.
  intro H.
  pose proof (processDevices_reconcile now jobId devices whitelist job d)
    as Hr.
  destruct (MacScanRunner.reconcile now jobId devices whitelist job d)
    as [vars d1|message1 d1] eqn:E.
  { destruct Hr as (d2 & Hr & _). congruence. }
  rewrite Hr in H. inversion H; subst message1 d1; clear H Hr.
  unfold MacScanRunner.reconcile, bind in E.
  destruct (forEach (MacScanRunner.processDevice now jobId whitelist job)
              devices _ d) as [vars d1|message1 d1] eqn:Eloop.
  - destruct (markInactive_loop jobId (MacScanRunner.knownDevices vars) d1)
      as (d2 & E2 & _).
    rewrite E2 in E. discriminate.
  - inversion E; subst message1 d1; clear E.
    destruct (forEach_thrown _ _ _ _ _ _ Eloop)
      as (done & device & rest & vars1 & d1 & Hsplit & Hdone & Hthrow).
    exists done, device, rest, vars1, d1.
    destruct (processDevice_thrown now jobId whitelist job _ _ _ _ _ Hthrow)
      as [K _].
    now repeat split.
Qed.

(** C3 (as amended).  The reconciliation is not atomic.  In a run of
    [runJob] that scanned a host with success, let [_processDevices]
    throw.  It does so while processing one device of the batch; the
    inserts and updates made for the devices before it stay in
    [known_devices], as the loop left them, nothing is marked inactive
    and no retention is applied; [runJob] records the run as failed with
    the message of the exception and throws it to its caller. *)
Theorem failed_reconciliation_keeps_earlier_writes
    env jobId this job runId d0 message d' :
  let hosts := Sql.selectEnabledHosts jobId (MacScanRunner.db this) in
  let batch := MacScanRunner.allDevices (MacScanRunner.scanHosts env job hosts) in
  let whitelist := Sql.selectWhitelist jobId (MacScanRunner.db this) in
  let now := (finishTime env / 1000)%Z in
  JsMap.has jobId (MacScanRunner.runningJobs this) = false ->
  Sql.selectJob jobId "active" (MacScanRunner.db this) = Some job ->
  MacScanRunner.successfulHosts (MacScanRunner.scanHosts env job hosts)
  <> 0 ->
  MacScanRunner.startRun env jobId (List.length hosts)
    (MacScanRunner.db this) = Returned runId d0 ->
  MacScanRunner._processDevices now jobId batch whitelist job d0
  = Thrown message d' ->
  exists this' done device rest vars1 d1,
    MacScanRunner.runJob env jobId this = Thrown message this'
    /\ batch = done ++ device :: rest
    /\ forEach (MacScanRunner.processDevice now jobId whitelist job) done
               (MacScanRunner.mkLocals
                  (MacScanRunner.loadKnownDevices jobId d0) 0 0) d0
       = Returned vars1 d1
    /\ known_devices (MacScanRunner.db this') = known_devices d1
    /\ forall run, In run (job_runs (MacScanRunner.db this')) ->
                   JobRun.id run = runId ->
                   JobRun.status run = "failed"
                   /\ JobRun.error_message run = Some message.
Proof.
  intros hosts batch whitelist now Hfree Hjob Hok Hstart Hthrow.
  destruct (processDevices_thrown _ _ _ _ _ _ _ _ Hthrow)
    as (done & device & rest & vars1 & d1 & Hsplit & Hdone & _ & K).
  assert (Hhosts : (List.length hosts =? 0) = false).
  { apply Nat.eqb_neq. intro Hl. apply Hok.
    destruct hosts; [reflexivity|discriminate]. }
  unfold MacScanRunner.runJob. rewrite Hfree, Hjob.
  fold hosts. rewrite Hhosts, Hstart.
  unfold MacScanRunner.tryCatch, MacScanRunner.runJobBody.
  fold hosts. fold whitelist. fold now.
  rewrite (proj2 (Nat.eqb_neq _ _) Hok).
  fold batch. rewrite (bind_Thrown _ _ _ _ _ Hthrow).
  cbv [MacScanRunner.runJobCatch bind Sql.failJobRun Sql.updateJobStatus
       throw].
  eexists. exists done, device, rest, vars1, d1.
  split; [reflexivity|]. split; [assumption|]. split; [assumption|].
  cbn [MacScanRunner.db known_devices with_jobs with_job_runs job_runs].
  split; [exact K|].
  intros run Hrun Hid. apply in_map_iff in Hrun as (run0 & <- & _).
  destruct (Nat.eqb (JobRun.id run0) runId) eqn:E0; [now split|].
  apply Nat.eqb_neq in E0. contradiction.
Qed.

(** The switch lists the printer on two VLANs after the laptop: the
    laptop and the printer are stored before the printer's second line
    throws, and the run is recorded as failed. *)
Lemma failed_reconciliation_keeps_earlier_writes_witness :
  exists this' done device rest d1,
    MacScanRunner.runJob (Sample.liveNetwork Sample.trunkTable) "job-1"
      (MacScanRunner.mkRunner
         (Sample.store "remove" [Sample.camera "active" 5]) [])
    = Thrown Sql.uniqueViolation this'
    /\ SSHService.parseMacAddressTable 61 Sample.trunkTable "10.0.0.1"
       = done ++ device :: rest
    /\ List.length (known_devices d1) = 3
    /\ known_devices (MacScanRunner.db this') = known_devices d1.
Proof.
  set (env := Sample.liveNetwork Sample.trunkTable).
  set (this := MacScanRunner.mkRunner
                 (Sample.store "remove" [Sample.camera "active" 5]) []).
  set (d0 := stateOf (MacScanRunner.startRun env "job-1" 1
                        (MacScanRunner.db this))).
  set (batch := SSHService.parseMacAddressTable 61 Sample.trunkTable
                  "10.0.0.1").
  set (d' := stateOf (MacScanRunner._processDevices 61 "job-1" batch
                        ["aa:bb:cc:dd:ee:ff"] (Sample.job "remove" 1) d0)).
  destruct (failed_reconciliation_keeps_earlier_writes env "job-1" this
              (Sample.job "remove" 1) 100 d0 Sql.uniqueViolation d'
              eq_refl eq_refl)
    as (this' & done & device & rest & vars1 & d1 & E & Hs & Hd & K & _).
  - vm_compute. discriminate.
  - vm_compute. reflexivity.
  - vm_compute. reflexivity.
  - exists this', done, device, rest, d1.
    split; [exact E|]. split; [exact Hs|]. split; [|exact K].
    rewrite <- K.
    assert (Hk : known_devices
                   (MacScanRunner.db
                      (stateOf (MacScanRunner.runJob env "job-1" this)))
                 = known_devices (MacScanRunner.db this'))
      by now rewrite E.
    rewrite <- Hk. vm_compute. reflexivity.
Defined.

(** C3 (counterexample).  A switch lists one MAC on two VLANs.  The run
    fails on the second line, yet the inventory is neither what it was
    nor what a whole reconciliation would have left: the two devices
    read before the failure are stored, and the camera, which the scan
    did not see, is still active. *)
Lemma failed_run_leaves_partial_inventory :
  let start := Sample.store "remove" [Sample.camera "active" 5] in
  exists this',
    MacScanRunner.runJob (Sample.liveNetwork Sample.trunkTable) "job-1"
      (MacScanRunner.mkRunner start [])
    = Thrown Sql.uniqueViolation this'
    /\ known_devices (MacScanRunner.db this')
       = [Sample.camera "active" 5;
          KnownDevice.mk 101 "job-1" "00:11:22:33:44:55" "10.0.0.1" "Gi0/3"
                         20 0 61 61 "active";
          KnownDevice.mk 104 "job-1" "aa:bb:cc:dd:ee:ff" "10.0.0.1" "Gi0/1"
                         10 1 61 61 "active"]
    /\ known_devices (MacScanRunner.db this') <> known_devices start
    /\ map JobRun.status (job_runs (MacScanRunner.db this')) = ["failed"].
Proof.
  intro start. eexists. split; [vm_compute; reflexivity|].
  split; [vm_compute; reflexivity|]. split; [|vm_compute; reflexivity].
  vm_compute. discriminate.
Qed.

(* ================================================================== *)
(** * Further properties of the backend                               *)
(* ================================================================== *)

(** ** The parser, line by line *)

Section TokenFacts.

Lemma splitChar_nonempty sep s : Js.splitChar sep s <> [].
Proof.
  destruct s as [|c r]; cbn; [discriminate|].
  destruct (Ascii.eqb c sep); [discriminate|].
  destruct (Js.splitChar sep r); discriminate.
Qed.

Lemma splitChar_app sep a b :
  Js.splitChar sep (a ++ String sep b)
  = Js.splitChar sep a ++ Js.splitChar sep b.
Proof.
  induction a as [|c a IH]; cbn.
  - now rewrite Ascii.eqb_refl.
  - destruct (Ascii.eqb c sep); [now rewrite IH|].
    rewrite IH.
    destruct (Js.splitChar sep a) as [|tok toks] eqn:E; [|reflexivity].
    now apply splitChar_nonempty in E.
Qed.

Lemma noSpace_app a b : noSpace (a ++ b) = noSpace a && noSpace b.
Proof.
  induction a as [|c a IH]; cbn; [reflexivity|].
  now rewrite IH, andb_assoc.
Qed.

Lemma splitSpacesFrom_noSpace s :
  forall tok inRun,
    noSpace tok = true ->
    forallb noSpace (Js.splitSpacesFrom tok inRun s) = true.
Proof.
  induction s as [|c r IH]; intros tok inRun Ht; cbn.
  - now rewrite Ht.
  - destruct (Js.isSpace c) eqn:Ec.
    + destruct inRun; [now apply IH|].
      cbn. rewrite Ht. now apply IH.
    + apply IH. rewrite noSpace_app, Ht. cbn. now rewrite Ec.
Qed.

Lemma append_nonempty tok c : (tok ++ String c "")%string <> "".
Proof. destruct tok; discriminate. Qed.

Lemma splitSpacesFrom_nonempty s :
  forall tok inRun,
    endsClean s = true ->
    (if inRun : bool then s <> "" else tok <> "" \/ startsClean s = true) ->
    forallb (fun t => negb (String.eqb t "")) (Js.splitSpacesFrom tok inRun s)
    = true.
Proof.
  induction s as [|c r IH]; intros tok inRun He Hs.
  - destruct inRun; [contradiction|]. destruct Hs as [Hs|Hs]; [|discriminate].
    cbn. apply String.eqb_neq in Hs. now rewrite Hs.
  - cbn [Js.splitSpacesFrom]. destruct (Js.isSpace c) eqn:Ec.
    + assert (Hr : r <> "" /\ endsClean r = true).
      { cbn in He. rewrite Ec in He. destruct r; [discriminate|].
        split; [discriminate|assumption]. }
      destruct Hr as [Hr Her]. destruct inRun.
      * now apply IH.
      * cbn [forallb]. destruct Hs as [Hs|Hs].
        -- apply String.eqb_neq in Hs. rewrite Hs. cbn. now apply IH.
        -- cbn in Hs. now rewrite Ec in Hs.
    + apply IH.
      * cbn in He. destruct r; [reflexivity|assumption].
      * left. apply append_nonempty.
Qed.

Lemma trimStart_clean s :
  Js.trimStart s = "" \/ startsClean (Js.trimStart s) = true.
Proof.
  induction s as [|c r IH]; cbn; [now left|].
  destruct (Js.isSpace c) eqn:Ec; [assumption|].
  right. cbn. now rewrite Ec.
Qed.

Lemma trimEnd_endsClean s : endsClean (Js.trimEnd s) = true.
Proof.
  induction s as [|c r IH]; cbn; [reflexivity|].
  destruct (Js.trimEnd r) as [|c' r'] eqn:E.
  - destruct (Js.isSpace c) eqn:Ec; cbn; [reflexivity|now rewrite Ec].
  - cbn. cbn in IH. assumption.
Qed.

Lemma trimEnd_startsClean s :
  startsClean s = true -> startsClean (Js.trimEnd s) = true.
Proof.
  destruct s as [|c r]; cbn; [discriminate|]. intro Hc.
  destruct (Js.trimEnd r).
  - apply negb_true_iff in Hc. rewrite Hc. cbn. now rewrite Hc.
  - assumption.
Qed.

Lemma trim_clean line :
  Js.trim line <> "" ->
  startsClean (Js.trim line) = true /\ endsClean (Js.trim line) = true.
Proof.
  unfold Js.trim. intro H. split; [|apply trimEnd_endsClean].
  destruct (trimStart_clean line) as [E|E].
  - rewrite E in H. now contradiction H.
  - now apply trimEnd_startsClean.
Qed.

Lemma trim_tokens line :
  Js.trim line <> "" ->
  forallb plainToken (Js.splitSpaces (Js.trim line)) = true.
Proof.
  intro H. destruct (trim_clean line H) as [Hs He].
  unfold Js.splitSpaces.
  assert (A := splitSpacesFrom_nonempty (Js.trim line) "" false He
                 (or_intror Hs)).
  assert (B := splitSpacesFrom_noSpace (Js.trim line) "" false eq_refl).
  revert A B. generalize (Js.splitSpacesFrom "" false (Js.trim line)).
  induction l as [|t l IH]; cbn; [reflexivity|].
  unfold plainToken at 1.
  rewrite !andb_true_iff. intros [A1 A2] [B1 B2].
  rewrite A1, B1. auto.
Qed.

Lemma join_nonempty sep t ts : t <> "" -> Js.join sep (t :: ts) <> "".
Proof.
  intro H. unfold Js.join. cbn. destruct ts; [assumption|].
  destruct t; [contradiction|discriminate].
Qed.

Lemma plainToken_nonempty t : plainToken t = true -> t <> "".
Proof.
  unfold plainToken. rewrite andb_true_iff, negb_true_iff.
  intros [H _]. now apply String.eqb_neq.
Qed.

End TokenFacts.

(** X1.  The parser reads a table line by line: the observations of
    two texts joined by a line feed are those of the first text
    followed by those of the second.  A line is parsed the same
    whatever surrounds it, and the order of the lines is kept. *)
Theorem parser_reads_line_by_line now a b hostName :
  SSHService.parseMacAddressTable now (a ++ nl ++ b) hostName
  = SSHService.parseMacAddressTable now a hostName
    ++ SSHService.parseMacAddressTable now b hostName.
Proof.
  unfold SSHService.parseMacAddressTable, nl. cbn [append].
  rewrite splitChar_app. apply flat_map_app.
Qed.

(** X2.  Every observation the parser emits carries the host name and
    the clock value of the call; its type is one non-empty token free
    of white space; and its interface name is not empty: it is made of
    the fourth and later tokens of a line of the text, each non-empty
    and free of white space, joined by single spaces. *)
Theorem parsed_interface_is_joined_tokens now output hostName d :
  In d (SSHService.parseMacAddressTable now output hostName) ->
  host_name d = hostName /\ detected_at d = now
  /\ plainToken (type d) = true
  /\ interface_name d <> ""
  /\ exists line tokens,
       In line (Js.splitChar (ascii_of_nat 10) output)
       /\ tokens = Js.slice 3 (Js.splitSpaces (Js.trim line))
       /\ tokens <> [] /\ forallb plainToken tokens = true
       /\ interface_name d = Js.join " " tokens.
Proof.
  unfold SSHService.parseMacAddressTable. intro H.
  apply in_flat_map in H as (line & Hline & H).
  unfold SSHService.parseLine in H.
  destruct (SSHService.skipLine (Js.trim line)) eqn:Es; [contradiction|].
  assert (Hne : Js.trim line <> "").
  { intro E. rewrite E in Es. discriminate. }
  assert (Ht := trim_tokens line Hne).
  destruct (Js.splitSpaces (Js.trim line))
    as [|p0 [|p1 [|p2 [|p3 rest]]]] eqn:Ep; try contradiction.
  cbn [List.length Nat.leb nth Js.slice skipn] in H.
  destruct (Js.parseInt p0) as [v|]; [|contradiction].
  destruct (SSHService.isValidMAC _); [|contradiction].
  destruct H as [<-|[]]. cbn [host_name detected_at type interface_name].
  cbn [forallb] in Ht. rewrite !andb_true_iff in Ht.
  destruct Ht as (_ & _ & H2 & H3 & Hr).
  split; [reflexivity|]. split; [reflexivity|]. split; [assumption|].
  split.
  - apply join_nonempty. now apply plainToken_nonempty.
  - exists line, (p3 :: rest). split; [assumption|].
    rewrite Ep. split; [reflexivity|]. split; [discriminate|].
    split; [|reflexivity].
    cbn [forallb]. now rewrite H3, Hr.
Qed.

(** The port channel of the sample table. *)
Lemma parsed_interface_is_joined_tokens_witness :
  exists tokens,
    tokens <> [] /\ forallb plainToken tokens = true
    /\ "Port Channel 3" = Js.join " " tokens.
Proof.
  destruct (parsed_interface_is_joined_tokens 7 Sample.table "10.0.0.1"
              (mkObservation "00-1a-2b-3c-4d-5e" 20 "STATIC"
                             "Port Channel 3" "10.0.0.1" 7))
    as (_ & _ & _ & _ & line & tokens & _ & _ & H).
  - vm_compute. right. now left.
  - exists tokens. exact H.
Defined.

(** ** Lines the parser accepts *)

Section JoinFacts.

Lemma append_assoc (a b c : string) : ((a ++ b) ++ c = a ++ (b ++ c))%string.
Proof. induction a as [|x a IH]; cbn; [reflexivity|now rewrite IH]. Qed.

Lemma append_empty_r (a : string) : (a ++ "")%string = a.
Proof. induction a as [|x a IH]; cbn; [reflexivity|now rewrite IH]. Qed.

Lemma splitSpacesFrom_token t :
  forall tok s,
    noSpace t = true ->
    Js.splitSpacesFrom tok false (t ++ s)
    = Js.splitSpacesFrom (tok ++ t) false s.
Proof.
  induction t as [|c t IH]; intros tok s Ht; cbn [append].
  - now rewrite append_empty_r.
  - cbn in Ht. apply andb_true_iff in Ht as [Hc Ht].
    apply negb_true_iff in Hc. cbn [Js.splitSpacesFrom]. rewrite Hc.
    rewrite IH by assumption. now rewrite append_assoc.
Qed.

Lemma splitSpacesFrom_run s :
  startsClean s = true ->
  Js.splitSpacesFrom "" true s = Js.splitSpaces s.
Proof.
  destruct s as [|c r]; cbn; [discriminate|]. intro Hc.
  apply negb_true_iff in Hc. unfold Js.splitSpaces. cbn. now rewrite Hc.
Qed.

Lemma plain_startsClean t s :
  plainToken t = true -> startsClean (t ++ s) = true.
Proof.
  unfold plainToken. destruct t as [|c t]; cbn; [discriminate|].
  now rewrite andb_true_iff.
Qed.

Lemma join_cons sep t t' ts :
  Js.join sep (t :: t' :: ts) = (t ++ sep ++ Js.join sep (t' :: ts))%string.
Proof. reflexivity. Qed.

Lemma join_startsClean t ts :
  plainToken t = true -> startsClean (Js.join " " (t :: ts)) = true.
Proof.
  intro H. destruct ts as [|t' ts].
  - cbn. rewrite <- (append_empty_r t). now apply plain_startsClean.
  - rewrite join_cons. now apply plain_startsClean.
Qed.

(** Splitting the tokens joined by single spaces gives the tokens. *)
Lemma splitSpaces_join tokens :
  tokens <> [] ->
  forallb plainToken tokens = true ->
  Js.splitSpaces (Js.join " " tokens) = tokens.
Proof.
  induction tokens as [|t ts IH]; [contradiction|]. intros _ H.
  cbn [forallb] in H. apply andb_true_iff in H as [Ht Hts].
  assert (Hn : noSpace t = true).
  { unfold plainToken in Ht. now apply andb_true_iff in Ht. }
  destruct ts as [|t' ts].
  - cbn. unfold Js.splitSpaces.
    rewrite <- (append_empty_r t) at 1.
    now rewrite splitSpacesFrom_token.
  - rewrite join_cons. unfold Js.splitSpaces.
    rewrite splitSpacesFrom_token by assumption.
    cbn [append Js.splitSpacesFrom]. cbn [Js.isSpace Js.code nat_of_ascii].
    change (Js.isSpace " "%char) with true. cbv iota.
    f_equal.
    rewrite splitSpacesFrom_run.
    + apply IH; [discriminate|assumption].
    + cbn [forallb] in Hts. apply andb_true_iff in Hts as [Ht' _].
      now apply join_startsClean.
Qed.

Lemma endsClean_app a b :
  b <> "" -> endsClean (a ++ b) = endsClean b.
Proof.
  intro Hb. induction a as [|c a IH]; cbn [append]; [reflexivity|].
  cbn [endsClean]. destruct (a ++ b)%string eqn:E.
  - destruct a; [cbn in E; contradiction|discriminate].
  - assumption.
Qed.

Lemma noSpace_endsClean t : noSpace t = true -> endsClean t = true.
Proof.
  induction t as [|c t IH]; cbn; [reflexivity|].
  rewrite andb_true_iff. intros [Hc Ht]. destruct t; [assumption|auto].
Qed.

Lemma join_endsClean tokens :
  forallb plainToken tokens = true ->
  endsClean (Js.join " " tokens) = true.
Proof.
  induction tokens as [|t ts IH]; [reflexivity|]. intro H.
  cbn [forallb] in H. apply andb_true_iff in H as [Ht Hts].
  destruct ts as [|t' ts].
  - cbn. apply noSpace_endsClean. unfold plainToken in Ht.
    now apply andb_true_iff in Ht.
  - rewrite join_cons. rewrite endsClean_app.
    + rewrite endsClean_app; [now apply IH|].
      cbn [forallb] in Hts. apply andb_true_iff in Hts as [Ht' _].
      intro E. assert (S := join_startsClean t' ts Ht').
      rewrite E in S. discriminate.
    + discriminate.
Qed.

Lemma trimStart_id s : startsClean s = true -> Js.trimStart s = s.
Proof.
  destruct s as [|c r]; cbn; [reflexivity|]. intro H.
  apply negb_true_iff in H. now rewrite H.
Qed.

Lemma trimEnd_id s : endsClean s = true -> Js.trimEnd s = s.
Proof.
  induction s as [|c r IH]; [reflexivity|]. cbn [endsClean Js.trimEnd].
  destruct r as [|c' r'].
  - cbn. intro H. apply negb_true_iff in H. now rewrite H.
  - intro H. rewrite (IH H). reflexivity.
Qed.

Lemma trim_join tokens :
  tokens <> [] ->
  forallb plainToken tokens = true ->
  Js.trim (Js.join " " tokens) = Js.join " " tokens.
Proof.
  intros Hne H. unfold Js.trim. destruct tokens as [|t ts]; [contradiction|].
  rewrite trimStart_id.
  - apply trimEnd_id. now apply join_endsClean.
  - cbn [forallb] in H. apply andb_true_iff in H as [Ht _].
    now apply join_startsClean.
Qed.

End JoinFacts.

(** X3.  A line of at least four non-empty tokens free of white space,
    separated by single spaces, whose first token [parseInt] reads as
    [v], whose second token passes [isValidMAC] and which no skip test
    matches, yields exactly one observation: the MAC lowercased, the
    VLAN [v], the third token as type and the other tokens joined by
    spaces as interface. *)
Theorem parser_accepts_well_formed_line
    now hostName vlan mac type port more v :
  forallb plainToken (vlan :: mac :: type :: port :: more) = true ->
  Js.parseInt vlan = Some v ->
  SSHService.isValidMAC mac = true ->
  SSHService.skipLine (Js.join " " (vlan :: mac :: type :: port :: more))
  = false ->
  SSHService.parseLine now hostName
    (Js.join " " (vlan :: mac :: type :: port :: more))
  = [mkObservation (Js.toLowerCase mac) v type (Js.join " " (port :: more))
                   hostName now].
Proof.
  intros Hp Hv Hm Hs. unfold SSHService.parseLine.
  rewrite trim_join by (assumption || discriminate).
  rewrite Hs. rewrite splitSpaces_join by (assumption || discriminate).
  cbn [List.length Nat.leb nth Js.slice skipn]. rewrite Hv.
  rewrite isValidMAC_toLowerCase, Hm. reflexivity.
Qed.

(** A line with an interface name of three words. *)
Lemma parser_accepts_well_formed_line_witness :
  SSHService.parseLine 7 "10.0.0.1"
    "10 AA:BB:CC:DD:EE:FF DYNAMIC Port Channel 3"
  = [mkObservation "aa:bb:cc:dd:ee:ff" 10 "DYNAMIC" "Port Channel 3"
                   "10.0.0.1" 7].
Proof.
  exact (parser_accepts_well_formed_line 7 "10.0.0.1" "10"
           "AA:BB:CC:DD:EE:FF" "DYNAMIC" "Port" ["Channel"; "3"] 10
           eq_refl eq_refl eq_refl eq_refl).
Defined.

(** ** The scan of the hosts *)

Section ScanFacts.
Variables (env : environment) (job : Job.row).

Lemma scanHost_step host s :
  MacScanRunner.allDevices (MacScanRunner.scanHost env job host s)
  = MacScanRunner.allDevices s ++ devicesOf env job host
  /\ MacScanRunner.successfulHosts (MacScanRunner.scanHost env job host s)
     = MacScanRunner.successfulHosts s
       + (if hostFails env job host then 0 else 1)
  /\ List.length (MacScanRunner.debugInfo
                    (MacScanRunner.scanHost env job host s))
     = List.length (MacScanRunner.debugInfo s) + 2.
Proof.
  unfold MacScanRunner.scanHost, devicesOf, hostFails.
  destruct (decrypt env (SshHost.password_encrypted host)) as [password|].
  - unfold MacScanRunner.getMacAddressTable.
    destruct (success (executeCommand env _ _ _ password _)) eqn:E;
      cbn [fst snd]; rewrite E;
      cbn [MacScanRunner.allDevices MacScanRunner.successfulHosts
           MacScanRunner.debugInfo negb];
      rewrite !length_app; cbn [List.length];
      repeat split; try rewrite app_nil_r; try reflexivity; lia.
  - cbn [MacScanRunner.allDevices MacScanRunner.successfulHosts
         MacScanRunner.debugInfo].
    rewrite !length_app, app_nil_r. cbn [List.length].
    repeat split; lia.
Qed.

Lemma scanHosts_fold hosts :
  forall s,
    let s' := fold_left (fun s host => MacScanRunner.scanHost env job host s)
                        hosts s in
    MacScanRunner.allDevices s'
    = MacScanRunner.allDevices s ++ batchOf env job hosts
    /\ MacScanRunner.successfulHosts s'
       = MacScanRunner.successfulHosts s
         + List.length (filter (fun h => negb (hostFails env job h)) hosts)
    /\ List.length (MacScanRunner.debugInfo s')
       = List.length (MacScanRunner.debugInfo s) + 2 * List.length hosts.
Proof.
  induction hosts as [|host hosts IH]; intro s; cbn [fold_left].
  - cbn. rewrite app_nil_r. repeat split; lia.
  - destruct (IH (MacScanRunner.scanHost env job host s)) as (A & B & C).
    destruct (scanHost_step host s) as (A1 & B1 & C1).
    cbv zeta. rewrite A, B, C, A1, B1, C1.
    unfold batchOf. cbn [flat_map filter List.length].
    rewrite <- app_assoc. split; [reflexivity|].
    destruct (hostFails env job host); cbn [negb List.length]; split; lia.
Qed.

Lemma scanHosts_batch hosts :
  MacScanRunner.allDevices (MacScanRunner.scanHosts env job hosts)
  = batchOf env job hosts.
Proof.
  unfold MacScanRunner.scanHosts.
  now destruct (scanHosts_fold hosts (MacScanRunner.mkScan [] [] 0))
    as (-> & _).
Qed.

Lemma scanHosts_successful hosts :
  MacScanRunner.successfulHosts (MacScanRunner.scanHosts env job hosts)
  = List.length (filter (fun h => negb (hostFails env job h)) hosts).
Proof.
  unfold MacScanRunner.scanHosts.
  now destruct (scanHosts_fold hosts (MacScanRunner.mkScan [] [] 0))
    as (_ & -> & _).
Qed.

Lemma parse_valid now output hostName :
  validBatch (SSHService.parseMacAddressTable now output hostName) = true.
Proof.
  unfold validBatch. apply forallb_forall. intros o Ho.
  unfold SSHService.parseMacAddressTable in Ho.
  apply in_flat_map in Ho as (line & _ & Ho).
  now apply parseLine_emits in Ho as (_ & _ & _ & H & _).
Qed.

Lemma devicesOf_valid host : validBatch (devicesOf env job host) = true.
Proof.
  unfold devicesOf.
  destruct (decrypt env _) as [password|]; [|reflexivity].
  unfold MacScanRunner.getMacAddressTable.
  destruct (success _); cbn [snd]; [apply parse_valid|reflexivity].
Qed.

Lemma batchOf_valid hosts : validBatch (batchOf env job hosts) = true.
Proof.
  unfold batchOf, validBatch. apply forallb_forall. intros o Ho.
  apply in_flat_map in Ho as (host & _ & Ho).
  exact (validBatch_In _ _ (devicesOf_valid host) Ho).
Qed.


End ScanFacts.



(** ** What a reconciliation records *)

Section ProcessFrame.
Context {X : Type} (f : database -> X).
Hypothesis f_known : forall v d, f (with_known_devices v d) = f d.
Hypothesis f_notif : forall v d, f (with_notifications v d) = f d.
Hypothesis f_hist : forall v d, f (with_device_history v d) = f d.
Hypothesis f_uuid : forall n d, f (with_next_uuid n d) = f d.

Lemma createNotification_frame now n d :
  f (stateOf (NotificationService.createNotification now n d)) = f d.
Proof. cbn. now rewrite f_notif, f_uuid. Qed.

Lemma processDevice_frame now jobId whitelist job device vars d :
  f (stateOf (MacScanRunner.processDevice now jobId whitelist job
                device vars d))
  = f d.
Proof.
  unfold MacScanRunner.processDevice. apply bind_state.
  - destruct (JsMap.get _ _) as [existing|].
    + apply bind_state.
      * unfold MacScanRunner.notifyMoved.
        destruct (_ && _); [apply createNotification_frame|reflexivity].
      * intros _ d1. apply bind_state; [apply f_known|reflexivity].
    + apply bind_state; [apply f_uuid|]. intros id d1.
      apply bind_state.
      * unfold Sql.insertKnownDevice.
        destruct (existsb _ _); [reflexivity|apply f_known].
      * intros _ d2. unfold MacScanRunner.notifyNewDevice.
        destruct (truthy _); [|reflexivity].
        destruct (_ && _).
        { apply bind_state; [apply createNotification_frame|reflexivity]. }
        destruct (_ && _); [|reflexivity].
        apply bind_state; [apply createNotification_frame|reflexivity].
  - intros vars' d1. apply bind_state; [apply f_uuid|].
    intros id d2. apply bind_state; [apply f_hist|reflexivity].
Qed.

Lemma applyRetentionPolicy_frame now jobId job d :
  f (stateOf (MacScanRunner._applyRetentionPolicy now jobId job d)) = f d.
Proof.
  unfold MacScanRunner._applyRetentionPolicy.
  destruct (String.eqb _ "forever"); [reflexivity|].
  destruct (String.eqb _ "remove"); [apply f_known|].
  destruct (String.eqb _ "days"); [apply f_known|reflexivity].
Qed.

Lemma processDevices_frame now jobId devices whitelist job d :
  f (stateOf (MacScanRunner._processDevices now jobId devices whitelist
                job d))
  = f d.
Proof.
  unfold MacScanRunner._processDevices. apply bind_state.
  - unfold MacScanRunner.reconcile. apply (bind_state f).
    + apply forEach_state. intros. apply processDevice_frame.
    + intros vars d1. apply bind_state; [|reflexivity].
      apply forEach_state. intros. apply f_known.
  - intros vars d1. apply bind_state; [|reflexivity].
    apply applyRetentionPolicy_frame.
Qed.
End ProcessFrame.

Section StepRecord.
Variables (now : Z) (jobId : string) (whitelist : list string)
          (job : Job.row).

(** What one returned step of the first loop leaves behind. *)
Lemma processDevice_returned device m nd w d vars d' :
  MacScanRunner.processDevice now jobId whitelist job device
    (MacScanRunner.mkLocals m nd w) d = Returned vars d' ->
  MacScanRunner.knownDevices vars
  = (if noEntry m device then m else JsMap.delete (keyOf device) m)
  /\ MacScanRunner.newDevices vars = nd + (if noEntry m device then 1 else 0)
  /\ (exists h, device_history d' = device_history d ++ [h]
                /\ recorded now jobId device h)
  /\ (exists added,
         notifications d' = notifications d ++ added
         /\ List.length added <= 1
         /\ MacScanRunner.warnings vars
            = w + List.length (filter isWarning added)
         /\ Forall (fun n => concerns jobId job device n
                             /\ (isWarning n = true ->
                                 MacScanRunner.has whitelist
                                   (mac_address device) = false
                                 /\ noEntry m device = true)) added).
Proof.
  unfold MacScanRunner.processDevice, noEntry, keyOf.
  cbn [MacScanRunner.knownDevices MacScanRunner.newDevices
       MacScanRunner.warnings].
  destruct (JsMap.get _ m) as [existing|].
  - unfold MacScanRunner.notifyMoved.
    destruct (_ && _); intro H; cbv in H; inversion H; subst; clear H;
      cbn [MacScanRunner.knownDevices MacScanRunner.newDevices
           MacScanRunner.warnings device_history notifications].
    + split; [reflexivity|]. split; [lia|]. split.
      * eexists. split; [reflexivity|reflexivity].
      * eexists [_]. split; [reflexivity|]. split; [cbn; lia|].
        split; [cbn; lia|]. constructor; [|constructor].
        split; [now repeat split|]. cbn. discriminate.
    + split; [reflexivity|]. split; [lia|]. split.
      * eexists. split; [reflexivity|reflexivity].
      * exists []. rewrite app_nil_r. split; [reflexivity|].
        split; [cbn; lia|]. split; [cbn; lia|]. constructor.
  - unfold bind at 1. unfold bind at 1. unfold uuidv4 at 1.
    unfold bind at 1. unfold Sql.insertKnownDevice.
    destruct (existsb _ _); [discriminate|].
    unfold MacScanRunner.notifyNewDevice.
    destruct (truthy (Job.notifications_enabled job)).
    2: { intro H; cbv in H; inversion H; subst; clear H.
         cbn [MacScanRunner.knownDevices MacScanRunner.newDevices
              MacScanRunner.warnings device_history notifications].
         split; [reflexivity|]. split; [lia|]. split.
         - eexists. split; [reflexivity|reflexivity].
         - exists []. rewrite app_nil_r. split; [reflexivity|].
           split; [cbn; lia|]. split; [cbn; lia|]. constructor. }
    destruct (MacScanRunner.has whitelist (mac_address device)) eqn:Ew;
      cbn [andb negb].
    + destruct (truthy (Job.notify_new_macs job));
        intro H; cbv in H; inversion H; subst; clear H;
        cbn [MacScanRunner.knownDevices MacScanRunner.newDevices
             MacScanRunner.warnings device_history notifications].
      * split; [reflexivity|]. split; [lia|]. split.
        -- eexists. split; [reflexivity|reflexivity].
        -- eexists [_]. split; [reflexivity|]. split; [cbn; lia|].
           split; [cbn; lia|]. constructor; [|constructor].
           split; [now repeat split|]. cbn. discriminate.
      * split; [reflexivity|]. split; [lia|]. split.
        -- eexists. split; [reflexivity|reflexivity].
        -- exists []. rewrite app_nil_r. split; [reflexivity|].
           split; [cbn; lia|]. split; [cbn; lia|]. constructor.
    + destruct (truthy (Job.notify_unauthorized_macs job));
        intro H; cbv in H; inversion H; subst; clear H;
        cbn [MacScanRunner.knownDevices MacScanRunner.newDevices
             MacScanRunner.warnings device_history notifications].
      * split; [reflexivity|]. split; [lia|]. split.
        -- eexists. split; [reflexivity|reflexivity].
        -- eexists [_]. split; [reflexivity|]. split; [cbn; lia|].
           split; [cbn; lia|]. constructor; [|constructor].
           split; [now repeat split|]. cbn. auto.
      * split; [reflexivity|]. split; [lia|]. split.
        -- eexists. split; [reflexivity|reflexivity].
        -- exists []. rewrite app_nil_r. split; [reflexivity|].
           split; [cbn; lia|]. split; [cbn; lia|]. constructor.
Qed.
End StepRecord.

Section LoopRecord.
Variables (now : Z) (jobId : string) (whitelist : list string)
          (job : Job.row).

Lemma forEach_cons_returned {A V : Type} (body : A -> V -> M V) x xs v d
    v' d' :
  forEach body (x :: xs) v d = Returned v' d' ->
  exists v1 d1, body x v d = Returned v1 d1
                /\ forEach body xs v1 d1 = Returned v' d'.
Proof.
  cbn [forEach]. unfold bind.
  destruct (body x v d) as [v1 d1|]; [|discriminate].
  intro H. now exists v1, d1.
Qed.

(** The history and the notifications a returned loop leaves. *)
Lemma loop_record :
  forall l m nd w d vars d',
    forEach (MacScanRunner.processDevice now jobId whitelist job) l
            (MacScanRunner.mkLocals m nd w) d = Returned vars d' ->
    (exists hs, device_history d' = device_history d ++ hs
                /\ Forall2 (recorded now jobId) l hs)
    /\ (exists added,
           notifications d' = notifications d ++ added
           /\ List.length added <= List.length l
           /\ MacScanRunner.warnings vars
              = w + List.length (filter isWarning added)
           /\ Forall (fun n => exists o,
                          In o l /\ concerns jobId job o n
                          /\ (isWarning n = true ->
                              MacScanRunner.has whitelist (mac_address o)
                              = false))
                     added).
Proof.
  induction l as [|o l IH]; intros m nd w d vars d' Hrun.
  - cbn in Hrun. inversion Hrun; subst. split.
    + exists []. rewrite app_nil_r. split; [reflexivity|constructor].
    + exists []. rewrite app_nil_r. cbn. repeat split; try lia. constructor.
  - apply forEach_cons_returned in Hrun as ([m1 nd1 w1] & d1 & E1 & Hrun).
    destruct (processDevice_returned now jobId whitelist job _ _ _ _ _ _ _ E1)
      as (_ & _ & (h & Hh & Rh) & (a1 & Ha & La & Wa & Fa)).
    cbn [MacScanRunner.warnings] in Wa.
    destruct (IH _ _ _ _ _ _ Hrun)
      as ((hs & Hhs & Rhs) & (a2 & Ha2 & La2 & Wa2 & Fa2)).
    split.
    + exists (h :: hs). rewrite Hhs, Hh, <- app_assoc. split; [reflexivity|].
      now constructor.
    + exists (a1 ++ a2). rewrite Ha2, Ha, <- app_assoc.
      split; [reflexivity|]. rewrite length_app. cbn [List.length].
      split; [lia|]. rewrite filter_app, length_app. split; [lia|].
      apply Forall_app. split.
      * eapply Forall_impl; [|exact Fa]. cbv beta. intros n (C & W).
        exists o. split; [now left|]. split; [assumption|].
        intro Hw. now destruct (W Hw).
      * eapply Forall_impl; [|exact Fa2]. cbv beta.
        intros n (o' & Ho' & C & W). exists o'. split; [now right|].
        now split.
Qed.

(** With pairwise distinct keys, a returned loop counts as new the
    observations the map had no entry for. *)
Lemma loop_counts_new :
  forall l m nd w d vars d',
    NoDup (map keyOf l) ->
    forEach (MacScanRunner.processDevice now jobId whitelist job) l
            (MacScanRunner.mkLocals m nd w) d = Returned vars d' ->
    MacScanRunner.newDevices vars
    = nd + List.length (filter (noEntry m) l).
Proof.
  induction l as [|o l IH]; intros m nd w d vars d' ND Hrun.
  - cbn in Hrun. inversion Hrun; subst. cbn. lia.
  - apply forEach_cons_returned in Hrun as ([m1 nd1 w1] & d1 & E1 & Hrun).
    destruct (processDevice_returned now jobId whitelist job _ _ _ _ _ _ _ E1)
      as (Hm & Hn & _).
    cbn [MacScanRunner.knownDevices MacScanRunner.newDevices] in Hm, Hn.
    cbn [map] in ND. inversion ND as [|? ? Ho ND']; subst.
    rewrite (IH _ _ _ _ _ _ ND' Hrun). cbn [filter].
    assert (Hsame : filter (noEntry (if noEntry m o then m
                                     else JsMap.delete (keyOf o) m)) l
                    = filter (noEntry m) l).
    { apply filter_ext_in. intros o' Ho'.
      destruct (noEntry m o); [reflexivity|].
      unfold noEntry. rewrite get_delete_other; [reflexivity|].
      intro E. apply Ho. rewrite <- E. now apply in_map. }
    rewrite Hsame. destruct (noEntry m o); cbn [List.length]; lia.
Qed.

Lemma NoDup_keys l :
  validBatch l = true -> NoDup (map pairOf l) -> NoDup (map keyOf l).
Proof.
  induction l as [|o l IH]; intros V ND; cbn [map]; [constructor|].
  cbn [validBatch forallb] in V. apply andb_true_iff in V as [Vo V].
  cbn [map] in ND. inversion ND as [|? ? Ho ND']; subst.
  constructor; [|now apply IH].
  intro H. apply in_map_iff in H as (o' & E & Ho').
  apply Ho. apply in_map_iff. exists o'. split; [|assumption].
  apply keyOf_inj; [|assumption|assumption].
  exact (validBatch_In _ _ V Ho').
Qed.

(** The steps of a call of [_processDevices] that returned. *)
Lemma processDevices_returned devices d result d' :
  MacScanRunner._processDevices now jobId devices whitelist job d
  = Returned result d' ->
  exists vars d1 d2,
    forEach (MacScanRunner.processDevice now jobId whitelist job) devices
            (MacScanRunner.mkLocals
               (MacScanRunner.loadKnownDevices jobId d) 0 0) d
    = Returned vars d1
    /\ forEach (MacScanRunner.markInactive jobId)
               (MacScanRunner.knownDevices vars) tt d1 = Returned tt d2
    /\ MacScanRunner.reconcile now jobId devices whitelist job d
       = Returned vars d2
    /\ MacScanRunner._applyRetentionPolicy now jobId job d2 = Returned tt d'
    /\ result = Result.mk (List.length devices)
                          (MacScanRunner.newDevices vars)
                          (MacScanRunner.warnings vars).
Proof.
  intro H.
  pose proof (processDevices_reconcile now jobId devices whitelist job d)
    as R.
  destruct (MacScanRunner.reconcile now jobId devices whitelist job d)
    as [vars d2|message d2] eqn:E; [|congruence].
  destruct R as (d3 & R & P). rewrite R in H. inversion H; subst.
  unfold MacScanRunner.reconcile in E. unfold bind at 1 in E.
  destruct (forEach (MacScanRunner.processDevice now jobId whitelist job)
              devices _ d) as [vars1 d1|] eqn:E1; [|discriminate].
  destruct (markInactive_loop jobId (MacScanRunner.knownDevices vars1) d1)
    as (d2' & E2 & _).
  rewrite (bind_Returned _ _ _ _ _ E2) in E. inversion E; subst.
  exists vars, d1, d2. repeat split; assumption.
Qed.
End LoopRecord.

Lemma noEntry_unseen jobId d o :
  validInventory jobId d = true ->
  SSHService.isValidMAC (mac_address o) = true ->
  noEntry (MacScanRunner.loadKnownDevices jobId d) o
  = unseen jobId (known_devices d) o.
Proof.
  intros Vi Vo. unfold noEntry, unseen.
  destruct (JsMap.get (keyOf o) _) as [e|] eqn:G.
  - symmetry. apply negb_false_iff.
    apply get_In in G.
    pose proof (load_ok jobId d Vi) as Hok.
    rewrite Forall_forall in Hok. destruct (Hok _ G) as (K & V & Ex).
    cbn [fst snd] in K, V, Ex.
    destruct (deviceKey_inj _ _ _ _ Vo V K) as [Em Eh].
    unfold rowExists. now rewrite Em, Eh.
  - symmetry. apply negb_true_iff. now apply load_none_no_row.
Qed.

(** X5.  When [_processDevices] returns, on parser-checked MACs in the
    batch and in the job's inventory, the [newDevices] it reports is
    the number of observations of the batch for which the job had no
    known device before the call. *)
Theorem newDevices_counts_unseen_observations
    now jobId devices whitelist job d result d' :
  validBatch devices = true ->
  validInventory jobId d = true ->
  MacScanRunner._processDevices now jobId devices whitelist job d
  = Returned result d' ->
  Result.newDevices result
  = List.length (filter (unseen jobId (known_devices d)) devices).
Proof.
  intros Vb Vi Hrun.
  destruct (returned_batch_has_distinct_keys _ _ _ _ _ _ _ _ Vb Vi Hrun)
    as (ND & _).
  destruct (processDevices_returned _ _ _ _ _ _ _ _ Hrun)
    as (vars & d1 & d2 & E1 & _ & _ & _ & ->).
  cbn [Result.newDevices].
  rewrite (loop_counts_new _ _ _ _ _ _ _ _ _ _ _ (NoDup_keys _ Vb ND) E1).
  cbn [Nat.add]. f_equal. apply filter_ext_in. intros o Ho.
  apply noEntry_unseen; [assumption|].
  exact (validBatch_In _ _ Vb Ho).
Qed.

(** The printer is known, the laptop is not. *)
Lemma newDevices_counts_unseen_observations_witness :
  exists result d',
    MacScanRunner._processDevices 100 "job-1"
      [Sample.printerMoved; Sample.laptop] ["aa:bb:cc:dd:ee:ff"]
      (Sample.job "forever" 1)
      (Sample.store "forever" [Sample.oldPrinter; Sample.foreign])
    = Returned result d'
    /\ Result.newDevices result = 1.
Proof.
  eexists. eexists.
  assert (E : MacScanRunner._processDevices 100 "job-1"
                [Sample.printerMoved; Sample.laptop] ["aa:bb:cc:dd:ee:ff"]
                (Sample.job "forever" 1)
                (Sample.store "forever" [Sample.oldPrinter; Sample.foreign])
              = Returned ?[result] ?[d'])
    by (vm_compute; reflexivity).
  split; [exact E|].
  rewrite (newDevices_counts_unseen_observations 100 "job-1"
             [Sample.printerMoved; Sample.laptop] ["aa:bb:cc:dd:ee:ff"]
             (Sample.job "forever" 1)
             (Sample.store "forever" [Sample.oldPrinter; Sample.foreign])
             _ _ eq_refl eq_refl E).
  reflexivity.
Defined.

(** X6.  When [_processDevices] returns, [device_history] has grown by
    exactly one entry per observation of the batch, in batch order,
    each with the job, MAC, host, interface and VLAN of its observation
    and the time of the call; the entries that were there are kept. *)
Theorem history_gets_one_entry_per_observation
    now jobId devices whitelist job d result d' :
  MacScanRunner._processDevices now jobId devices whitelist job d
  = Returned result d' ->
  exists added,
    device_history d' = device_history d ++ added
    /\ Forall2 (recorded now jobId) devices added.
Proof.
  intro Hrun.
  destruct (processDevices_returned _ _ _ _ _ _ _ _ Hrun)
    as (vars & d1 & d2 & E1 & E2 & _ & E3 & _).
  destruct vars as [m nd w].
  destruct (loop_record _ _ _ _ _ _ _ _ _ _ _ E1) as ((hs & H1 & F) & _).
  cbn [MacScanRunner.knownDevices] in E2.
  destruct (markInactive_loop jobId m d1) as (d2' & E2' & _ & _ & H2).
  rewrite E2 in E2'. inversion E2'; subst d2'.
  destruct (applyRetentionPolicy_returns now jobId job d2)
    as (d3 & E3' & _ & H3 & _).
  rewrite E3 in E3'. inversion E3'; subst d3.
  exists hs. split; [|assumption]. now rewrite H3, H2.
Qed.

(** Two observations, two history entries. *)
Lemma history_gets_one_entry_per_observation_witness :
  exists result d' added,
    MacScanRunner._processDevices 100 "job-1"
      [Sample.printerMoved; Sample.laptop] ["aa:bb:cc:dd:ee:ff"]
      (Sample.job "forever" 1)
      (Sample.store "forever" [Sample.oldPrinter; Sample.foreign])
    = Returned result d'
    /\ device_history d' = added
    /\ Forall2 (recorded 100 "job-1") [Sample.printerMoved; Sample.laptop]
               added.
Proof.
  eexists. eexists.
  assert (E : MacScanRunner._processDevices 100 "job-1"
                [Sample.printerMoved; Sample.laptop] ["aa:bb:cc:dd:ee:ff"]
                (Sample.job "forever" 1)
                (Sample.store "forever" [Sample.oldPrinter; Sample.foreign])
              = Returned ?[result] ?[d'])
    by (vm_compute; reflexivity).
  destruct (history_gets_one_entry_per_observation 100 "job-1"
              [Sample.printerMoved; Sample.laptop] ["aa:bb:cc:dd:ee:ff"]
              (Sample.job "forever" 1)
              (Sample.store "forever" [Sample.oldPrinter; Sample.foreign])
              _ _ E) as (added & H & F).
  exists added. split; [exact E|]. split; [exact H|exact F].
Defined.

(** X7.  When [_processDevices] returns, the notifications it created
    are appended to the table, at most one per observation; each is
    unread and is about an observation of the batch (job, job name,
    MAC, host, interface); the [warnings] it reports is the number of
    created notifications of type warning; and a warning is only
    created for a MAC that is not on the whitelist. *)
Theorem warnings_counts_warning_notifications
    now jobId devices whitelist job d result d' :
  MacScanRunner._processDevices now jobId devices whitelist job d
  = Returned result d' ->
  exists added,
    notifications d' = notifications d ++ added
    /\ List.length added <= List.length devices
    /\ Result.warnings result = List.length (filter isWarning added)
    /\ Forall (fun n => exists o,
                   In o devices /\ concerns jobId job o n
                   /\ (isWarning n = true ->
                       MacScanRunner.has whitelist (mac_address o) = false))
              added.
Proof.
  intro Hrun.
  destruct (processDevices_returned _ _ _ _ _ _ _ _ Hrun)
    as (vars & d1 & d2 & E1 & E2 & _ & E3 & ->).
  destruct vars as [m nd w].
  destruct (loop_record _ _ _ _ _ _ _ _ _ _ _ E1)
    as (_ & (added & H1 & L & W & F)).
  cbn [MacScanRunner.knownDevices] in E2.
  destruct (markInactive_loop jobId m d1) as (d2' & E2' & _ & H2 & _).
  rewrite E2 in E2'. inversion E2'; subst d2'.
  destruct (applyRetentionPolicy_returns now jobId job d2)
    as (d3 & E3' & _ & _ & H3 & _).
  rewrite E3 in E3'. inversion E3'; subst d3.
  exists added. rewrite H3, H2. split; [assumption|]. split; [assumption|].
  split; [exact W|assumption].
Qed.

(** The laptop is not on the whitelist. *)
Lemma warnings_counts_warning_notifications_witness :
  exists result d' added,
    MacScanRunner._processDevices 100 "job-1"
      [Sample.printerMoved; Sample.laptop] ["aa:bb:cc:dd:ee:ff"]
      (Sample.job "forever" 1)
      (Sample.store "forever" [Sample.oldPrinter; Sample.foreign])
    = Returned result d'
    /\ notifications d' = added
    /\ Result.warnings result = List.length (filter isWarning added).
Proof.
  eexists. eexists.
  assert (E : MacScanRunner._processDevices 100 "job-1"
                [Sample.printerMoved; Sample.laptop] ["aa:bb:cc:dd:ee:ff"]
                (Sample.job "forever" 1)
                (Sample.store "forever" [Sample.oldPrinter; Sample.foreign])
              = Returned ?[result] ?[d'])
    by (vm_compute; reflexivity).
  destruct (warnings_counts_warning_notifications 100 "job-1"
              [Sample.printerMoved; Sample.laptop] ["aa:bb:cc:dd:ee:ff"]
              (Sample.job "forever" 1)
              (Sample.store "forever" [Sample.oldPrinter; Sample.foreign])
              _ _ E) as (added & H & _ & W & _).
  exists added. split; [exact E|]. split; [exact H|exact W].
Defined.

(** ** Other jobs, and the remove policy *)

Section KeepFacts.
Variable P : database -> Prop.

Lemma bind_keeps {A B : Type} (m : M A) (k : A -> M B) d :
  P (stateOf (m d)) ->
  (forall a d1, P d1 -> P (stateOf (k a d1))) ->
  P (stateOf (bind m k d)).
Proof.
  unfold bind. destruct (m d) as [a d1|e d1]; cbn [stateOf]; auto.
Qed.

Lemma forEach_keeps {A V : Type} (body : A -> V -> M V) :
  (forall x v d, P d -> P (stateOf (body x v d))) ->
  forall xs v d, P d -> P (stateOf (forEach body xs v d)).
Proof.
  intros Hbody xs. induction xs as [|x xs IH]; intros v d Hd; cbn [forEach].
  - assumption.
  - apply bind_keeps; auto.
Qed.
End KeepFacts.

Section OthersFacts.
Variables (now : Z) (jobId : string) (whitelist : list string)
          (job : Job.row).

Lemma filter_map_same {A : Type} (p : A -> bool) (g : A -> A) (l : list A) :
  (forall r, p (g r) = p r) -> (forall r, p r = true -> g r = r) ->
  filter p (map g l) = filter p l.
Proof.
  intros H1 H2. induction l as [|r l IH]; cbn; [reflexivity|].
  rewrite H1, IH. destruct (p r) eqn:E; [|reflexivity]. now rewrite H2.
Qed.

Lemma filter_filter_same {A : Type} (p q : A -> bool) (l : list A) :
  (forall r, p r = true -> q r = true) ->
  filter p (filter q l) = filter p l.
Proof.
  intro H. induction l as [|r l IH]; cbn; [reflexivity|].
  destruct (q r) eqn:Eq; cbn.
  - now rewrite IH.
  - rewrite IH. destruct (p r) eqn:Ep; [|reflexivity].
    apply H in Ep. congruence.
Qed.

Lemma others_update g d :
  (forall r, KnownDevice.job_id (g r) = KnownDevice.job_id r) ->
  (forall r, KnownDevice.job_id r <> jobId -> g r = r) ->
  othersDevices jobId (with_known_devices (map g (known_devices d)) d)
  = othersDevices jobId d.
Proof.
  intros H1 H2. unfold othersDevices. cbn [known_devices with_known_devices].
  apply filter_map_same.
  - intro r. now rewrite H1.
  - intros r Hr. apply H2. apply negb_true_iff in Hr.
    now apply String.eqb_neq.
Qed.

Lemma others_delete q d :
  (forall r, KnownDevice.job_id r <> jobId -> q r = true) ->
  othersDevices jobId (with_known_devices (filter q (known_devices d)) d)
  = othersDevices jobId d.
Proof.
  intro H. unfold othersDevices. cbn [known_devices with_known_devices].
  apply filter_filter_same. intros r Hr. apply H.
  apply negb_true_iff in Hr. now apply String.eqb_neq.
Qed.

Lemma sameDevice_other mac host r :
  KnownDevice.job_id r <> jobId -> Sql.sameDevice jobId mac host r = false.
Proof.
  intro H. unfold Sql.sameDevice. apply String.eqb_neq in H. now rewrite H.
Qed.

Lemma others_touch i v mac host d :
  othersDevices jobId
    (stateOf (Sql.updateKnownDevice now i v jobId mac host d))
  = othersDevices jobId d.
Proof.
  cbn [stateOf Sql.updateKnownDevice]. apply others_update.
  - intro r. now destruct (Sql.sameDevice _ _ _ r).
  - intros r Hr. now rewrite sameDevice_other.
Qed.

Lemma others_retire mac host d :
  othersDevices jobId (stateOf (Sql.updateInactive jobId mac host d))
  = othersDevices jobId d.
Proof.
  cbn [stateOf Sql.updateInactive]. apply others_update.
  - intro r. now destruct (Sql.sameDevice _ _ _ r).
  - intros r Hr. now rewrite sameDevice_other.
Qed.

Lemma others_insert id mac host i v w d :
  othersDevices jobId
    (stateOf (Sql.insertKnownDevice now id jobId mac host i v w d))
  = othersDevices jobId d.
Proof.
  unfold Sql.insertKnownDevice.
  destruct (existsb _ _); [reflexivity|].
  cbn [stateOf]. unfold othersDevices.
  cbn [known_devices with_known_devices]. rewrite filter_app.
  cbn [filter KnownDevice.job_id]. rewrite String.eqb_refl. cbn [negb].
  apply app_nil_r.
Qed.

Lemma others_retention d :
  othersDevices jobId
    (stateOf (MacScanRunner._applyRetentionPolicy now jobId job d))
  = othersDevices jobId d.
Proof.
  unfold MacScanRunner._applyRetentionPolicy.
  destruct (String.eqb _ "forever"); [reflexivity|].
  destruct (String.eqb _ "remove").
  { cbn [stateOf Sql.deleteByStatus]. apply others_delete.
    intros r Hr. apply String.eqb_neq in Hr. now rewrite Hr. }
  destruct (String.eqb _ "days"); [|reflexivity].
  cbn [stateOf Sql.deleteOlderThan]. apply others_delete.
  intros r Hr. apply String.eqb_neq in Hr. now rewrite Hr.
Qed.

Lemma others_step device vars d :
  othersDevices jobId
    (stateOf (MacScanRunner.processDevice now jobId whitelist job
                device vars d))
  = othersDevices jobId d.
Proof.
  unfold MacScanRunner.processDevice. apply bind_state.
  - destruct (JsMap.get _ _) as [existing|].
    + apply bind_state.
      * unfold MacScanRunner.notifyMoved.
        destruct (_ && _); reflexivity.
      * intros _ d1. apply bind_state; [apply others_touch|reflexivity].
    + apply bind_state; [reflexivity|]. intros id d1.
      apply bind_state; [apply others_insert|].
      intros _ d2. unfold MacScanRunner.notifyNewDevice.
      destruct (truthy _); [|reflexivity].
      destruct (_ && _); [reflexivity|].
      destruct (_ && _); reflexivity.
  - intros vars' d1. apply bind_state; [reflexivity|].
    intros id d2. apply bind_state; reflexivity.
Qed.
End OthersFacts.

(** X8.  [_processDevices], whether it returns or throws, leaves the
    known devices of every other job as they were and in the same
    order, and writes none of [jobs], [ssh_hosts], [job_whitelist] and
    [job_runs]. *)
Theorem reconciliation_leaves_other_jobs_alone
    now jobId devices whitelist job d :
  let d' := stateOf (MacScanRunner._processDevices now jobId devices
                       whitelist job d) in
  othersDevices jobId d' = othersDevices jobId d
  /\ jobs d' = jobs d /\ ssh_hosts d' = ssh_hosts d
  /\ job_whitelist d' = job_whitelist d /\ job_runs d' = job_runs d.
Proof.
  cbv zeta. split.
  - unfold MacScanRunner._processDevices. apply bind_state.
    + unfold MacScanRunner.reconcile. apply (bind_state (othersDevices jobId)).
      * apply forEach_state. intros. apply others_step.
      * intros vars d1. apply bind_state; [|reflexivity].
        apply forEach_state. intros. apply others_retire.
    + intros vars d1. apply bind_state; [|reflexivity].
      apply others_retention.
  - repeat split; now apply processDevices_frame.
Qed.

(** X9.  Under the retention policy [remove], after a call of
    [_processDevices] that returned, the known devices of the job are
    those of the batch: every row of the job is active and shows the
    interface and VLAN of the observation of the batch with its key,
    and every observation of the batch has a row. *)
Theorem remove_policy_leaves_the_batch_only
    now jobId devices whitelist job d result d' :
  validBatch devices = true ->
  validInventory jobId d = true ->
  Job.retention_policy job = "remove" ->
  MacScanRunner._processDevices now jobId devices whitelist job d
  = Returned result d' ->
  (forall r, In r (known_devices d') -> KnownDevice.job_id r = jobId ->
             exists o,
               In o devices /\ sameKey r o = true
               /\ KnownDevice.interface_name r = interface_name o
               /\ KnownDevice.vlan_id r = vlan_id o
               /\ KnownDevice.status r = "active")
  /\ (forall o, In o devices ->
                rowExists jobId o (known_devices d') = true).
Proof.
  intros Vb Vi Hp Hrun.
  destruct (processDevices_returned _ _ _ _ _ _ _ _ Hrun)
    as (vars & d1 & d2 & _ & _ & E & E3 & _).
  destruct (reconcile_settles now jobId whitelist job devices d vars d2
              Vb Vi E) as (S2 & V2).
  destruct (retention_keeps_settled now jobId job devices d2 d' E3 S2 V2)
    as ((_ & Hex & Hrows) & _).
  split; [|assumption]. intros r Hr Hj.
  rewrite Forall_forall in Hrows. pose proof (Hrows r Hr Hj) as Hs.
  destruct (findObservation devices r) as [o|] eqn:Ef.
  - destruct (findObservation_In _ _ _ Ef) as (Ho & Hk).
    exists o. now repeat split.
  - exfalso.
    destruct (applyRetentionPolicy_returns now jobId job d2)
      as (d3 & E3' & K & _).
    rewrite E3 in E3'. inversion E3'; subst d3. rewrite K in Hr.
    apply filter_In in Hr as (_ & Hd). apply negb_true_iff in Hd.
    unfold doomed in Hd. rewrite Hp in Hd. cbn in Hd.
    rewrite Hj, Hs, String.eqb_refl in Hd. discriminate.
Qed.

(** The camera was not seen: it is retired and removed. *)
Lemma remove_policy_leaves_the_batch_only_witness :
  exists result d',
    MacScanRunner._processDevices 100 "job-1"
      [Sample.printerMoved; Sample.laptop] ["aa:bb:cc:dd:ee:ff"]
      (Sample.job "remove" 1)
      (Sample.store "remove"
         [Sample.camera "active" 5; Sample.oldPrinter; Sample.foreign])
    = Returned result d'
    /\ rowExists "job-1" Sample.laptop (known_devices d') = true
    /\ forall r, In r (known_devices d') -> KnownDevice.job_id r = "job-1" ->
                 KnownDevice.mac_address r <> "0a:0b:0c:0d:0e:0f".
Proof.
  eexists. eexists.
  assert (E : MacScanRunner._processDevices 100 "job-1"
                [Sample.printerMoved; Sample.laptop] ["aa:bb:cc:dd:ee:ff"]
                (Sample.job "remove" 1)
                (Sample.store "remove"
                   [Sample.camera "active" 5; Sample.oldPrinter;
                    Sample.foreign])
              = Returned ?[result] ?[d'])
    by (vm_compute; reflexivity).
  destruct (remove_policy_leaves_the_batch_only 100 "job-1"
              [Sample.printerMoved; Sample.laptop] ["aa:bb:cc:dd:ee:ff"]
              (Sample.job "remove" 1)
              (Sample.store "remove"
                 [Sample.camera "active" 5; Sample.oldPrinter;
                  Sample.foreign])
              _ _ eq_refl eq_refl eq_refl E) as (Hrows & Hseen).
  split; [exact E|]. split.
  - apply Hseen. right. now left.
  - intros r Hr Hj Hmac.
    destruct (Hrows r Hr Hj) as (o & Ho & Hk & _).
    apply sameKey_true in Hk as (Hm & _). rewrite Hmac in Hm.
    destruct Ho as [<-|[<-|[]]]; discriminate.
Defined.

(** ** The whitelisted flag *)

Section FlagFacts.
Variables (jobId : string).

Lemma flag_flag a b r : JobRoutes.flag a (JobRoutes.flag b r) = JobRoutes.flag a r.
Proof. reflexivity. Qed.

Lemma updateStmt_loop whitelist :
  forall d,
    exists d',
      forEach (fun mac _ => JobRoutes.updateStmt jobId mac) whitelist tt d
      = Returned tt d'
      /\ known_devices d'
         = map (fun r => if String.eqb (KnownDevice.job_id r) jobId
                            && MacScanRunner.has whitelist
                                 (KnownDevice.mac_address r)
                         then JobRoutes.flag 1 r else r)
               (known_devices d)
      /\ jobs d' = jobs d /\ ssh_hosts d' = ssh_hosts d
      /\ job_whitelist d' = job_whitelist d /\ job_runs d' = job_runs d
      /\ notifications d' = notifications d
      /\ device_history d' = device_history d
      /\ next_uuid d' = next_uuid d.
Proof.
  induction whitelist as [|mac whitelist IH]; intro d.
  - exists d. split; [reflexivity|]. split; [|now repeat split].
    rewrite <- (map_id (known_devices d)) at 1. apply map_ext.
    intro r. cbn. now rewrite andb_false_r.
  - cbn [forEach]. unfold bind at 1. cbn [JobRoutes.updateStmt].
    destruct (IH (with_known_devices
                    (map (fun r => if String.eqb (KnownDevice.job_id r) jobId
                                      && String.eqb
                                           (KnownDevice.mac_address r) mac
                                   then JobRoutes.flag 1 r else r)
                         (known_devices d)) d))
      as (d' & E & K & rest).
    exists d'. split; [exact E|]. split; [|exact rest].
    rewrite K. cbn [known_devices with_known_devices]. rewrite map_map.
    apply map_ext. intro r. unfold MacScanRunner.has. cbn [existsb].
    destruct (String.eqb (KnownDevice.job_id r) jobId) eqn:Ej;
      cbn [andb]; [|now rewrite Ej].
    destruct (String.eqb (KnownDevice.mac_address r) mac) eqn:Em;
      cbn [orb KnownDevice.job_id KnownDevice.mac_address JobRoutes.flag].
    + rewrite Ej. cbn [andb].
      now destruct (existsb _ whitelist).
    + rewrite Ej. reflexivity.
Qed.

Lemma flagsFollow_known whitelist d d' :
  known_devices d' = known_devices d ->
  flagsFollow jobId whitelist d -> flagsFollow jobId whitelist d'.
Proof. unfold flagsFollow. now intros ->. Qed.

Lemma flagsFollow_map whitelist g d :
  (forall r, KnownDevice.job_id (g r) = KnownDevice.job_id r
             /\ KnownDevice.mac_address (g r) = KnownDevice.mac_address r
             /\ KnownDevice.whitelisted (g r) = KnownDevice.whitelisted r) ->
  flagsFollow jobId whitelist d ->
  flagsFollow jobId whitelist
    (with_known_devices (map g (known_devices d)) d).
Proof.
  intros Hg H r Hr Hj. cbn [known_devices with_known_devices] in Hr.
  apply in_map_iff in Hr as (r0 & <- & Hr0).
  destruct (Hg r0) as (G1 & G2 & G3). rewrite G1 in Hj.
  rewrite G2, G3. now apply H.
Qed.

Lemma flagsFollow_filter whitelist q d :
  flagsFollow jobId whitelist d ->
  flagsFollow jobId whitelist
    (with_known_devices (filter q (known_devices d)) d).
Proof.
  intros H r Hr Hj. cbn [known_devices with_known_devices] in Hr.
  apply filter_In in Hr as (Hr & _). now apply H.
Qed.
End FlagFacts.

Section FlagsKept.
Variables (now : Z) (jobId : string) (whitelist : list string)
          (job : Job.row).

Lemma flags_notification n d :
  flagsFollow jobId whitelist d ->
  flagsFollow jobId whitelist
    (stateOf (NotificationService.createNotification now n d)).
Proof. now apply flagsFollow_known. Qed.

Lemma flags_step device vars d :
  flagsFollow jobId whitelist d ->
  flagsFollow jobId whitelist
    (stateOf (MacScanRunner.processDevice now jobId whitelist job
                device vars d)).
Proof.
  intro Hd. unfold MacScanRunner.processDevice. apply bind_keeps.
  - destruct (JsMap.get _ _) as [existing|].
    + apply bind_keeps.
      * unfold MacScanRunner.notifyMoved.
        destruct (_ && _); [now apply flags_notification|assumption].
      * intros _ d1 H1. apply bind_keeps; [|auto].
        cbn [stateOf Sql.updateKnownDevice]. apply flagsFollow_map; [|assumption].
        intro r. now destruct (Sql.sameDevice _ _ _ r).
    + apply bind_keeps; [now apply flagsFollow_known with d|].
      intros id d1 H1. apply bind_keeps.
      * unfold Sql.insertKnownDevice.
        destruct (existsb _ _); [assumption|]. cbn [stateOf].
        intros r Hr Hj. cbn [known_devices with_known_devices] in Hr.
        apply in_app_or in Hr as [Hr|[<-|[]]]; [now apply H1|].
        reflexivity.
      * intros _ d2 H2. unfold MacScanRunner.notifyNewDevice.
        destruct (truthy _); [|assumption].
        destruct (_ && _).
        { apply bind_keeps; [now apply flags_notification|auto]. }
        destruct (_ && _); [|assumption].
        apply bind_keeps; [now apply flags_notification|auto].
  - intros vars' d1 H1. apply bind_keeps; [now apply flagsFollow_known with d1|].
    intros id d2 H2. apply bind_keeps; [now apply flagsFollow_known with d2|auto].
Qed.
End FlagsKept.

(** X10.  [updateDeviceWhitelistStatus] never throws.  Afterwards every
    known device of the job has [whitelisted] 1 when its MAC is in the
    given whitelist and 0 when it is not, its other columns as before;
    the devices of other jobs and the other tables are untouched. *)
Theorem whitelist_update_sets_every_flag jobId whitelist d :
  exists d',
    JobRoutes.updateDeviceWhitelistStatus jobId whitelist d = Returned tt d'
    /\ known_devices d' = map (reflag jobId whitelist) (known_devices d)
    /\ flagsFollow jobId whitelist d'
    /\ jobs d' = jobs d /\ ssh_hosts d' = ssh_hosts d
    /\ job_whitelist d' = job_whitelist d /\ job_runs d' = job_runs d
    /\ notifications d' = notifications d
    /\ device_history d' = device_history d.
Proof.
  unfold JobRoutes.updateDeviceWhitelistStatus.
  set (d0 := with_known_devices
               (map (fun r => if String.eqb (KnownDevice.job_id r) jobId
                              then JobRoutes.flag 0 r else r)
                    (known_devices d)) d).
  destruct (updateStmt_loop jobId whitelist d0)
    as (d' & E & K & J & S & W & R & N & H & _).
  assert (Hk : known_devices d'
               = map (reflag jobId whitelist) (known_devices d)).
  { rewrite K. unfold d0. cbn [known_devices with_known_devices].
    rewrite map_map. apply map_ext. intro r. unfold reflag.
    destruct (String.eqb (KnownDevice.job_id r) jobId) eqn:Ej.
    - cbn [KnownDevice.job_id KnownDevice.mac_address JobRoutes.flag].
      rewrite Ej. cbn [andb].
      now destruct (MacScanRunner.has whitelist _).
    - now rewrite Ej. }
  exists d'. split.
  - unfold bind. cbn [JobRoutes.resetStmt]. fold d0.
    destruct whitelist as [|mac whitelist]; [|exact E].
    cbn in E. exact E.
  - split; [exact Hk|]. split; [|now repeat split].
    intros r Hr Hj. rewrite Hk in Hr.
    apply in_map_iff in Hr as (r0 & <- & _). unfold reflag in *.
    destruct (String.eqb (KnownDevice.job_id r0) jobId) eqn:Ej.
    + reflexivity.
    + apply String.eqb_neq in Ej. contradiction.
Qed.

(** X11.  If the [whitelisted] flag of every known device of the job
    agrees with the whitelist, it still does after [_processDevices]
    has run with that whitelist, whether it returned or threw: a new
    row gets the flag of its MAC, and the updates, the inactivation and
    the retention policy leave the flags alone. *)
Theorem reconciliation_keeps_whitelist_flags
    now jobId devices whitelist job d :
  flagsFollow jobId whitelist d ->
  flagsFollow jobId whitelist
    (stateOf (MacScanRunner._processDevices now jobId devices whitelist
                job d)).
Proof.
  intro Hd. unfold MacScanRunner._processDevices. apply bind_keeps.
  - unfold MacScanRunner.reconcile.
    apply (bind_keeps (flagsFollow jobId whitelist)).
    + apply forEach_keeps; [|assumption]. intros. now apply flags_step.
    + intros vars d1 H1. apply bind_keeps; [|auto].
      apply forEach_keeps; [|assumption]. intros entry u d2 H2.
      cbn [stateOf MacScanRunner.markInactive Sql.updateInactive].
      apply flagsFollow_map; [|assumption].
      intro r. now destruct (Sql.sameDevice _ _ _ r).
  - intros vars d1 H1. apply bind_keeps; [|auto].
    unfold MacScanRunner._applyRetentionPolicy.
    destruct (String.eqb _ "forever"); [assumption|].
    destruct (String.eqb _ "remove");
      [now apply flagsFollow_filter|].
    destruct (String.eqb _ "days"); [now apply flagsFollow_filter|assumption].
Qed.

(** The camera is whitelisted and flagged, the printer is neither. *)
Lemma reconciliation_keeps_whitelist_flags_witness :
  flagsFollow "job-1" ["0a:0b:0c:0d:0e:0f"]
    (stateOf (MacScanRunner._processDevices 100 "job-1"
                [Sample.printerMoved; Sample.laptop] ["0a:0b:0c:0d:0e:0f"]
                (Sample.job "forever" 1)
                (Sample.store "forever"
                   [Sample.camera "active" 5; Sample.oldPrinter;
                    Sample.foreign]))).
Proof.
  apply reconciliation_keeps_whitelist_flags.
  intros r [<-|[<-|[<-|[]]]] Hj; try discriminate; reflexivity.
Defined.

(** ** Retention at its edges, and the run record *)

(** X12.  [_applyRetentionPolicy] at the edges of its policies.  Under
    [remove] it deletes exactly the inactive devices of the job,
    whatever their age.  Under any policy but [remove] and [days]
    ([forever], or an unknown word) it changes nothing at all.  Under
    [days] with a negative [retention_days] it deletes nothing, since
    the date it compares with is NULL; with [retention_days] 0 it
    deletes the inactive devices of the job last seen before now. *)
Theorem retention_policies_at_their_edges now jobId job d :
  let d' := stateOf (MacScanRunner._applyRetentionPolicy now jobId job d) in
  (Job.retention_policy job = "remove" ->
   known_devices d'
   = filter (fun r => negb (String.eqb (KnownDevice.job_id r) jobId
                            && String.eqb (KnownDevice.status r) "inactive"))
            (known_devices d))
  /\ (Job.retention_policy job <> "remove" ->
      Job.retention_policy job <> "days" -> d' = d)
  /\ (Job.retention_policy job = "days" ->
      (Job.retention_days job < 0)%Z ->
      known_devices d' = known_devices d)
  /\ (Job.retention_policy job = "days" ->
      Job.retention_days job = 0%Z ->
      known_devices d'
      = filter (fun r => negb (String.eqb (KnownDevice.job_id r) jobId
                               && String.eqb (KnownDevice.status r) "inactive"
                               && (KnownDevice.last_seen r <? now)%Z))
               (known_devices d)).
Proof.
  cbv zeta. unfold MacScanRunner._applyRetentionPolicy.
  split; [|split; [|split]].
  - intros ->. reflexivity.
  - intros H1 H2. apply String.eqb_neq in H1, H2. rewrite H1, H2.
    now destruct (String.eqb _ "forever").
  - intros -> Hn. cbn [String.eqb Ascii.eqb Bool.eqb stateOf].
    cbn [Sql.deleteOlderThan stateOf known_devices with_known_devices].
    unfold Sql.datetimeDaysAgo. apply Z.ltb_lt in Hn. rewrite Hn.
    cbn [Sql.sqlLt]. rewrite <- (filter_all (known_devices d)) at 2.
    apply filter_ext. intro r. now rewrite andb_false_r.
  - intros -> Hz. cbn [String.eqb Ascii.eqb Bool.eqb stateOf].
    cbn [Sql.deleteOlderThan stateOf known_devices with_known_devices].
    unfold Sql.datetimeDaysAgo. rewrite Hz. cbn [Z.ltb Z.compare Sql.sqlLt].
    apply filter_ext. intro r. now rewrite Z.mul_0_l, Z.sub_0_r.
Qed.

(** Minus five days: the old inactive camera stays. *)
Lemma retention_policies_at_their_edges_witness :
  known_devices
    (stateOf (MacScanRunner._applyRetentionPolicy 8640000 "job-1"
                Sample.backwards
                (Sample.store "days" [Sample.camera "inactive" 5])))
  = [Sample.camera "inactive" 5].
Proof.
  destruct (retention_policies_at_their_edges 8640000 "job-1"
              Sample.backwards
              (Sample.store "days" [Sample.camera "inactive" 5]))
    as (_ & _ & H & _).
  exact (H eq_refl eq_refl).
Defined.

Section RunFacts.
Variables (env : environment) (jobId : string) (job : Job.row).

(** The store the statements before the [try] leave. *)
Lemma startRun_returns n d :
  exists d0,
    MacScanRunner.startRun env jobId n d = Returned (next_uuid d) d0
    /\ job_runs d0
       = job_runs d ++ [JobRun.mk (next_uuid d) jobId "running" n 0 0 0
                                  (startTime env / 1000)%Z
                                  None None None None]
    /\ jobs d0
       = map (fun j => if String.eqb (Job.id j) jobId
                       then Job.with_last_run (startTime env / 1000)%Z
                              (Job.with_status "running"
                                 (startTime env / 1000)%Z j)
                       else j) (jobs d)
    /\ known_devices d0 = known_devices d
    /\ notifications d0 = notifications d
    /\ device_history d0 = device_history d
    /\ ssh_hosts d0 = ssh_hosts d
    /\ job_whitelist d0 = job_whitelist d.
Proof. eexists. split; [reflexivity|]. now repeat split. Qed.

(** What the [try] and [catch] blocks make of [jobs] and [job_runs]. *)
Lemma tryRun_outcome hosts whitelist runId d0 :
  let o := MacScanRunner.tryCatch
             (MacScanRunner.runJobBody env jobId job hosts whitelist runId)
             (MacScanRunner.runJobCatch env jobId runId) d0 in
  jobs (stateOf o)
  = map (fun j => if String.eqb (Job.id j) jobId
                  then Job.with_status "active" (finishTime env / 1000)%Z j
                  else j) (jobs d0)
  /\ exists g,
       job_runs (stateOf o) = map g (job_runs d0)
       /\ forall r,
            (JobRun.id r <> runId -> g r = r)
            /\ (JobRun.id r = runId ->
                JobRun.id (g r) = JobRun.id r
                /\ JobRun.job_id (g r) = JobRun.job_id r
                /\ JobRun.hosts_scanned (g r) = JobRun.hosts_scanned r
                /\ JobRun.started_at (g r) = JobRun.started_at r
                /\ JobRun.finished_at (g r) = Some (finishTime env / 1000)%Z
                /\ match o with
                   | Returned _ _ =>
                       JobRun.status (g r) = "completed"
                       /\ JobRun.error_message (g r) = JobRun.error_message r
                   | Thrown message _ =>
                       JobRun.status (g r) = "failed"
                       /\ JobRun.error_message (g r) = Some message
                   end).
Proof.
  cbv zeta. unfold MacScanRunner.tryCatch, MacScanRunner.runJobBody.
  destruct (MacScanRunner.successfulHosts _ =? 0).
  - cbv [throw MacScanRunner.runJobCatch bind Sql.failJobRun
         Sql.updateJobStatus stateOf].
    cbn [jobs job_runs with_jobs with_job_runs].
    split; [reflexivity|]. eexists. split; [reflexivity|].
    intro r. split; intro Hr.
    + apply Nat.eqb_neq in Hr. now rewrite Hr.
    + apply Nat.eqb_eq in Hr. rewrite Hr. now repeat split.
  - pose proof (processDevices_frame jobs (fun _ _ => eq_refl)
                  (fun _ _ => eq_refl) (fun _ _ => eq_refl)
                  (fun _ _ => eq_refl) (finishTime env / 1000)%Z jobId
                  (MacScanRunner.allDevices
                     (MacScanRunner.scanHosts env job hosts))
                  whitelist job d0) as Fj.
    pose proof (processDevices_frame job_runs (fun _ _ => eq_refl)
                  (fun _ _ => eq_refl) (fun _ _ => eq_refl)
                  (fun _ _ => eq_refl) (finishTime env / 1000)%Z jobId
                  (MacScanRunner.allDevices
                     (MacScanRunner.scanHosts env job hosts))
                  whitelist job d0) as Fr.
    cbv [bind Sql.completeJobRun Sql.updateJobStatus].
    destruct (MacScanRunner._processDevices _ jobId _ whitelist job d0)
      as [result d1|message d1]; cbn [stateOf] in Fj, Fr.
    + cbv [bind Sql.completeJobRun Sql.updateJobStatus stateOf].
      cbn [jobs job_runs with_jobs with_job_runs]. rewrite Fj, Fr.
      split; [reflexivity|]. eexists. split; [reflexivity|].
      intro r. split; intro Hr.
      * apply Nat.eqb_neq in Hr. now rewrite Hr.
      * apply Nat.eqb_eq in Hr. rewrite Hr. now repeat split.
    + cbv [MacScanRunner.runJobCatch bind Sql.failJobRun
           Sql.updateJobStatus throw stateOf].
      cbn [jobs job_runs with_jobs with_job_runs]. rewrite Fj, Fr.
      split; [reflexivity|]. eexists. split; [reflexivity|].
      intro r. split; intro Hr.
      * apply Nat.eqb_neq in Hr. now rewrite Hr.
      * apply Nat.eqb_eq in Hr. rewrite Hr. now repeat split.
Qed.

(** [runJob] once its three checks are passed. *)
Lemma runJob_started this :
  JsMap.has jobId (MacScanRunner.runningJobs this) = false ->
  Sql.selectJob jobId "active" (MacScanRunner.db this) = Some job ->
  Sql.selectEnabledHosts jobId (MacScanRunner.db this) <> [] ->
  exists d0,
    MacScanRunner.startRun env jobId
      (List.length (Sql.selectEnabledHosts jobId (MacScanRunner.db this)))
      (MacScanRunner.db this)
    = Returned (next_uuid (MacScanRunner.db this)) d0
    /\ MacScanRunner.runJob env jobId this
       = match MacScanRunner.tryCatch
                 (MacScanRunner.runJobBody env jobId job
                    (Sql.selectEnabledHosts jobId (MacScanRunner.db this))
                    (Sql.selectWhitelist jobId (MacScanRunner.db this))
                    (next_uuid (MacScanRunner.db this)))
                 (MacScanRunner.runJobCatch env jobId
                    (next_uuid (MacScanRunner.db this))) d0 with
         | Returned _ d' =>
             Returned tt
               (MacScanRunner.mkRunner d'
                  (JsMap.delete jobId
                     (JsMap.set jobId
                        (next_uuid (MacScanRunner.db this), startTime env)
                        (MacScanRunner.runningJobs this))))
         | Thrown message d' =>
             Thrown message
               (MacScanRunner.mkRunner d'
                  (JsMap.delete jobId
                     (JsMap.set jobId
                        (next_uuid (MacScanRunner.db this), startTime env)
                        (MacScanRunner.runningJobs this))))
         end.
Proof.
  intros Hfree Hjob Hhosts.
  destruct (startRun_returns
              (List.length
                 (Sql.selectEnabledHosts jobId (MacScanRunner.db this)))
              (MacScanRunner.db this)) as (d0 & E0 & _).
  exists d0. split; [exact E0|].
  unfold MacScanRunner.runJob. rewrite Hfree, Hjob.
  destruct (Sql.selectEnabledHosts jobId (MacScanRunner.db this))
    as [|host hosts] eqn:Eh; [contradiction|].
  cbn [List.length Nat.eqb]. cbn [List.length] in E0. rewrite E0.
  reflexivity.
Qed.

Lemma keys_has {V : Type} (k : string) (m : list (string * V)) :
  JsMap.has k m = false -> ~ In k (JsMap.keys m).
Proof.
  unfold JsMap.has, JsMap.keys.
  induction m as [|[k' v] m IH]; cbn; [tauto|].
  destruct (String.eqb k k') eqn:E; [discriminate|].
  intros H [Hk|Hk]; [|now apply IH].
  apply String.eqb_neq in E. congruence.
Qed.

Lemma delete_set_other (k : string) v (m : list (string * (nat * Z))) k0 :
  k0 <> k ->
  JsMap.get k0 (JsMap.delete k (JsMap.set k v m)) = JsMap.get k0 m.
Proof.
  intro H. rewrite get_delete_other by assumption.
  now apply get_set_other.
Qed.
End RunFacts.

(** X13.  Once [runJob] is past its three checks (the job is not
    running, an active job has this id, it has an enabled host) and the
    identifier drawn for the run is a new one, then whatever happens
    next exactly one row is appended to [job_runs], for this job, with
    the number of enabled hosts and a finish time: completed when
    [runJob] returns, failed with the message thrown when it throws.
    Either way the job is no longer in [runningJobs] ([isJobRunning]
    is false and [getRunningJobs] does not list it), the entries of
    other jobs in [runningJobs] are as before, and the status of the
    job is active again. *)
Theorem started_run_is_always_finalized env jobId job this :
  JsMap.has jobId (MacScanRunner.runningJobs this) = false ->
  Sql.selectJob jobId "active" (MacScanRunner.db this) = Some job ->
  Sql.selectEnabledHosts jobId (MacScanRunner.db this) <> [] ->
  (forall r, In r (job_runs (MacScanRunner.db this)) ->
             JobRun.id r <> next_uuid (MacScanRunner.db this)) ->
  exists this' run,
    job_runs (MacScanRunner.db this')
    = job_runs (MacScanRunner.db this) ++ [run]
    /\ JobRun.id run = next_uuid (MacScanRunner.db this)
    /\ JobRun.job_id run = jobId
    /\ JobRun.hosts_scanned run
       = List.length (Sql.selectEnabledHosts jobId (MacScanRunner.db this))
    /\ JobRun.finished_at run = Some (finishTime env / 1000)%Z
    /\ ((MacScanRunner.runJob env jobId this = Returned tt this'
         /\ JobRun.status run = "completed")
        \/ (exists message,
               MacScanRunner.runJob env jobId this = Thrown message this'
               /\ JobRun.status run = "failed"
               /\ JobRun.error_message run = Some message))
    /\ MacScanRunner.isJobRunning jobId this' = false
    /\ ~ In jobId (MacScanRunner.getRunningJobs this')
    /\ (forall other, other <> jobId ->
                      JsMap.get other (MacScanRunner.runningJobs this')
                      = JsMap.get other (MacScanRunner.runningJobs this))
    /\ (forall j, In j (jobs (MacScanRunner.db this')) ->
                  Job.id j = jobId -> Job.status j = "active").
Proof.
  intros Hfree Hjob Hhosts Hfresh.
  destruct (runJob_started env jobId job this Hfree Hjob Hhosts)
    as (d0 & E0 & Erun).
  destruct (startRun_returns env jobId
              (List.length
                 (Sql.selectEnabledHosts jobId (MacScanRunner.db this)))
              (MacScanRunner.db this)) as (d0' & E0' & R0 & J0 & _).
  rewrite E0 in E0'. inversion E0'; subst d0'. clear E0'.
  pose proof (tryRun_outcome env jobId job
                (Sql.selectEnabledHosts jobId (MacScanRunner.db this))
                (Sql.selectWhitelist jobId (MacScanRunner.db this))
                (next_uuid (MacScanRunner.db this)) d0) as (Hj & g & Hr & Hg).
  set (running := JsMap.delete jobId _) in Erun.
  assert (Hruns : forall d',
             job_runs d' = map g (job_runs d0) ->
             job_runs d'
             = job_runs (MacScanRunner.db this)
               ++ [g (JobRun.mk (next_uuid (MacScanRunner.db this)) jobId
                        "running"
                        (List.length
                           (Sql.selectEnabledHosts jobId
                              (MacScanRunner.db this)))
                        0 0 0 (startTime env / 1000)%Z
                        None None None None)]).
  { intros d' ->. rewrite R0, map_app. cbn [map]. f_equal.
    rewrite <- (map_id (job_runs (MacScanRunner.db this))) at 2.
    apply map_ext_in. intros r Hin. apply (proj1 (Hg r)).
    now apply Hfresh. }
  assert (Hactive : forall d',
             jobs d'
             = map (fun j => if String.eqb (Job.id j) jobId
                             then Job.with_status "active"
                                    (finishTime env / 1000)%Z j
                             else j) (jobs d0) ->
             forall j, In j (jobs d') -> Job.id j = jobId ->
                       Job.status j = "active").
  { intros d' -> j Hin Hid. apply in_map_iff in Hin as (j0 & <- & _).
    destruct (String.eqb (Job.id j0) jobId) eqn:E; [reflexivity|].
    apply String.eqb_neq in E. contradiction. }
  destruct (Hg (JobRun.mk (next_uuid (MacScanRunner.db this)) jobId
                  "running"
                  (List.length
                     (Sql.selectEnabledHosts jobId (MacScanRunner.db this)))
                  0 0 0 (startTime env / 1000)%Z None None None None))
    as (_ & Hrun).
  specialize (Hrun eq_refl).
  destruct Hrun as (G1 & G2 & G3 & G4 & G5 & G6).
  cbn [JobRun.id JobRun.job_id JobRun.hosts_scanned] in G1, G2, G3.
  destruct (MacScanRunner.tryCatch _ _ d0) as [u d'|message d'];
    cbn [stateOf] in Hj, Hr.
  - exists (MacScanRunner.mkRunner d' running). eexists.
    cbn [MacScanRunner.db]. split; [apply (Hruns d' Hr)|].
    split; [exact G1|]. split; [exact G2|]. split; [exact G3|].
    split; [exact G5|]. split.
    { left. split; [exact Erun|]. now destruct G6. }
    assert (Hfree' : JsMap.has jobId running = false)
      by (unfold JsMap.has, running; now rewrite get_delete_same).
    unfold MacScanRunner.isJobRunning, MacScanRunner.getRunningJobs.
    cbn [MacScanRunner.db MacScanRunner.runningJobs].
    split; [exact Hfree'|]. split; [now apply keys_has|].
    split; [intros; now apply delete_set_other|].
    now apply Hactive.
  - exists (MacScanRunner.mkRunner d' running). eexists.
    cbn [MacScanRunner.db]. split; [apply (Hruns d' Hr)|].
    split; [exact G1|]. split; [exact G2|]. split; [exact G3|].
    split; [exact G5|]. split.
    { right. exists message. split; [exact Erun|]. exact G6. }
    assert (Hfree' : JsMap.has jobId running = false)
      by (unfold JsMap.has, running; now rewrite get_delete_same).
    unfold MacScanRunner.isJobRunning, MacScanRunner.getRunningJobs.
    cbn [MacScanRunner.db MacScanRunner.runningJobs].
    split; [exact Hfree'|]. split; [now apply keys_has|].
    split; [intros; now apply delete_set_other|].
    now apply Hactive.
Qed.

(** A run that fails on a repeated key while another job is running. *)
Lemma started_run_is_always_finalized_witness :
  exists this',
    stateOf (MacScanRunner.runJob (Sample.liveNetwork Sample.trunkTable)
               "job-1"
               (MacScanRunner.mkRunner
                  (Sample.store "remove" [Sample.camera "active" 5])
                  [("job-7", (3, 0%Z))]))
    = this'
    /\ MacScanRunner.isJobRunning "job-1" this' = false
    /\ MacScanRunner.isJobRunning "job-7" this' = true
    /\ List.length (job_runs (MacScanRunner.db this')) = 1.
Proof.
  destruct (started_run_is_always_finalized
              (Sample.liveNetwork Sample.trunkTable) "job-1"
              (Sample.job "remove" 1)
              (MacScanRunner.mkRunner
                 (Sample.store "remove" [Sample.camera "active" 5])
                 [("job-7", (3, 0%Z))])
              eq_refl eq_refl)
    as (this' & run & Hruns & _ & _ & _ & _ & Hout & Hfree & _ & Hothers & _).
  - discriminate.
  - intros r [].
  - exists this'. split.
    + destruct Hout as [(E & _)|(message & E & _)]; now rewrite E.
    + split; [exact Hfree|]. split.
      * unfold MacScanRunner.isJobRunning, JsMap.has.
        rewrite Hothers by discriminate. reflexivity.
      * rewrite Hruns. reflexivity.
Defined.

(** X14.  [runJob] throws and leaves the database and [runningJobs]
    exactly as they were if and only if one of its three checks fails:
    the job is already running, or no active job has this id, or the
    job has no enabled host.  A run that goes past the checks always
    leaves a trace. *)
Theorem run_is_refused_without_a_trace env jobId this :
  (JsMap.has jobId (MacScanRunner.runningJobs this) = true
   \/ Sql.selectJob jobId "active" (MacScanRunner.db this) = None
   \/ Sql.selectEnabledHosts jobId (MacScanRunner.db this) = [])
  <-> (exists message,
          MacScanRunner.runJob env jobId this = Thrown message this).
Proof.
  split.
  - intro H. unfold MacScanRunner.runJob.
    destruct (JsMap.has jobId _); [now eexists|].
    destruct (Sql.selectJob jobId "active" _) as [job|]; [|now eexists].
    destruct H as [H|[H|H]]; try discriminate.
    rewrite H. now eexists.
  - intros (message & E).
    destruct (JsMap.has jobId (MacScanRunner.runningJobs this)) eqn:Hfree;
      [now left|].
    destruct (Sql.selectJob jobId "active" (MacScanRunner.db this))
      as [job|] eqn:Hjob; [|now right; left].
    destruct (Sql.selectEnabledHosts jobId (MacScanRunner.db this))
      as [|host hosts] eqn:Hh; [now right; right|].
    exfalso.
    assert (Hhosts : Sql.selectEnabledHosts jobId (MacScanRunner.db this)
                     <> []) by (rewrite Hh; discriminate).
    destruct (runJob_started env jobId job this Hfree Hjob Hhosts)
      as (d0 & E0 & Erun).
    destruct (startRun_returns env jobId
                (List.length
                   (Sql.selectEnabledHosts jobId (MacScanRunner.db this)))
                (MacScanRunner.db this)) as (d0' & E0' & R0 & _).
    rewrite E0 in E0'. inversion E0'; subst d0'. clear E0'.
    pose proof (tryRun_outcome env jobId job
                  (Sql.selectEnabledHosts jobId (MacScanRunner.db this))
                  (Sql.selectWhitelist jobId (MacScanRunner.db this))
                  (next_uuid (MacScanRunner.db this)) d0)
      as (_ & g & Hr & _).
    rewrite E in Erun.
    destruct (MacScanRunner.tryCatch _ _ d0) as [u d'|message' d'];
      [discriminate|].
    cbn [stateOf] in Hr. inversion Erun as [[Em Et]].
    assert (L : List.length (job_runs (MacScanRunner.db this))
                = List.length (job_runs d')) by (rewrite Et at 1; reflexivity).
    rewrite Hr, length_map, R0, length_app in L. cbn in L. lia.
Qed.

(** The job is already running. *)
Lemma run_is_refused_without_a_trace_witness :
  exists message,
    MacScanRunner.runJob Sample.deadNetwork "job-1"
      (MacScanRunner.mkRunner (Sample.store "remove" [])
                              [("job-1", (3, 0%Z))])
    = Thrown message
        (MacScanRunner.mkRunner (Sample.store "remove" [])
                                [("job-1", (3, 0%Z))]).
Proof.
  apply (proj1 (run_is_refused_without_a_trace Sample.deadNetwork "job-1"
                  (MacScanRunner.mkRunner (Sample.store "remove" [])
                                          [("job-1", (3, 0%Z))]))).
  left. reflexivity.
Defined.

Lemma validInventory_known jobId d d' :
  known_devices d' = known_devices d ->
  validInventory jobId d' = validInventory jobId d.
Proof.
  intro H. unfold validInventory, Sql.selectKnownDevices. now rewrite H.
Qed.

(** X15.  A run in which at least one enabled host succeeds returns,
    provided the job is not running and is active, the MACs of its
    inventory are parser-checked ones, and no (MAC, host) key comes
    twice in the batch.  The run is recorded as completed, with
    [hosts_scanned] the number of enabled hosts (the failed ones
    included), [devices_found] the size of the batch and [new_devices]
    the number of observations that had no known device; and every
    observed device has a row afterwards. *)
Theorem run_with_a_good_host_completes env jobId job this :
  let hosts := Sql.selectEnabledHosts jobId (MacScanRunner.db this) in
  let batch := flat_map (devicesOf env job) hosts in
  JsMap.has jobId (MacScanRunner.runningJobs this) = false ->
  Sql.selectJob jobId "active" (MacScanRunner.db this) = Some job ->
  (exists host, In host hosts /\ hostFails env job host = false) ->
  validInventory jobId (MacScanRunner.db this) = true ->
  NoDup (map pairOf batch) ->
  exists this' run,
    MacScanRunner.runJob env jobId this = Returned tt this'
    /\ In run (job_runs (MacScanRunner.db this'))
    /\ JobRun.id run = next_uuid (MacScanRunner.db this)
    /\ JobRun.status run = "completed"
    /\ JobRun.hosts_scanned run = List.length hosts
    /\ JobRun.devices_found run = List.length batch
    /\ JobRun.new_devices run
       = List.length
           (filter (unseen jobId (known_devices (MacScanRunner.db this)))
                   batch)
    /\ (forall o, In o batch ->
                  rowExists jobId o (known_devices (MacScanRunner.db this'))
                  = true).
Proof.
  intros hosts batch Hfree Hjob (good & Hgood & Hok) Vi ND.
  assert (Hhosts : hosts <> []) by (intro E; rewrite E in Hgood; contradiction).
  destruct (runJob_started env jobId job this Hfree Hjob Hhosts)
    as (d0 & E0 & Erun).
  destruct (startRun_returns env jobId (List.length hosts)
              (MacScanRunner.db this)) as (d0' & E0' & R0 & _ & K0 & _).
  fold hosts in E0. rewrite E0 in E0'. inversion E0'; subst d0'. clear E0'.
  fold hosts in Erun.
  set (now := (finishTime env / 1000)%Z).
  set (whitelist := Sql.selectWhitelist jobId (MacScanRunner.db this)) in *.
  assert (Vb : validBatch batch = true) by apply batchOf_valid.
  assert (Vi0 : validInventory jobId d0 = true)
    by now rewrite (validInventory_known jobId _ _ K0).
  destruct (reconcile_returns now jobId whitelist job batch d0 Vb Vi0 ND)
    as (vars & d2 & Er).
  pose proof (processDevices_reconcile now jobId batch whitelist job d0)
    as Hp.
  rewrite Er in Hp. destruct Hp as (d3 & Ep & E3).
  destruct (reconcile_settles now jobId whitelist job batch d0 vars d2
              Vb Vi0 Er) as (S2 & V2).
  destruct (retention_keeps_settled now jobId job batch d2 d3 E3 S2 V2)
    as ((_ & Hex & _) & _).
  pose proof (processDevices_frame job_runs (fun _ _ => eq_refl)
                (fun _ _ => eq_refl) (fun _ _ => eq_refl)
                (fun _ _ => eq_refl) now jobId batch whitelist job d0) as Fr.
  rewrite Ep in Fr. cbn [stateOf] in Fr.
  assert (Hs : (MacScanRunner.successfulHosts
                  (MacScanRunner.scanHosts env job hosts) =? 0) = false).
  { apply Nat.eqb_neq. rewrite scanHosts_successful.
    assert (Hin : In good (filter (fun h => negb (hostFails env job h)) hosts)).
    { apply filter_In. split; [assumption|]. now rewrite Hok. }
    destruct (filter _ hosts); [contradiction|discriminate]. }
  assert (Et : MacScanRunner.tryCatch
                 (MacScanRunner.runJobBody env jobId job hosts whitelist
                    (next_uuid (MacScanRunner.db this)))
                 (MacScanRunner.runJobCatch env jobId
                    (next_uuid (MacScanRunner.db this))) d0
               = Returned tt
                   (stateOf
                      ((Sql.completeJobRun now
                          ((finishTime env - startTime env) / 1000)%Z
                          (List.length batch) (MacScanRunner.newDevices vars)
                          (MacScanRunner.warnings vars)
                          (Js.join nl
                             (MacScanRunner.debugInfo
                                (MacScanRunner.scanHosts env job hosts)))
                          (next_uuid (MacScanRunner.db this)) ;;;
                        Sql.updateJobStatus now "active" jobId) d3))).
  { unfold MacScanRunner.tryCatch, MacScanRunner.runJobBody.
    rewrite Hs, scanHosts_batch. fold now. fold batch.
    unfold batchOf. fold batch.
    rewrite (bind_Returned _ _ _ _ _ Ep). reflexivity. }
  rewrite Et in Erun.
  eexists. eexists. split; [exact Erun|].
  cbn [MacScanRunner.db stateOf bind Sql.completeJobRun Sql.updateJobStatus
       job_runs known_devices with_jobs with_job_runs].
  rewrite Fr, R0, map_app. cbn [map JobRun.id]. rewrite Nat.eqb_refl.
  split; [apply in_or_app; right; now left|].
  cbn [JobRun.id JobRun.status JobRun.hosts_scanned JobRun.devices_found
       JobRun.new_devices].
  split; [reflexivity|]. split; [reflexivity|]. split; [reflexivity|].
  split; [reflexivity|]. split; [|exact Hex].
  destruct (processDevices_returned now jobId whitelist job batch d0 _ d3 Ep)
    as (vars' & d1 & d2' & E1 & _ & _ & _ & Eres).
  inversion Eres as [Hnew].
  rewrite Hnew.
  rewrite (loop_counts_new _ _ _ _ _ _ _ _ _ _ _ (NoDup_keys _ Vb ND) E1).
  cbn [Nat.add]. rewrite <- K0. apply f_equal. apply filter_ext_in.
  intros o Ho. apply noEntry_unseen; [assumption|].
  exact (validBatch_In _ _ Vb Ho).
Qed.

(** One switch times out, the other lists two devices. *)
Lemma run_with_a_good_host_completes_witness :
  exists this' run,
    MacScanRunner.runJob (Sample.halfNetwork Sample.table) "job-1"
      (MacScanRunner.mkRunner
         (Sample.twoSwitches [Sample.camera "active" 5]) [])
    = Returned tt this'
    /\ In run (job_runs (MacScanRunner.db this'))
    /\ JobRun.status run = "completed"
    /\ JobRun.hosts_scanned run = 2
    /\ JobRun.devices_found run = 2
    /\ JobRun.new_devices run = 2.
Proof.
  destruct (run_with_a_good_host_completes
              (Sample.halfNetwork Sample.table) "job-1"
              (Sample.job "remove" 1)
              (MacScanRunner.mkRunner
                 (Sample.twoSwitches [Sample.camera "active" 5]) [])
              eq_refl eq_refl)
    as (this' & run & E & Hin & _ & Hs & Hh & Hd & Hn & _).
  - exists Sample.switch. split; [right; now left|reflexivity].
  - reflexivity.
  - vm_compute. repeat constructor; cbn; intuition discriminate.
  - exists this', run. split; [exact E|]. split; [exact Hin|].
    split; [exact Hs|]. split; [exact Hh|]. split; [exact Hd|exact Hn].
Defined.

(** ** CryptoService *)

Section MaskFacts.

Lemma length_append (a b : string) :
  String.length (a ++ b) = String.length a + String.length b.
Proof. induction a as [|c a IH]; cbn; [reflexivity|now rewrite IH]. Qed.

Lemma length_repeat_star n : String.length (Js.repeat "*" n) = n.
Proof. induction n as [|n IH]; cbn; [reflexivity|now rewrite IH]. Qed.

Lemma get_repeat_star n i :
  i < n -> String.get i (Js.repeat "*" n) = Some "*"%char.
Proof.
  revert i. induction n as [|n IH]; intros i Hi; [lia|].
  destruct i as [|i]; cbn; [reflexivity|]. apply IH. lia.
Qed.

Lemma get_append_left (a b : string) i :
  i < String.length a -> String.get i (a ++ b) = String.get i a.
Proof.
  revert i. induction a as [|c a IH]; intros i Hi; cbn in *; [lia|].
  destruct i as [|i]; [reflexivity|]. apply IH. lia.
Qed.

Lemma get_append_right (a b : string) i :
  String.get (String.length a + i) (a ++ b) = String.get i b.
Proof. induction a as [|c a IH]; cbn; [reflexivity|assumption]. Qed.

Lemma length_charAt i s :
  i < String.length s -> String.length (Js.charAt i s) = 1.
Proof.
  revert i. induction s as [|c s IH]; intros i Hi; cbn in Hi; [lia|].
  destruct i as [|i]; [reflexivity|].
  unfold Js.charAt. cbn [String.get]. apply IH. lia.
Qed.

Lemma get_charAt i s :
  i < String.length s -> String.get 0 (Js.charAt i s) = String.get i s.
Proof.
  revert i. induction s as [|c s IH]; intros i Hi; cbn in Hi; [lia|].
  destruct i as [|i]; [reflexivity|].
  unfold Js.charAt. cbn [String.get]. apply IH. lia.
Qed.

End MaskFacts.

(** X16.  [maskPassword] keeps the length of the password.  Every
    character but the first and the last is replaced by a star; a
    password of one or two characters is replaced by stars entirely; a
    longer one keeps its first and its last character. *)
Theorem mask_hides_all_but_the_ends password :
  let masked := CryptoService.maskPassword password in
  String.length masked = String.length password
  /\ (forall i, 0 < i -> i + 1 < String.length password ->
                String.get i masked = Some "*"%char)
  /\ (String.length password <= 2 ->
      forall i, i < String.length password ->
                String.get i masked = Some "*"%char)
  /\ (2 < String.length password ->
      String.get 0 masked = String.get 0 password
      /\ String.get (String.length password - 1) masked
         = String.get (String.length password - 1) password).
Proof.
  cbv zeta. unfold CryptoService.maskPassword.
  destruct (String.length password =? 0) eqn:E0.
  { apply Nat.eqb_eq in E0. rewrite E0. cbn.
    repeat split; intros; lia. }
  apply Nat.eqb_neq in E0.
  destruct (String.length password <=? 2) eqn:E2.
  { apply Nat.leb_le in E2. rewrite length_repeat_star.
    split; [reflexivity|]. split; [intros; lia|]. split; [|intros; lia].
    intros _ i Hi. now apply get_repeat_star. }
  apply Nat.leb_gt in E2.
  set (n := String.length password) in *.
  assert (L0 : String.length (Js.charAt 0 password) = 1)
    by (apply length_charAt; fold n; lia).
  assert (L1 : String.length (Js.charAt (n - 1) password) = 1)
    by (apply length_charAt; fold n; lia).
  split; [|split; [|split]].
  - rewrite !length_append, length_repeat_star, L0, L1. lia.
  - intros i Hi1 Hi2.
    replace i with (String.length (Js.charAt 0 password) + (i - 1))
      by (rewrite L0; lia).
    rewrite get_append_right, get_append_left
      by (rewrite length_repeat_star; lia).
    apply get_repeat_star. lia.
  - intros; lia.
  - intros _. split.
    + rewrite get_append_left by (rewrite L0; lia).
      apply get_charAt. fold n. lia.
    + replace (n - 1)
        with (String.length (Js.charAt 0 password)
              + (String.length (Js.repeat "*" (n - 2)) + 0))
        by (rewrite L0, length_repeat_star; lia).
      rewrite !get_append_right.
      replace (String.length (Js.charAt 0 password)
               + (String.length (Js.repeat "*" (n - 2)) + 0))
        with (n - 1) by (rewrite L0, length_repeat_star; lia).
      apply get_charAt. fold n. lia.
Qed.

(** A password of seven characters. *)
Lemma mask_hides_all_but_the_ends_witness :
  String.length (CryptoService.maskPassword "hunter2") = 7
  /\ String.get 3 (CryptoService.maskPassword "hunter2") = Some "*"%char
  /\ String.get 6 (CryptoService.maskPassword "hunter2") = Some "2"%char.
Proof.
  destruct (mask_hides_all_but_the_ends "hunter2") as (L & M & _ & E).
  split; [exact L|]. split.
  - apply M; cbn; lia.
  - apply E. cbn; lia.
Defined.

Section FramingFacts.

Lemma join_splitChar sep s :
  Js.join (String sep "") (Js.splitChar sep s) = s.
Proof.
  induction s as [|c r IH]; [reflexivity|]. cbn [Js.splitChar].
  destruct (Js.splitChar sep r) as [|t ts] eqn:Es;
    [now apply splitChar_nonempty in Es|].
  destruct (Ascii.eqb c sep) eqn:E.
  - apply Ascii.eqb_eq in E. subst c. rewrite join_cons, IH. reflexivity.
  - destruct ts as [|t' ts].
    + cbn in IH. cbn. now rewrite IH.
    + rewrite join_cons in *. cbn [append] in *. now rewrite IH.
Qed.

Lemma prefix_empty s : String.prefix "" s = true.
Proof. now destruct s. Qed.

Lemma includes_char_cons c sep r :
  Js.includes (String sep "") (String c r)
  = Ascii.eqb c sep || Js.includes (String sep "") r.
Proof.
  cbn [Js.includes]. f_equal.
  change (String.prefix (String sep "") (String c r))
    with (if ascii_dec sep c then String.prefix "" r else false).
  destruct (ascii_dec sep c) as [->|N].
  - now rewrite Ascii.eqb_refl, prefix_empty.
  - symmetry. apply Ascii.eqb_neq. congruence.
Qed.

Lemma splitChar_head sep a b :
  Js.includes (String sep "") a = false ->
  Js.splitChar sep (a ++ String sep b) = a :: Js.splitChar sep b.
Proof.
  induction a as [|c a IH]; intro H; cbn [append Js.splitChar].
  - now rewrite Ascii.eqb_refl.
  - rewrite includes_char_cons in H. apply orb_false_iff in H as [Hc Ha].
    rewrite Hc, (IH Ha). reflexivity.
Qed.

End FramingFacts.

(** ** The Job model *)

Section DeleteFacts.
Variable id : string.

Lemma filter_none {A : Type} (p : A -> bool) (l : list A) :
  filter p (filter (fun x => negb (p x)) l) = [].
Proof.
  induction l as [|x l IH]; cbn; [reflexivity|].
  destruct (p x) eqn:E; cbn; [assumption|]. now rewrite E.
Qed.

Lemma filter_not_In {A : Type} (p : A -> bool) (l : list A) x :
  In x (filter (fun x => negb (p x)) l) -> p x = false.
Proof. intro H. apply filter_In in H as (_ & H). now apply negb_true_iff. Qed.

Lemma find_filtered (l : list Job.row) q :
  find (fun j => String.eqb (Job.id j) id && q j)
       (filter (fun j => negb (String.eqb (Job.id j) id)) l) = None.
Proof.
  induction l as [|j l IH]; cbn; [reflexivity|].
  destruct (String.eqb (Job.id j) id) eqn:E; cbn; [assumption|].
  now rewrite E.
Qed.

Lemma find_absent (l : list Job.row) q :
  existsb (fun j => String.eqb (Job.id j) id) l = false ->
  find (fun j => String.eqb (Job.id j) id && q j) l = None.
Proof.
  induction l as [|j l IH]; cbn; [reflexivity|].
  destruct (String.eqb (Job.id j) id); cbn; [discriminate|assumption].
Qed.

Lemma filter_and_none {A : Type} (p q : A -> bool) (l : list A) :
  filter (fun x => p x && q x) (filter (fun x => negb (p x)) l) = [].
Proof.
  induction l as [|x l IH]; cbn; [reflexivity|].
  destruct (p x) eqn:E; cbn; [assumption|]. now rewrite E.
Qed.

End DeleteFacts.

(** X17.  [Job.delete] returns true exactly when a job with the id
    existed, and no job with this id can be selected afterwards.  When
    it returns true, the known devices, the hosts (enabled or not), the
    whitelist, the runs, the notifications and the history of the job
    are gone with it (ON DELETE CASCADE): no row of these tables names
    the job.  When it returns false nothing has changed.  The other
    jobs and their devices stay. *)
Theorem job_delete_cascades id d :
  exists deleted d',
    JobModel.delete id d = Returned deleted d'
    /\ (deleted = true <-> exists j, In j (jobs d) /\ Job.id j = id)
    /\ (forall status, Sql.selectJob id status d' = None)
    /\ (deleted = true ->
        Sql.selectKnownDevices id d' = []
        /\ (forall h, In h (ssh_hosts d') -> SshHost.job_id h <> id)
        /\ Sql.selectEnabledHosts id d' = []
        /\ (forall w, In w (job_whitelist d') -> Whitelist.job_id w <> id)
        /\ Sql.selectWhitelist id d' = []
        /\ (forall r, In r (job_runs d') -> JobRun.job_id r <> id)
        /\ (forall n, In n (notifications d') -> Notification.job_id n <> id)
        /\ (forall h, In h (device_history d') ->
                      DeviceHistory.job_id h <> id))
    /\ (deleted = false -> d' = d)
    /\ othersDevices id d' = othersDevices id d
    /\ (forall j, Job.id j <> id -> (In j (jobs d') <-> In j (jobs d))).
Proof.
  unfold JobModel.delete, JobModel.deleteJobRow.
  destruct (existsb (fun j => String.eqb (Job.id j) id) (jobs d)) eqn:E.
  - eexists. eexists. split; [reflexivity|].
    split.
    { split; [intros _|reflexivity].
      apply existsb_exists in E as (j & Hj & Hid).
      exists j. split; [assumption|now apply String.eqb_eq]. }
    split.
    { intro status. unfold Sql.selectJob.
      cbn [jobs with_jobs]. apply find_filtered. }
    split.
    { intros _.
      unfold Sql.selectKnownDevices, Sql.selectEnabledHosts,
        Sql.selectWhitelist.
      cbn [known_devices ssh_hosts job_whitelist job_runs notifications
           device_history with_jobs JobModel.cascade].
      split; [apply (filter_none
                       (fun r => String.eqb (KnownDevice.job_id r) id))|].
      split.
      { intros h Hh.
        apply (filter_not_In (fun h => String.eqb (SshHost.job_id h) id))
          in Hh. now apply String.eqb_neq. }
      split; [apply (filter_and_none
                       (fun h => String.eqb (SshHost.job_id h) id))|].
      split.
      { intros w Hw.
        apply (filter_not_In (fun w => String.eqb (Whitelist.job_id w) id))
          in Hw. now apply String.eqb_neq. }
      split; [now rewrite (filter_none
                             (fun w => String.eqb (Whitelist.job_id w) id))|].
      split; [|split].
      - intros r Hr.
        apply (filter_not_In (fun r => String.eqb (JobRun.job_id r) id))
          in Hr. now apply String.eqb_neq.
      - intros n Hn.
        apply (filter_not_In
                 (fun n => String.eqb (Notification.job_id n) id)) in Hn.
        now apply String.eqb_neq.
      - intros h Hh.
        apply (filter_not_In
                 (fun h => String.eqb (DeviceHistory.job_id h) id)) in Hh.
        now apply String.eqb_neq. }
    split; [discriminate|]. split.
    { unfold othersDevices.
      cbn [known_devices with_jobs JobModel.cascade].
      apply filter_filter_same. auto. }
    intros j Hj. cbn [jobs with_jobs]. rewrite filter_In.
    apply String.eqb_neq in Hj. rewrite Hj. cbn [negb]. tauto.
  - exists false, d. split; [reflexivity|]. split.
    { split; [discriminate|]. intros (j & Hj & Hid). exfalso.
      assert (H : existsb (fun j => String.eqb (Job.id j) id) (jobs d) = true).
      { apply existsb_exists. exists j. split; [assumption|].
        now apply String.eqb_eq. }
      congruence. }
    split; [intro status; now apply find_absent|].
    split; [discriminate|]. split; [reflexivity|]. split; [reflexivity|].
    tauto.
Qed.

(** The camera of the deleted job goes with both its switches, the
    disabled one too; the other job's device stays. *)
Lemma job_delete_cascades_witness :
  exists d',
    JobModel.delete "job-1" Sample.withIdle = Returned true d'
    /\ Sql.selectKnownDevices "job-1" d' = []
    /\ (forall h, In h (ssh_hosts d') -> SshHost.job_id h <> "job-1")
    /\ ssh_hosts d' = []
    /\ known_devices d' = [Sample.foreign].
Proof.
  destruct (job_delete_cascades "job-1" Sample.withIdle)
    as (deleted & d' & E & _ & _ & Hc & _ & Ho & _).
  assert (Hd : deleted = true)
    by (vm_compute in E; now inversion E).
  subst deleted. exists d'. split; [exact E|].
  destruct (Hc eq_refl) as (Hk & Hh & _).
  split; [exact Hk|]. split; [exact Hh|].
  vm_compute in E. inversion E. split; reflexivity.
Defined.

Section SaveFrame.
Context {X : Type} (f : database -> X).
Hypothesis f_whitelist : forall v d, f (JobModel.with_job_whitelist v d) = f d.
Hypothesis f_hosts : forall v d, f (JobModel.with_ssh_hosts v d) = f d.
Hypothesis f_uuid : forall n d, f (with_next_uuid n d) = f d.

Lemma saveMac_frame id mac u d :
  f (stateOf (JobModel.saveMac id mac u d)) = f d.
Proof.
  unfold JobModel.saveMac. apply bind_state; [apply f_uuid|].
  intros _ d1. unfold JobModel.insertWhitelist.
  destruct (existsb _ _); [reflexivity|apply f_whitelist].
Qed.

Lemma saveHost_frame c ivs uuidText id entry u d :
  f (stateOf (JobModel.saveHost c ivs uuidText id entry u d)) = f d.
Proof.
  unfold JobModel.saveHost. destruct entry as [n host].
  destruct (CryptoService.encrypt _ _ _); [|reflexivity].
  apply bind_state.
  - destruct (HostData.id host) as [i|].
    + destruct (String.eqb i ""); [|reflexivity].
      apply bind_state; [apply f_uuid|reflexivity].
    + apply bind_state; [apply f_uuid|reflexivity].
  - intros hostId d1. unfold JobModel.insertHost.
    destruct (existsb _ _); [reflexivity|apply f_hosts].
Qed.
End SaveFrame.

Section SaveFacts.
Variables (c : crypto) (ivs : nat -> string) (uuidText : nat -> string).

Lemma frame_of_returned {X A : Type} (f : database -> X) (m : M A) d a d' :
  f (stateOf (m d)) = f d -> m d = Returned a d' -> f d' = f d.
Proof. intros H E. now rewrite E in H. Qed.

Lemma guarded_loop {A : Type} (body : A -> unit -> M unit) (l : list A) :
  (if 0 <? List.length l then forEach body l tt else ret tt)
  = forEach body l tt.
Proof. now destruct l. Qed.

Lemma guarded_numbered_loop {A : Type} (body : nat * A -> unit -> M unit)
    (l : list A) :
  (if 0 <? List.length l
   then forEach body (combine (seq 0 (List.length l)) l) tt else ret tt)
  = forEach body (combine (seq 0 (List.length l)) l) tt.
Proof. now destruct l. Qed.

Lemma bind_Returned_inv {A B : Type} (m : M A) (k : A -> M B) d b d' :
  bind m k d = Returned b d' ->
  exists a d1, m d = Returned a d1 /\ k a d1 = Returned b d'.
Proof.
  unfold bind. destruct (m d) as [a d1|]; [|discriminate].
  intro H. now exists a, d1.
Qed.

Lemma macs_returned id :
  forall l d d',
    forEach (JobModel.saveMac id) l tt d = Returned tt d' ->
    job_whitelist d' = job_whitelist d ++ map (Whitelist.mk id) l.
Proof.
  induction l as [|mac l IH]; intros d d' H.
  - cbn in H. inversion H; subst. now rewrite app_nil_r.
  - apply forEach_cons_returned in H as ([] & d1 & E1 & H).
    rewrite (IH _ _ H). cbn [map]. unfold JobModel.saveMac in E1.
    cbv [bind uuidv4 JobModel.insertWhitelist] in E1.
    cbn [job_whitelist with_next_uuid] in E1.
    destruct (existsb _ (job_whitelist d)); [discriminate|].
    inversion E1; subst. cbn [job_whitelist JobModel.with_job_whitelist].
    now rewrite <- app_assoc.
Qed.

Lemma macs_thrown id :
  forall l d,
    (exists mac, In mac l
                 /\ existsb (fun w => String.eqb (Whitelist.job_id w) id
                                      && String.eqb (Whitelist.mac_address w)
                                                    mac)
                            (job_whitelist d) = true)
    \/ ~ NoDup l ->
    exists d', forEach (JobModel.saveMac id) l tt d
               = Thrown JobModel.whitelistViolation d'.
Proof.
  induction l as [|mac l IH]; intros d H.
  - destruct H as [(mac & [] & _)|H]; exfalso. apply H. constructor.
  - cbn [forEach]. unfold bind at 1. unfold JobModel.saveMac at 1.
    cbv [bind uuidv4 JobModel.insertWhitelist].
    cbn [job_whitelist with_next_uuid].
    destruct (existsb _ (job_whitelist d)) eqn:E; [now eexists|].
    apply IH. cbn [job_whitelist JobModel.with_job_whitelist].
    assert (Hnew : existsb
                     (fun w => String.eqb (Whitelist.job_id w) id
                               && String.eqb (Whitelist.mac_address w) mac)
                     (job_whitelist d ++ [Whitelist.mk id mac]) = true).
    { rewrite existsb_app. cbn. rewrite !String.eqb_refl.
      now rewrite orb_true_r. }
    destruct H as [(mac' & [<-|Hin] & Hrow)|H].
    + congruence.
    + left. exists mac'. split; [assumption|].
      rewrite existsb_app, Hrow. reflexivity.
    + destruct (in_dec string_dec mac l) as [Hin|Hout].
      * left. exists mac. now split.
      * right. intro ND. apply H. now constructor.
Qed.

Lemma hosts_returned id :
  forall entries d d',
    forEach (JobModel.saveHost c ivs uuidText id) entries tt d
    = Returned tt d' ->
    exists rows,
      ssh_hosts d' = ssh_hosts d ++ rows
      /\ Forall2 (savedAs c ivs id) entries rows.
Proof.
  induction entries as [|[n host] entries IH]; intros d d' H.
  - cbn in H. inversion H; subst. exists []. rewrite app_nil_r.
    split; [reflexivity|constructor].
  - apply forEach_cons_returned in H as ([] & d1 & E1 & H).
    destruct (IH _ _ H) as (rows & Hrows & F).
    unfold JobModel.saveHost in E1.
    destruct (CryptoService.encrypt c (ivs n) (HostData.password host))
      as [e|] eqn:Ee; [|discriminate].
    apply bind_Returned_inv in E1 as (hostId & d0 & E0 & E1).
    assert (S0 : ssh_hosts d0 = ssh_hosts d).
    { destruct (HostData.id host) as [i|].
      - destruct (String.eqb i ""); cbv in E0; now inversion E0.
      - cbv in E0; now inversion E0. }
    unfold JobModel.insertHost in E1.
    destruct (existsb _ (ssh_hosts d0)); [discriminate|].
    inversion E1; subst d1. clear E1.
    cbn [ssh_hosts JobModel.with_ssh_hosts] in Hrows.
    eexists (_ :: rows). rewrite Hrows, S0, <- app_assoc.
    split; [reflexivity|]. constructor; [|assumption].
    now repeat split.
Qed.

Lemma find_last (l : list Job.row) row :
  existsb (fun j => String.eqb (Job.id j) (Job.id row)) l = false ->
  find (fun j => String.eqb (Job.id j) (Job.id row)) (l ++ [row]) = Some row.
Proof.
  induction l as [|j l IH]; cbn.
  - now rewrite String.eqb_refl.
  - destruct (String.eqb (Job.id j) (Job.id row)); [discriminate|assumption].
Qed.

Lemma existsb_filtered {A : Type} (p : A -> bool) (l : list A) :
  existsb p (filter (fun x => negb (p x)) l) = false.
Proof.
  induction l as [|x l IH]; [reflexivity|]. cbn [filter].
  destruct (p x) eqn:E; cbn [negb existsb]; [assumption|].
  now rewrite E.
Qed.

Lemma deleteJobRow_absent id d :
  existsb (fun j => String.eqb (Job.id j) id)
          (jobs (JobModel.deleteJobRow id d)) = false.
Proof.
  unfold JobModel.deleteJobRow.
  destruct (existsb (fun j => String.eqb (Job.id j) id) (jobs d)) eqn:E;
    [|exact E].
  cbn [jobs with_jobs].
  apply (existsb_filtered (fun j => String.eqb (Job.id j) id)).
Qed.

(** The steps of a [save] that returned. *)
Lemma save_returned now this d d' :
  JobModel.save c ivs uuidText now this d = Returned tt d' ->
  let id := JobObject.id this in
  let d1 := JobModel.deleteJobRow id d in
  exists rows,
    jobs d' = jobs d1 ++ [JobModel.jobData now this]
    /\ job_whitelist d'
       = filter (fun w => negb (String.eqb (Whitelist.job_id w) id))
                (job_whitelist d1)
         ++ map (Whitelist.mk id) (JobObject.whitelist this)
    /\ ssh_hosts d'
       = filter (fun h => negb (String.eqb (SshHost.job_id h) id))
                (ssh_hosts d1)
         ++ rows
    /\ Forall2 (savedAs c ivs id)
               (combine (seq 0 (List.length (JobObject.ssh_hosts this)))
                        (JobObject.ssh_hosts this))
               rows
    /\ known_devices d' = known_devices d1
    /\ job_runs d' = job_runs d1
    /\ notifications d' = notifications d1
    /\ device_history d' = device_history d1.
Proof.
  unfold JobModel.save, JobModel.transaction. intro H. cbv zeta.
  rewrite guarded_loop, guarded_numbered_loop in H.
  match type of H with
  | match ?body d with _ => _ end = _ =>
      destruct (body d) as [u d2|] eqn:E; [|discriminate]
  end.
  inversion H; subst u d2. clear H.
  apply bind_Returned_inv in E as ([] & d1 & E1 & E).
  apply bind_Returned_inv in E as ([] & d2 & E2 & E).
  apply bind_Returned_inv in E as ([] & d3 & E3 & E).
  apply bind_Returned_inv in E as ([] & d4 & E4 & E5).
  unfold JobModel.insertOrReplaceJob in E1. inversion E1; subst d1. clear E1.
  unfold JobModel.clearWhitelist in E2. inversion E2; subst d2. clear E2.
  unfold JobModel.clearHosts in E4. inversion E4; subst d4. clear E4.
  cbn [Job.id JobModel.jobData] in *.
  set (d1 := JobModel.deleteJobRow (JobObject.id this) d) in *.
  pose proof (macs_returned _ _ _ _ E3) as W3.
  destruct (hosts_returned _ _ _ _ E5) as (rows & S5 & F5).
  pose proof (fun (X : Type) (f : database -> X) fw fu =>
                frame_of_returned f _ _ _ _
                  (forEach_state f (JobModel.saveMac (JobObject.id this))
                     (fun x v d => saveMac_frame f fw fu _ x v d) _ _ _)
                  E3) as F3.
  pose proof (fun (X : Type) (f : database -> X) fh fu =>
                frame_of_returned f _ _ _ _
                  (forEach_state f
                     (JobModel.saveHost c ivs uuidText (JobObject.id this))
                     (fun x v d => saveHost_frame f fh fu _ _ _ _ x v d)
                     _ _ _)
                  E5) as F5'.
  exists rows.
  split.
  { rewrite (F5' _ jobs (fun _ _ => eq_refl) (fun _ _ => eq_refl)).
    cbn [jobs JobModel.with_ssh_hosts].
    now rewrite (F3 _ jobs (fun _ _ => eq_refl) (fun _ _ => eq_refl)). }
  split.
  { rewrite (F5' _ job_whitelist (fun _ _ => eq_refl) (fun _ _ => eq_refl)).
    exact W3. }
  split.
  { rewrite S5. cbn [ssh_hosts JobModel.with_ssh_hosts].
    now rewrite (F3 _ ssh_hosts (fun _ _ => eq_refl) (fun _ _ => eq_refl)). }
  split; [exact F5|].
  split.
  { rewrite (F5' _ known_devices (fun _ _ => eq_refl) (fun _ _ => eq_refl)).
    cbn [known_devices JobModel.with_ssh_hosts].
    now rewrite (F3 _ known_devices (fun _ _ => eq_refl)
                   (fun _ _ => eq_refl)). }
  split.
  { rewrite (F5' _ job_runs (fun _ _ => eq_refl) (fun _ _ => eq_refl)).
    cbn [job_runs JobModel.with_ssh_hosts].
    now rewrite (F3 _ job_runs (fun _ _ => eq_refl) (fun _ _ => eq_refl)). }
  split.
  { rewrite (F5' _ notifications (fun _ _ => eq_refl) (fun _ _ => eq_refl)).
    cbn [notifications JobModel.with_ssh_hosts].
    now rewrite (F3 _ notifications (fun _ _ => eq_refl)
                   (fun _ _ => eq_refl)). }
  rewrite (F5' _ device_history (fun _ _ => eq_refl) (fun _ _ => eq_refl)).
  cbn [device_history JobModel.with_ssh_hosts].
  now rewrite (F3 _ device_history (fun _ _ => eq_refl) (fun _ _ => eq_refl)).
Qed.
End SaveFacts.

Section ViewFacts.
Variable c : crypto.
Hypothesis round_trip :
  forall t e, cipher c t = Some e -> decipher c e = Some t.

Lemma decrypt_encrypt iv text encrypted :
  Js.includes ":" iv = false ->
  CryptoService.encrypt c iv text = Some encrypted ->
  CryptoService.decrypt c encrypted = Some text.
Proof.
  intros Hiv. unfold CryptoService.encrypt, CryptoService.decrypt.
  destruct (cipher c text) as [e|] eqn:E; [|discriminate].
  intro H. inversion H; subst. cbn [append].
  rewrite splitChar_head by assumption. cbn [tl].
  rewrite join_splitChar. now apply round_trip.
Qed.

Lemma views_of_saved ivs id :
  (forall n, Js.includes ":" (ivs n) = false) ->
  forall entries rows,
    Forall2 (savedAs c ivs id) entries rows ->
    exists views,
      JobModel.viewHosts c rows = Some views
      /\ Forall2 (fun e v => shownAs (snd e) v) entries views.
Proof.
  intros Hiv entries rows F.
  induction F as [|e row entries rows S F IH].
  - exists []. split; [reflexivity|constructor].
  - destruct IH as (views & E & Fv).
    destruct S as (_ & S1 & S2 & S3 & S4 & S5 & S6).
    cbn [JobModel.viewHosts].
    rewrite (decrypt_encrypt _ _ _ (Hiv (fst e)) S6), E.
    eexists. split; [reflexivity|]. constructor; [|assumption].
    unfold shownAs. cbn [HostView.row HostView.enabled HostView.password].
    rewrite S5. now repeat split.
Qed.

Lemma Forall2_numbered {A B : Type} (P : A -> B -> Prop) (l : list A) :
  forall a views,
    Forall2 (fun e v => P (snd e) v) (combine (seq a (List.length l)) l)
            views ->
    Forall2 P l views.
Proof.
  induction l as [|x l IH]; intros a views F; cbn in F.
  - inversion F. constructor.
  - inversion F as [|? v ? views' Hx F']; subst.
    constructor; [assumption|]. now apply (IH (S a)).
Qed.

Lemma filter_saved ivs id entries rows (others : list SshHost.row) :
  Forall2 (savedAs c ivs id) entries rows ->
  filter (fun h => String.eqb (SshHost.job_id h) id)
         (filter (fun h => negb (String.eqb (SshHost.job_id h) id)) others
          ++ rows)
  = rows.
Proof.
  intro F. rewrite filter_app.
  rewrite (filter_none (fun h => String.eqb (SshHost.job_id h) id)).
  cbn [app]. induction F as [|e row entries rows S F IH]; [reflexivity|].
  cbn [filter]. destruct S as (S0 & _). rewrite S0, String.eqb_refl.
  now rewrite IH.
Qed.

Lemma insertKey_perm key index :
  Permutation (key :: index) (Sql.insertKey key index).
Proof.
  induction index as [|k rest IH]; cbn [Sql.insertKey]; [reflexivity|].
  destruct (String.leb key k); [reflexivity|].
  rewrite perm_swap. now constructor.
Qed.

Lemma indexOrder_perm keys : Permutation keys (Sql.indexOrder keys).
Proof.
  induction keys as [|key keys IH]; cbn; [constructor|].
  rewrite <- insertKey_perm. now constructor.
Qed.

Lemma insertKey_sorted key index :
  Sorted (fun a b => String.leb a b = true) index ->
  Sorted (fun a b => String.leb a b = true) (Sql.insertKey key index).
Proof.
  induction index as [|k rest IH]; intro H; cbn [Sql.insertKey].
  - repeat constructor.
  - destruct (String.leb key k) eqn:E.
    + constructor; [assumption|]. now constructor.
    + inversion H as [|? ? Hrest Hhd]; subst.
      constructor; [now apply IH|].
      assert (Hk : String.leb k key = true)
        by (destruct (String.leb_total k key); congruence).
      destruct rest as [|k' rest]; cbn [Sql.insertKey].
      * now constructor.
      * destruct (String.leb key k'); constructor; [assumption|].
        now inversion Hhd.
Qed.

Lemma indexOrder_sorted keys :
  Sorted (fun a b => String.leb a b = true) (Sql.indexOrder keys).
Proof.
  induction keys as [|key keys IH]; cbn; [constructor|].
  now apply insertKey_sorted.
Qed.

Lemma whitelist_saved id (others : list Whitelist.row) macs :
  map Whitelist.mac_address
      (filter (fun w => String.eqb (Whitelist.job_id w) id)
              (filter (fun w => negb (String.eqb (Whitelist.job_id w) id))
                      others
               ++ map (Whitelist.mk id) macs))
  = macs.
Proof.
  rewrite filter_app.
  rewrite (filter_none (fun w => String.eqb (Whitelist.job_id w) id)).
  cbn [app]. induction macs as [|mac macs IH]; [reflexivity|].
  cbn [map filter Whitelist.job_id]. rewrite String.eqb_refl.
  cbn [map Whitelist.mac_address]. now rewrite IH.
Qed.
End ViewFacts.

(** X18.  Provided deciphering undoes ciphering and the iv text holds
    no colon (it is hex), [decrypt] gives back the text that [encrypt]
    was given, also when the ciphered text itself holds colons: the
    pieces after the first are joined again. *)
Theorem decrypt_undoes_encrypt c iv text encrypted :
  (forall t e, cipher c t = Some e -> decipher c e = Some t) ->
  Js.includes ":" iv = false ->
  CryptoService.encrypt c iv text = Some encrypted ->
  CryptoService.decrypt c encrypted = Some text.
Proof.
  intros Hc Hiv. unfold CryptoService.encrypt, CryptoService.decrypt.
  destruct (cipher c text) as [e|] eqn:E; [|discriminate].
  intro H. inversion H; subst. cbn [append].
  (* the iv is the first piece of the split, the rest joins back *)
  rewrite splitChar_head by assumption. cbn [tl].
  rewrite join_splitChar. now apply Hc.
Qed.

(** A ciphered text with a colon in it. *)
Lemma decrypt_undoes_encrypt_witness :
  CryptoService.decrypt Sample.plainCrypto "00ab:s3:cret" = Some "s3:cret".
Proof.
  apply (decrypt_undoes_encrypt Sample.plainCrypto "00ab" "s3:cret").
  - intros t e H. inversion H. reflexivity.
  - reflexivity.
  - reflexivity.
Defined.

(** X19.  Saving a job whose id is already in [jobs] (an edit of the
    job) erases the known devices, the runs, the notifications and the
    device history of that job: INSERT OR REPLACE deletes the old row
    of [jobs] and the deletion cascades.  The devices of the other jobs
    are kept. *)
Theorem saving_an_existing_job_erases_what_it_had
    c ivs uuidText now this d d' :
  let id := JobObject.id this in
  JobModel.save c ivs uuidText now this d = Returned tt d' ->
  (exists j, In j (jobs d) /\ Job.id j = id) ->
  Sql.selectKnownDevices id d' = []
  /\ (forall r, In r (job_runs d') -> JobRun.job_id r <> id)
  /\ (forall n, In n (notifications d') -> Notification.job_id n <> id)
  /\ (forall h, In h (device_history d') -> DeviceHistory.job_id h <> id)
  /\ othersDevices id d' = othersDevices id d.
Proof.
  intros id Hsave (j & Hj & Hid).
  destruct (save_returned c ivs uuidText now this d d' Hsave)
    as (rows & _ & _ & _ & _ & K & R & N & H).
  fold id in K, R, N, H.
  assert (E : existsb (fun j => String.eqb (Job.id j) id) (jobs d) = true).
  { apply existsb_exists. exists j. split; [assumption|].
    now apply String.eqb_eq. }
  unfold JobModel.deleteJobRow in K, R, N, H. rewrite E in K, R, N, H.
  cbn [known_devices job_runs notifications device_history with_jobs
       JobModel.cascade] in K, R, N, H.
  unfold Sql.selectKnownDevices, othersDevices. rewrite K, R, N, H.
  split; [apply (filter_none
                   (fun r => String.eqb (KnownDevice.job_id r) id))|].
  split; [|split; [|split]].
  - intros r Hr.
    apply (filter_not_In (fun r => String.eqb (JobRun.job_id r) id)) in Hr.
    now apply String.eqb_neq.
  - intros n Hn.
    apply (filter_not_In
             (fun n => String.eqb (Notification.job_id n) id)) in Hn.
    now apply String.eqb_neq.
  - intros h Hh.
    apply (filter_not_In
             (fun h => String.eqb (DeviceHistory.job_id h) id)) in Hh.
    now apply String.eqb_neq.
  - apply filter_filter_same. auto.
Qed.

(** Editing the job loses its camera. *)
Lemma saving_an_existing_job_erases_what_it_had_witness :
  exists d',
    JobModel.save Sample.plainCrypto Sample.iv MacScanRunner.showNat 500
      (Sample.office ["aa:bb:cc:dd:ee:ff"])
      (Sample.store "days" [Sample.camera "active" 5; Sample.foreign])
    = Returned tt d'
    /\ Sql.selectKnownDevices "job-1" d' = []
    /\ othersDevices "job-1" d' = [Sample.foreign].
Proof.
  eexists.
  assert (E : JobModel.save Sample.plainCrypto Sample.iv
                MacScanRunner.showNat 500
                (Sample.office ["aa:bb:cc:dd:ee:ff"])
                (Sample.store "days"
                   [Sample.camera "active" 5; Sample.foreign])
              = Returned tt ?[d'])
    by (vm_compute; reflexivity).
  destruct (saving_an_existing_job_erases_what_it_had
              Sample.plainCrypto Sample.iv MacScanRunner.showNat 500
              (Sample.office ["aa:bb:cc:dd:ee:ff"])
              (Sample.store "days" [Sample.camera "active" 5; Sample.foreign])
              _ E) as (K & _ & _ & _ & O).
  - exists (Sample.job "days" 1). split; [now left|reflexivity].
  - split; [exact E|]. split; [exact K|].
    etransitivity; [exact O|reflexivity].
Defined.

(** X20.  [save] throws the violation of UNIQUE(job_id, mac_address)
    when the whitelist of the job lists a MAC twice, and the
    transaction leaves every table as it was. *)
Theorem save_rejects_a_repeated_whitelist_mac c ivs uuidText now this d :
  ~ NoDup (JobObject.whitelist this) ->
  exists d',
    JobModel.save c ivs uuidText now this d
    = Thrown JobModel.whitelistViolation d'
    /\ jobs d' = jobs d /\ ssh_hosts d' = ssh_hosts d
    /\ job_whitelist d' = job_whitelist d /\ job_runs d' = job_runs d
    /\ known_devices d' = known_devices d
    /\ notifications d' = notifications d
    /\ device_history d' = device_history d.
Proof.
  intro H. unfold JobModel.save, JobModel.transaction.
  rewrite guarded_loop.
  set (d1 := stateOf (JobModel.insertOrReplaceJob
                        (JobModel.jobData now this) d)).
  set (d2 := stateOf (JobModel.clearWhitelist (JobObject.id this) d1)).
  destruct (macs_thrown (JobObject.id this) (JobObject.whitelist this) d2
              (or_intror H)) as (d3 & E3).
  rewrite (bind_Returned
             (JobModel.insertOrReplaceJob (JobModel.jobData now this))
             _ d tt d1 eq_refl).
  rewrite (bind_Returned (JobModel.clearWhitelist (JobObject.id this))
             _ d1 tt d2 eq_refl).
  rewrite (bind_Thrown _ _ _ _ _ E3).
  eexists. split; [reflexivity|]. now repeat split.
Qed.

(** The same MAC twice in the whitelist. *)
Lemma save_rejects_a_repeated_whitelist_mac_witness :
  exists d',
    JobModel.save Sample.plainCrypto Sample.iv MacScanRunner.showNat 500
      (Sample.office ["aa:bb:cc:dd:ee:ff"; "aa:bb:cc:dd:ee:ff"])
      (Sample.store "days" [Sample.camera "active" 5])
    = Thrown JobModel.whitelistViolation d'
    /\ known_devices d' = [Sample.camera "active" 5].
Proof.
  destruct (save_rejects_a_repeated_whitelist_mac
              Sample.plainCrypto Sample.iv MacScanRunner.showNat 500
              (Sample.office ["aa:bb:cc:dd:ee:ff"; "aa:bb:cc:dd:ee:ff"])
              (Sample.store "days" [Sample.camera "active" 5]))
    as (d' & E & _ & _ & _ & _ & K & _).
  - intro H. apply NoDup_cons_iff in H as [H _]. apply H. now left.
  - exists d'. split; [exact E|exact K].
Defined.

(** X21.  A job that [save] stored is found by [findById]: the row
    written, the four flags as they were set, the MACs of the whitelist
    in ascending order (the order of the unique index the SELECT is
    answered from, not the order they were given in), and for each
    host, in order, the name, address, port (22 when absent or 0), user
    name and enabled flag that were saved, with the password shown
    masked.  This holds provided deciphering undoes ciphering and no iv
    text holds a colon. *)
Theorem saved_job_is_found_again c ivs uuidText now this d d' :
  (forall t e, cipher c t = Some e -> decipher c e = Some t) ->
  (forall n, Js.includes ":" (ivs n) = false) ->
  JobModel.save c ivs uuidText now this d = Returned tt d' ->
  exists view,
    JobModel.findById c (JobObject.id this) d' = Returned (Some view) d'
    /\ JobView.row view = JobModel.jobData now this
    /\ JobView.notifications_enabled view
       = JobObject.notifications_enabled this
    /\ JobView.notify_new_macs view = JobObject.notify_new_macs this
    /\ JobView.notify_unauthorized_macs view
       = JobObject.notify_unauthorized_macs this
    /\ JobView.notify_ip_changes view = JobObject.notify_ip_changes this
    /\ JobView.whitelist view = Sql.indexOrder (JobObject.whitelist this)
    /\ Permutation (JobObject.whitelist this) (JobView.whitelist view)
    /\ Sorted (fun a b => String.leb a b = true) (JobView.whitelist view)
    /\ Forall2 shownAs (JobObject.ssh_hosts this) (JobView.ssh_hosts view).
Proof.
  intros Hc Hiv Hsave.
  destruct (save_returned c ivs uuidText now this d d' Hsave)
    as (rows & J & W & S & F & _).
  destruct (views_of_saved c Hc ivs (JobObject.id this) Hiv _ _ F)
    as (views & Ev & Fv).
  apply Forall2_numbered in Fv.
  unfold JobModel.findById. rewrite J.
  rewrite (find_last _ (JobModel.jobData now this))
    by apply deleteJobRow_absent.
  unfold Sql.selectWhitelist. rewrite W, S.
  rewrite (filter_saved c ivs _ _ _ _ F), Ev, whitelist_saved.
  eexists. split; [reflexivity|].
  cbn [JobView.row JobView.notifications_enabled JobView.notify_new_macs
       JobView.notify_unauthorized_macs JobView.notify_ip_changes
       JobView.whitelist JobView.ssh_hosts JobModel.jobData
       Job.notifications_enabled Job.notify_new_macs
       Job.notify_unauthorized_macs Job.notify_ip_changes].
  split; [reflexivity|].
  split; [now destruct (JobObject.notifications_enabled this)|].
  split; [now destruct (JobObject.notify_new_macs this)|].
  split; [now destruct (JobObject.notify_unauthorized_macs this)|].
  split; [now destruct (JobObject.notify_ip_changes this)|].
  split; [reflexivity|]. split; [apply indexOrder_perm|].
  split; [apply indexOrder_sorted|assumption].
Qed.

(** Two MACs given in descending order are read back in ascending
    order; the flag that was cleared is read back as false. *)
Lemma saved_job_is_found_again_witness :
  exists d' view,
    JobModel.save Sample.plainCrypto Sample.iv MacScanRunner.showNat 500
      (Sample.office ["aa:bb:cc:dd:ee:ff"; "00:11:22:33:44:55"])
      (Sample.store "days" [Sample.camera "active" 5])
    = Returned tt d'
    /\ JobModel.findById Sample.plainCrypto "job-1" d'
       = Returned (Some view) d'
    /\ JobView.whitelist view = ["00:11:22:33:44:55"; "aa:bb:cc:dd:ee:ff"]
    /\ JobView.notify_unauthorized_macs view = false.
Proof.
  eexists.
  assert (E : JobModel.save Sample.plainCrypto Sample.iv
                MacScanRunner.showNat 500
                (Sample.office ["aa:bb:cc:dd:ee:ff"; "00:11:22:33:44:55"])
                (Sample.store "days" [Sample.camera "active" 5])
              = Returned tt ?[d'])
    by (vm_compute; reflexivity).
  assert (Hc : forall t e, cipher Sample.plainCrypto t = Some e ->
                           decipher Sample.plainCrypto e = Some t)
    by (intros t e H; inversion H; reflexivity).
  destruct (saved_job_is_found_again
              Sample.plainCrypto Sample.iv MacScanRunner.showNat 500
              (Sample.office ["aa:bb:cc:dd:ee:ff"; "00:11:22:33:44:55"])
              (Sample.store "days" [Sample.camera "active" 5]) _
              Hc (fun _ => eq_refl) E)
    as (view & F & _ & _ & _ & U & _ & W & _).
  exists view. split; [exact E|]. split; [exact F|]. split; [exact W|exact U].
Defined.

(** ** A job that is not active *)

(** X22.  After [Job.updateStatus] has set a job to a status other
    than active, [runJob] refuses it: it throws that the job is already
    running or that it is not found or inactive, and changes nothing. *)
Theorem job_that_is_not_active_is_not_run env now id status d running :
  status <> "active" ->
  let d' := stateOf (JobModel.updateStatus now id status d) in
  exists message,
    MacScanRunner.runJob env id (MacScanRunner.mkRunner d' running)
    = Thrown message (MacScanRunner.mkRunner d' running)
    /\ (message = "Job is already running"
        \/ message = "Job not found or inactive").
Proof.
  intros Hs d'. unfold MacScanRunner.runJob.
  cbn [MacScanRunner.runningJobs MacScanRunner.db].
  destruct (JsMap.has id running); [eexists; split; [reflexivity|now left]|].
  assert (E : Sql.selectJob id "active" d' = None).
  { unfold d', JobModel.updateStatus, Sql.updateJobStatus, Sql.selectJob.
    cbn [stateOf jobs with_jobs].
    induction (jobs d) as [|j l IH]; [reflexivity|]. cbn [map find].
    destruct (String.eqb (Job.id j) id) eqn:Ej.
    - cbn [Job.id Job.status Job.with_status]. rewrite Ej.
      apply String.eqb_neq in Hs. rewrite Hs. exact IH.
    - rewrite Ej. exact IH. }
  rewrite E. eexists. split; [reflexivity|now right].
Qed.

Lemma job_that_is_not_active_is_not_run_witness :
  exists message,
    MacScanRunner.runJob (Sample.liveNetwork Sample.table) "job-1"
      (MacScanRunner.mkRunner
         (stateOf (JobModel.updateStatus 50 "job-1" "paused"
                     (Sample.store "days" [])))
         [])
    = Thrown message
        (MacScanRunner.mkRunner
           (stateOf (JobModel.updateStatus 50 "job-1" "paused"
                       (Sample.store "days" [])))
           []).
Proof.
  destruct (job_that_is_not_active_is_not_run
              (Sample.liveNetwork Sample.table) 50 "job-1" "paused"
              (Sample.store "days" []) [])
    as (message & E & _).
  - discriminate.
  - exists message. exact E.
Defined.

